(** * A personal finance tracker: [Transaction] records and the [Budget] ledger

    Shallow embedding of [Untitled-1.py]: the [Transaction] record, the
    [Budget] bookkeeping object with its JSON store, and the Python library
    behaviour they rest on (the [decimal] module under its default context,
    [float] and its [repr], the exception classes).

    Conventions.
    - A Python [str] is a [string] read as the sequence of its code points,
      all below 256.
    - A call that may raise returns a [result]; a method that mutates the
      [Budget] object or the file system threads both explicitly. *)

From Stdlib Require Import ZArith NArith Ascii String Lia ZifyN ZifyNat.
From stdpp Require Import gmap strings list.

#[local] Open Scope string_scope.
#[local] Open Scope Z_scope.

(** ** Python exceptions *)

(** The exception classes this program can raise, with the part of the class
    hierarchy that [except (ValueError, TypeError)] looks at.
    [decimal.InvalidOperation] and [decimal.Overflow] derive from
    [ArithmeticError], [KeyError] from [LookupError]: none is a
    [ValueError] or a [TypeError]. *)
Inductive exn : Type :=
| ValueError (msg : string)
| TypeError (msg : string)
| KeyError (key : string)
| InvalidOperation
| Overflow
| OSError.

Definition is_ValueError_or_TypeError (e : exn) : bool :=
  match e with
  | ValueError _ | TypeError _ => true
  | _ => false
  end.

Inductive result (A : Type) : Type :=
| Ok (a : A)
| Raise (e : exn).
Arguments Ok {A} a.
Arguments Raise {A} e.

(** Sequencing: an exception raised by the first computation skips the
    rest.  With these instances [x ← c; k] reads as two Python statements. *)
#[global] Instance result_ret : MRet result := fun A a => Ok a.
#[global] Instance result_bind : MBind result := fun A B k r =>
  match r with
  | Ok a => k a
  | Raise e => Raise e
  end.
#[global] Instance result_fmap : FMap result := fun A B f r =>
  match r with
  | Ok a => Ok (f a)
  | Raise e => Raise e
  end.

(** ** Python [str] methods *)

Module Str.

(** [str.isspace] on one code point below 256. *)
Definition is_space (c : ascii) : bool :=
  let n := N_of_ascii c in
  ((9 <=? n) && (n <=? 13) || (28 <=? n) && (n <=? 32)
   || (n =? 133) || (n =? 160))%N.

Definition is_digit (c : ascii) : bool :=
  let n := N_of_ascii c in ((48 <=? n) && (n <=? 57))%N.

Fixpoint lstrip (s : string) : string :=
  match s with
  | String c r => if is_space c then lstrip r else s
  | EmptyString => EmptyString
  end.

Fixpoint rstrip (s : string) : string :=
  match s with
  | EmptyString => EmptyString
  | String c r =>
      match rstrip r with
      | EmptyString => if is_space c then EmptyString else String c EmptyString
      | r' => String c r'
      end
  end.

(** [s.strip()] *)
Definition strip (s : string) : string := rstrip (lstrip s).

(** [s.replace("_", "")] *)
Fixpoint remove_underscores (s : string) : string :=
  match s with
  | EmptyString => EmptyString
  | String c r =>
      if Ascii.eqb c "_"%char then remove_underscores r
      else String c (remove_underscores r)
  end.

(** [s.startswith(p)] *)
Fixpoint startswith (s p : string) : bool :=
  match p, s with
  | EmptyString, _ => true
  | String a p', String b s' => Ascii.eqb a b && startswith s' p'
  | String _ _, EmptyString => false
  end.

(** Lower-casing of the letters [A]-[Z], for case-insensitive matching. *)
Definition lower_ascii (c : ascii) : ascii :=
  let n := N_of_ascii c in
  if ((65 <=? n) && (n <=? 90))%N then ascii_of_N (n + 32) else c.

Fixpoint lower (s : string) : string :=
  match s with
  | EmptyString => EmptyString
  | String c r => String (lower_ascii c) (lower r)
  end.

(** The longest prefix of decimal digits, and what follows it. *)
Fixpoint span_digits (s : string) : string * string :=
  match s with
  | String c r =>
      if is_digit c then let '(d, t) := span_digits r in (String c d, t)
      else (EmptyString, s)
  | EmptyString => (EmptyString, EmptyString)
  end.

(** [c * n] for a one-character string [c]. *)
Fixpoint repeat_char (c : ascii) (n : nat) : string :=
  match n with
  | O => EmptyString
  | S n' => String c (repeat_char c n')
  end.

Definition digit_char (d : N) : ascii := ascii_of_N (48 + d).
Definition digit_val (c : ascii) : N := N_of_ascii c - 48.

(** [int(s)] for a string [s] of decimal digits (callers pass the digits
    that [span_digits] returns); [int_of_digits ""] is 0. *)
Fixpoint int_of_digits_acc (s : string) (acc : N) : N :=
  match s with
  | EmptyString => acc
  | String c r => int_of_digits_acc r (10 * acc + digit_val c)
  end.
Definition int_of_digits (s : string) : N := int_of_digits_acc s 0.

(** [str(n)] for a natural number [n]: its decimal digits, most significant
    first, no leading zero.  The fuel is the bit length of [n], which bounds
    the number of decimal digits. *)
Fixpoint of_N_aux (fuel : nat) (n : N) (acc : string) : string :=
  let acc' := String (digit_char (n mod 10)) acc in
  match fuel with
  | O => acc'
  | S fuel' => if (n <? 10)%N then acc' else of_N_aux fuel' (n / 10) acc'
  end.
Definition of_N (n : N) : string := of_N_aux (N.to_nat (N.log2 n)) n "".

(** ["%+d" % z] *)
Definition of_Z_signed (z : Z) : string :=
  String (if z <? 0 then "-"%char else "+"%char) (of_N (Z.abs_N z)).

(** [s[i:]] *)
Fixpoint drop (n : nat) (s : string) : string :=
  match n, s with
  | O, _ => s
  | S n', String _ r => drop n' r
  | S _, EmptyString => EmptyString
  end.

(** [s[:i]] *)
Fixpoint take (n : nat) (s : string) : string :=
  match n, s with
  | S n', String c r => String c (take n' r)
  | _, _ => EmptyString
  end.

(** [all(P(c) for c in s)] *)
Fixpoint all (P : ascii -> bool) (s : string) : bool :=
  match s with
  | EmptyString => true
  | String c r => P c && all P r
  end.

(** Neither white space nor an underscore: what [strip] and
    [replace("_", "")] leave alone. *)
Definition is_plain (c : ascii) : bool :=
  negb (is_space c) && negb (Ascii.eqb c "_"%char).

End Str.

(** ** The [decimal] module, under its default context *)

Module decimal.

(** A [Decimal] is a sign, a coefficient and an exponent, or a special
    value.  [Finite s c e] stands for [(-1)^s * c * 10^e]; a NaN carries a
    diagnostic payload (0 when it prints as empty). *)
Inductive Decimal : Type :=
| Finite (sign : bool) (coeff : N) (exp : Z)
| Infinity (sign : bool)
| NaN (sign : bool) (signaling : bool) (payload : N).

(** [getcontext()]: [prec=28], [rounding=ROUND_HALF_EVEN], [Emin=-999999],
    [Emax=999999], [capitals=1], [clamp=0],
    [traps=[InvalidOperation, DivisionByZero, Overflow]]. *)
Definition prec : Z := 28.
Definition Emax : Z := 999999.
Definition Emin : Z := -999999.
Definition Etiny : Z := Emin - prec + 1.
Definition Etop : Z := Emax - prec + 1.

(** *** [Decimal(value)] for a string *)

(** An optional sign: [(?P<sign>[-+])?] *)
Definition parse_sign (s : string) : bool * string :=
  match s with
  | String "-" r => (true, r)
  | String "+" r => (false, r)
  | _ => (false, s)
  end.

(** [(E(?P<exp>[-+]?\d+))?\Z]: the value of the exponent, 0 when absent. *)
Definition parse_exponent (s : string) : option Z :=
  match s with
  | EmptyString => Some 0
  | String c r =>
      if Ascii.eqb (Str.lower_ascii c) "e" then
        let '(neg, r') := parse_sign r in
        match Str.span_digits r' with
        | (String d ds, EmptyString) =>
            let n := Z.of_N (Str.int_of_digits (String d ds)) in
            Some (if neg then - n else n)
        | _ => None
        end
      else None
  end.

(** [(?=\d|\.\d)]: a digit, or a point and a digit, come next. *)
Definition lookahead_number (s : string) : bool :=
  match s with
  | String c r =>
      Str.is_digit c
      || Ascii.eqb c "." && match r with
                            | String c' _ => Str.is_digit c'
                            | EmptyString => false
                            end
  | EmptyString => false
  end.

(** The numeric alternative of the pattern: a possibly empty run of digits
    ([int]), an optional point with a possibly empty run of digits ([frac]),
    an optional exponent, and the end of the string; the result is
    [int(intpart+fracpart)] and [exp - len(fracpart)]. *)
Definition parse_number (s : string) : option (N * Z) :=
  let '(intpart, r1) := Str.span_digits s in
  let '(fracpart, r2) :=
    match r1 with
    | String "." r => Str.span_digits r
    | _ => (EmptyString, r1)
    end in
  if lookahead_number s then
    match parse_exponent r2 with
    | Some e =>
        Some (Str.int_of_digits (intpart +:+ fracpart),
              e - Z.of_nat (String.length fracpart))
    | None => None
    end
  else None.

(** The special alternatives of the pattern, matched without regard to
    case: [Inf] or [Infinity]; or an optional [s], [NaN] and a possibly empty
    run of digits [diag].  The payload is [int(diag or '0')]. *)
Definition parse_special (sign : bool) (s : string) : option Decimal :=
  let l := Str.lower s in
  if String.eqb l "inf" || String.eqb l "infinity" then Some (Infinity sign)
  else
    let '(signal, r) :=
      match l with
      | String "s" r => (true, r)
      | _ => (false, l)
      end in
    if Str.startswith r "nan" then
      match Str.span_digits (Str.drop 3 r) with
      | (diag, EmptyString) => Some (NaN sign signal (Str.int_of_digits diag))
      | _ => None
      end
    else None.

(** [Decimal(value)] for [value : str]: the string is stripped, its
    underscores are removed, and it must match the numeric-string syntax in
    full; otherwise [ConversionSyntax] is signalled, which raises
    [InvalidOperation]. The conversion is exact: the context precision does
    not apply. *)
Definition of_str (value : string) : result Decimal :=
  let '(sign, r) := parse_sign (Str.remove_underscores (Str.strip value)) in
  match parse_number r with
  | Some (c, e) => Ok (Finite sign c e)
  | None =>
      match parse_special sign r with
      | Some d => Ok d
      | None => Raise InvalidOperation
      end
  end.

(** [Decimal(value)] for [value : int] *)
Definition of_int (z : Z) : Decimal := Finite (z <? 0) (Z.abs_N z) 0.

(** *** [Decimal.__str__] *)

Definition sign_str (sign : bool) : string := if sign then "-" else "".

(** The scientific string of the General Decimal Arithmetic specification,
    as [__str__] builds it from [self._int] and [self._exp]. *)
Definition to_str (d : Decimal) : string :=
  match d with
  | Infinity s => sign_str s +:+ "Infinity"
  | NaN s signal p =>
      sign_str s +:+ (if signal then "sNaN" else "NaN")
      +:+ (if (p =? 0)%N then "" else Str.of_N p)
  | Finite s c e =>
      let _int := Str.of_N c in
      let len := Z.of_nat (String.length _int) in
      let leftdigits := e + len in
      let dotplace :=
        if (e <=? 0) && (-6 <? leftdigits) then leftdigits else 1 in
      let intpart :=
        if dotplace <=? 0 then "0"
        else if len <=? dotplace
             then _int +:+ Str.repeat_char "0" (Z.to_nat (dotplace - len))
             else Str.take (Z.to_nat dotplace) _int in
      let fracpart :=
        if dotplace <=? 0
        then "." +:+ Str.repeat_char "0" (Z.to_nat (- dotplace)) +:+ _int
        else if len <=? dotplace then ""
             else "." +:+ Str.drop (Z.to_nat dotplace) _int in
      let exp :=
        if leftdigits =? dotplace then ""
        else "E" +:+ Str.of_Z_signed (leftdigits - dotplace) in
      sign_str s +:+ intpart +:+ fracpart +:+ exp
  end.

(** *** Arithmetic under the context *)

(** [len(self._int)] *)
Definition ndigits (c : N) : Z := Z.of_nat (String.length (Str.of_N c)).

(** [ROUND_HALF_EVEN] when the last [k] digits of [c] are dropped: whether
    the kept digits are to be incremented. *)
Definition round_up_half_even (c : N) (k : Z) : bool :=
  let p := (10 ^ Z.to_N k)%N in
  let q := (c / p)%N in
  let r := (c mod p)%N in
  (p <? 2 * r)%N || (p =? 2 * r)%N && N.odd q.

(** [c] without its last [k] digits, rounded. *)
Definition round_half_even (c : N) (k : Z) : N :=
  let q := (c / 10 ^ Z.to_N k)%N in
  if round_up_half_even c k then (q + 1)%N else q.

(** [_fix_nan]: the payload keeps its last [prec] digits. *)
Definition _fix_nan (sign signaling : bool) (payload : N) : Decimal :=
  NaN sign signaling (payload mod 10 ^ Z.to_N prec)%N.

(** [_fix]: round to the context.  A coefficient of more than [prec]
    digits is rounded half-even; a result above [Emax] signals [Overflow],
    which is trapped and so raised; below [Emin] the result is subnormal,
    rounded at [Etiny] ([Underflow], [Inexact], [Rounded], [Subnormal] and
    [Clamped] are not trapped). *)
Definition _fix (d : Decimal) : result Decimal :=
  match d with
  | NaN s signal p => Ok (_fix_nan s signal p)
  | Infinity _ => Ok d
  | Finite s c e =>
      if (c =? 0)%N then Ok (Finite s 0 (Z.min (Z.max e Etiny) Emax))
      else
        let exp_min := ndigits c + e - prec in
        if Etop <? exp_min then Raise Overflow
        else
          let exp_min := Z.max exp_min Etiny in
          if e <? exp_min then
            let coeff := round_half_even c (exp_min - e) in
            let '(coeff, exp_min) :=
              if prec <? ndigits coeff then ((coeff / 10)%N, exp_min + 1)
              else (coeff, exp_min) in
            if Etop <? exp_min then Raise Overflow
            else Ok (Finite s coeff exp_min)
          else Ok d
  end.

(** [_rescale(exp, rounding)] on a finite number. *)
Definition _rescale (s : bool) (c : N) (e : Z) (exp : Z) : Decimal :=
  if (c =? 0)%N then Finite s 0 exp
  else if exp <=? e then Finite s (c * 10 ^ Z.to_N (e - exp))%N exp
  else Finite s (round_half_even c (exp - e)) exp.

(** The signed coefficient of a finite number once its exponent is lowered
    to [m <= e]. *)
Definition units (m : Z) (s : bool) (c : N) (e : Z) : Z :=
  (if s then -1 else 1) * Z.of_N c * 10 ^ (e - m).

(** [_check_nans]: a signaling NaN raises [InvalidOperation] (trapped);
    otherwise the first quiet NaN is the answer. *)
Definition _check_nans (a b : Decimal) : option (result Decimal) :=
  match a, b with
  | NaN _ true _, _ => Some (Raise InvalidOperation)
  | _, NaN _ true _ => Some (Raise InvalidOperation)
  | NaN s false p, _ => Some (Ok (_fix_nan s false p))
  | _, NaN s false p => Some (Ok (_fix_nan s false p))
  | _, _ => None
  end.

(** [self.__add__(other)].  On two non-zero finite operands the library
    aligns the exponents ([_normalize]), adds the signed coefficients and
    rounds the sum with [_fix]; here the operands are aligned exactly at
    [min(self._exp, other._exp)], which gives the same rounded result.  The
    last case is never reached: [_check_nans] has answered for every NaN. *)
Definition __add__ (self other : Decimal) : result Decimal :=
  match _check_nans self other with
  | Some ans => ans
  | None =>
      match self, other with
      | Infinity s1, Infinity s2 =>
          if Bool.eqb s1 s2 then Ok self else Raise InvalidOperation
      | Infinity _, _ => Ok self
      | _, Infinity _ => Ok other
      | Finite s1 c1 e1, Finite s2 c2 e2 =>
          let exp := Z.min e1 e2 in
          if (c1 =? 0)%N && (c2 =? 0)%N then _fix (Finite (s1 && s2) 0 exp)
          else if (c1 =? 0)%N then
            _fix (_rescale s2 c2 e2 (Z.max exp (e2 - prec - 1)))
          else if (c2 =? 0)%N then
            _fix (_rescale s1 c1 e1 (Z.max exp (e1 - prec - 1)))
          else
            let v := units exp s1 c1 e1 + units exp s2 c2 e2 in
            if v =? 0 then _fix (Finite false 0 exp)
            else _fix (Finite (v <? 0) (Z.abs_N v) exp)
      | _, _ => Raise InvalidOperation
      end
  end.

(** [copy_negate] *)
Definition copy_negate (d : Decimal) : Decimal :=
  match d with
  | Finite s c e => Finite (negb s) c e
  | Infinity s => Infinity (negb s)
  | NaN s signal p => NaN (negb s) signal p
  end.

(** [self.__sub__(other)] *)
Definition __sub__ (self other : Decimal) : result Decimal :=
  match _check_nans self other with
  | Some ans => ans
  | None => __add__ self (copy_negate other)
  end.

(** [_isinfinity]: 1, -1 or 0. *)
Definition _isinfinity (d : Decimal) : Z :=
  match d with
  | Infinity false => 1
  | Infinity true => -1
  | _ => 0
  end.

(** [_cmp], for operands that are not NaN: the order of the values (the
    source compares signs, adjusted exponents and padded digit strings). *)
Definition _cmp (self other : Decimal) : comparison :=
  match self, other with
  | Finite s1 c1 e1, Finite s2 c2 e2 =>
      let m := Z.min e1 e2 in
      units m s1 c1 e1 ?= units m s2 c2 e2
  | _, _ => _isinfinity self ?= _isinfinity other
  end.

Definition is_nan (d : Decimal) : bool :=
  match d with
  | NaN _ _ _ => true
  | _ => false
  end.

(** [self.__le__(other)]: an ordering comparison that involves a NaN, quiet
    or signaling, signals [InvalidOperation], which is trapped. *)
Definition __le__ (self other : Decimal) : result bool :=
  if is_nan self || is_nan other then Raise InvalidOperation
  else Ok (match _cmp self other with Gt => false | _ => true end).

(** [self.__bool__()]: false for a zero, true otherwise. *)
Definition __bool__ (d : Decimal) : bool :=
  match d with
  | Finite _ c _ => negb (c =? 0)%N
  | _ => true
  end.

End decimal.

(** ** Python [float]: IEEE 754 binary64 *)

Module float.

(** [Fin s m e] is [(-1)^s * m * 2^e]: a zero has [m = 0] (and [e = 0]);
    a normal number has [2^52 <= m < 2^53] and [-1074 <= e <= 971]; a
    subnormal one has [m < 2^52] and [e = -1074]. *)
Inductive float : Type :=
| Nan
| Inf (sign : bool)
| Fin (sign : bool) (m : N) (e : Z).

(** [n / d] rounded to the nearest integer, a tie going to the even one. *)
Definition div_half_even (n d : N) : N :=
  let q := (n / d)%N in
  let r := (n mod d)%N in
  if (d <? 2 * r)%N || (d =? 2 * r)%N && N.odd q then (q + 1)%N else q.

(** [p / q * 2^(-e)] as a fraction. *)
Definition scale2 (p q : N) (e : Z) : N * N :=
  if e <? 0 then ((p * 2 ^ Z.to_N (- e))%N, q) else (p, (q * 2 ^ Z.to_N e)%N).

(** The binary64 number nearest to [p / q] (round-half-even), with the given
    sign; [inf] past the largest finite number. *)
Definition of_ratio (sign : bool) (p q : N) : float :=
  if (p =? 0)%N then Fin sign 0 0
  else
    let e0 := Z.of_N (N.log2 p) - Z.of_N (N.log2 q) - 52 in
    let '(n0, d0) := scale2 p q e0 in
    let e1 := if (n0 <? d0 * 2 ^ 52)%N then e0 - 1 else e0 in
    let e := Z.max e1 (-1074) in
    let '(n, d) := scale2 p q e in
    let m := div_half_even n d in
    let '(m, e) := if (m =? 2 ^ 53)%N then ((2 ^ 52)%N, e + 1) else (m, e) in
    if 971 <? e then Inf sign
    else if (m =? 0)%N then Fin sign 0 0
    else Fin sign m e.

(** [float(d)] for a [Decimal]: [float(str(d))], the nearest binary64
    number; a signaling NaN raises [ValueError]. *)
Definition of_Decimal (d : decimal.Decimal) : result float :=
  match d with
  | decimal.NaN _ true _ =>
      Raise (ValueError "cannot convert signaling NaN to float")
  | decimal.NaN _ false _ => Ok Nan
  | decimal.Infinity s => Ok (Inf s)
  | decimal.Finite s c e =>
      Ok (if e <? 0 then of_ratio s c (10 ^ Z.to_N (- e))%N
          else of_ratio s (c * 10 ^ Z.to_N e)%N 1)
  end.

(** *** [repr]: the shortest digit string that reads back as the same float *)

(** [floor (log10 (p / q))] for [p, q > 0]. *)
Fixpoint neg_log10 (fuel : nat) (p q : N) : Z :=
  match fuel with
  | O => 0
  | S fuel' => if (p <? q)%N then neg_log10 fuel' (10 * p)%N q - 1 else 0
  end.

Definition floor_log10 (p q : N) : Z :=
  if (q <=? p)%N then decimal.ndigits (p / q) - 1
  else neg_log10 400 p q.

(** [d * 10^s] as a fraction. *)
Definition scale10 (p q : N) (s : Z) : N * N :=
  if s <? 0 then ((p * 10 ^ Z.to_N (- s))%N, q) else (p, (q * 10 ^ Z.to_N s)%N).

Definition reads_back (sign : bool) (m : N) (e : Z) (d : N) (s : Z) : bool :=
  let '(p, q) := scale10 1 1 (- s) in
  match of_ratio sign (d * p) q with
  | Fin _ m' e' => (m' =? m)%N && (e' =? e)
  | _ => false
  end.

(** The candidate with [n] significant digits, if one reads back as
    [m * 2^e]: the digits as a number [d] and the exponent [s] of its last
    digit, so that the candidate is [d * 10^s].  Of the two [n]-digit numbers
    around the value the nearer one is preferred (the even one on a tie). *)
Definition candidate (m : N) (e : Z) (k : Z) (n : Z) : option (N * Z) :=
  let '(p, q) := scale2 m 1 (- e) in
  let s := k - n + 1 in
  let '(p', q') := scale10 p q s in
  let lo := (p' / q')%N in
  let r := (p' mod q')%N in
  let hi := (lo + 1)%N in
  let lo_ok := reads_back false m e lo s in
  let hi_ok := reads_back false m e hi s in
  let up := (q' <? 2 * r)%N || (q' =? 2 * r)%N && N.odd lo in
  if (r =? 0)%N then Some (lo, s)
  else if lo_ok && hi_ok then Some (if up then hi else lo, s)
  else if lo_ok then Some (lo, s)
  else if hi_ok then Some (hi, s)
  else None.

Fixpoint shortest (fuel : nat) (m : N) (e : Z) (k : Z) (n : Z) : N * Z :=
  match fuel with
  | O => (0%N, 0)
  | S fuel' =>
      match candidate m e k n with
      | Some ds => ds
      | None => shortest fuel' m e k (n + 1)
      end
  end.

(** Trailing zeros of the digits move into the exponent. *)
Fixpoint strip_zeros (fuel : nat) (d : N) (s : Z) : N * Z :=
  match fuel with
  | O => (d, s)
  | S fuel' =>
      if (d mod 10 =? 0)%N then strip_zeros fuel' (d / 10)%N (s + 1) else (d, s)
  end.

(** The digits of [repr] and the position [decpt] of the decimal point
    relative to their start: the value is [0.digits * 10^decpt]. *)
Definition shortest_digits (m : N) (e : Z) : string * Z :=
  let '(p, q) := scale2 m 1 (- e) in
  let k := floor_log10 p q in
  let '(d, s) := shortest 17 m e k 1 in
  let '(d, s) := strip_zeros 17 d s in
  let digits := Str.of_N d in
  (digits, s + Z.of_nat (String.length digits)).

(** The exponent of the [e] notation: a sign and at least two digits. *)
Definition exponent_str (x : Z) : string :=
  let digits := Str.of_N (Z.abs_N x) in
  String (if x <? 0 then "-"%char else "+"%char)
    (if (String.length digits <? 2)%nat then "0" +:+ digits else digits).

(** [repr(x)], which is also [str(x)] and what [json.dump] writes for a
    finite [x]. *)
Definition repr (x : float) : string :=
  match x with
  | Nan => "nan"
  | Inf s => decimal.sign_str s +:+ "inf"
  | Fin s m e =>
      if (m =? 0)%N then decimal.sign_str s +:+ "0.0"
      else
        let '(digits, decpt) := shortest_digits m e in
        let len := Z.of_nat (String.length digits) in
        decimal.sign_str s +:+
        (if (decpt <=? -4) || (16 <? decpt) then
           Str.take 1 digits
           +:+ (if 1 <? len then "." +:+ Str.drop 1 digits else "")
           +:+ "e" +:+ exponent_str (decpt - 1)
         else if decpt <=? 0 then
           "0." +:+ Str.repeat_char "0" (Z.to_nat (- decpt)) +:+ digits
         else if len <=? decpt then
           digits +:+ Str.repeat_char "0" (Z.to_nat (decpt - len)) +:+ ".0"
         else
           Str.take (Z.to_nat decpt) digits +:+ "."
           +:+ Str.drop (Z.to_nat decpt) digits)
  end.

End float.

(** ** [datetime.now()] and [strftime] *)

Record datetime : Type := { year : N; month : N; day : N }.

(** A number zero-padded to [width] digits, as [%Y], [%m] and [%d] print
    the fields of a date (years from 1000 on). *)
Definition zero_pad (width : nat) (n : N) : string :=
  Str.repeat_char "0" (width - String.length (Str.of_N n)) +:+ Str.of_N n.

(** [strftime("%Y-%m")] *)
Definition strftime_Ym (t : datetime) : string :=
  zero_pad 4 (year t) +:+ "-" +:+ zero_pad 2 (month t).

(** [strftime("%Y-%m-%d")] *)
Definition strftime_Ymd (t : datetime) : string :=
  strftime_Ym t +:+ "-" +:+ zero_pad 2 (day t).

(** ** Python values of the types the program passes around *)

Import decimal.

(** [Union[Decimal, str]], the type of the [amount] argument. *)
Inductive amount_arg : Type :=
| AmountStr (s : string)
| AmountDecimal (d : Decimal).

(** [str(amount)] *)
Definition str_of_amount (a : amount_arg) : string :=
  match a with
  | AmountStr s => s
  | AmountDecimal d => to_str d
  end.

(** [Decimal(amount)]: a string is parsed, a [Decimal] is taken as it is. *)
Definition Decimal_of_amount (a : amount_arg) : result Decimal :=
  match a with
  | AmountStr s => of_str s
  | AmountDecimal d => Ok d
  end.

(** [not amount]: the empty string and a zero [Decimal] are falsy. *)
Definition amount_is_falsy (a : amount_arg) : bool :=
  match a with
  | AmountStr s => String.eqb s ""
  | AmountDecimal d => negb (__bool__ d)
  end.

(** What [sum] and [-] return here: the [int] 0 of an empty [sum], or a
    [Decimal]. *)
Inductive number : Type :=
| Int (z : Z)
| Dec (d : Decimal).

(** [a + b]: [int + Decimal] goes to [Decimal.__radd__], which converts the
    [int] and is [__add__]. *)
Definition number_add (a b : number) : result number :=
  match a, b with
  | Int x, Int y => Ok (Int (x + y))
  | Int x, Dec d => Dec <$> __add__ d (of_int x)
  | Dec d, Int y => Dec <$> __add__ d (of_int y)
  | Dec d1, Dec d2 => Dec <$> __add__ d1 d2
  end.

(** [a - b]: [int - Decimal] goes to [Decimal.__rsub__], which converts the
    [int] and subtracts from it. *)
Definition number_sub (a b : number) : result number :=
  match a, b with
  | Int x, Int y => Ok (Int (x - y))
  | Int x, Dec d => Dec <$> __sub__ (of_int x) d
  | Dec d, Int y => Dec <$> __sub__ d (of_int y)
  | Dec d1, Dec d2 => Dec <$> __sub__ d1 d2
  end.

(** [sum(iterable)]: additions from the left, starting at the [int] 0. *)
Fixpoint sum_from (start : number) (l : list Decimal) : result number :=
  match l with
  | [] => Ok start
  | d :: l' => s ← number_add start (Dec d); sum_from s l'
  end.

Definition sum (l : list Decimal) : result number := sum_from (Int 0) l.

(** ** [class Transaction] *)

Record Transaction : Type := {
  description : string;
  amount : Decimal;
  category : string;
  date : string
}.

(** [Transaction.__init__(self, description, amount, category)], run at the
    date [today]: the amount goes through [Decimal(str(amount))], which
    raises [InvalidOperation] on a string that is not a numeric string;
    nothing else is checked. *)
Definition Transaction_init (today : datetime) (description : string)
    (amount : amount_arg) (category : string) : result Transaction :=
  a ← of_str (str_of_amount amount);
  Ok {| description := description; amount := a; category := category;
        date := strftime_Ymd today |}.

(** The dictionary that [to_dict] returns, and [json.dump] writes as an
    object with these four keys. *)
Record TransactionDict : Type := {
  dict_description : string;
  dict_amount : float.float;
  dict_category : string;
  dict_date : string
}.

(** [Transaction.to_dict(self)] *)
Definition to_dict (t : Transaction) : result TransactionDict :=
  a ← float.of_Decimal (amount t);
  Ok {| dict_description := description t; dict_amount := a;
        dict_category := category t; dict_date := date t |}.

(** [Transaction.from_dict(cls, data)]: the constructor is called with the
    description, the amount and the category of [data]. *)
Definition from_dict (today : datetime) (data : TransactionDict)
    : result Transaction :=
  a ← of_str (float.repr (dict_amount data));
  Transaction_init today (dict_description data) (AmountDecimal a)
    (dict_category data).

(** [class Income(Transaction)] and [class Expense(Transaction)]: the
    constructors differ in the default category only. *)
Definition Income (today : datetime) (description : string)
    (amount : amount_arg) (category : option string) : result Transaction :=
  Transaction_init today description amount (default "Salary" category).

Definition Expense (today : datetime) (description : string)
    (amount : amount_arg) (category : option string) : result Transaction :=
  Transaction_init today description amount (default "Other" category).

(** ** [class Budget] *)

Record Budget : Type := {
  income_categories : list string;
  expense_categories : list string;
  filename : string;
  incomes : list Transaction;
  expenses : list Transaction
}.

(** The document in the store: an object whose [income] and [expenses] keys,
    when present, hold arrays of transaction objects. *)
Record StoreData : Type := {
  data_income : option (list TransactionDict);
  data_expenses : option (list TransactionDict)
}.

(** What the program sees of its environment: the clock, the files by name,
    and whether a file can be opened for writing. *)
Record World : Type := {
  now : datetime;
  files : gmap string StoreData;
  writable : bool
}.

(** A method of [Budget]: it may change the object and the world, and
    returns or raises. *)
Definition py (A : Type) : Type := Budget * World -> Budget * World * result A.

#[global] Instance py_ret : MRet py := fun A a st => (st, Ok a).
#[global] Instance py_bind : MBind py := fun A B k m st =>
  match m st with
  | (st', Ok a) => k a st'
  | (st', Raise e) => (st', Raise e)
  end.

Definition raise {A} (e : exn) : py A := fun st => (st, Raise e).
Definition lift {A} (r : result A) : py A := fun st => (st, r).
Definition get_self : py Budget := fun st => (st, Ok (fst st)).
Definition get_world : py World := fun st => (st, Ok (snd st)).
Definition put_self (b : Budget) : py unit := fun st => ((b, snd st), Ok tt).
Definition put_world (w : World) : py unit := fun st => ((fst st, w), Ok tt).

(** [try: body except (ValueError, TypeError): handler] *)
Definition try_except_ValueError_TypeError {A} (body handler : py A) : py A :=
  fun st =>
    match body st with
    | (st', Raise e) =>
        if is_ValueError_or_TypeError e then handler st' else (st', Raise e)
    | r => r
    end.

Definition with_incomes (b : Budget) (l : list Transaction) : Budget :=
  {| income_categories := income_categories b;
     expense_categories := expense_categories b;
     filename := filename b; incomes := l; expenses := expenses b |}.

Definition with_expenses (b : Budget) (l : list Transaction) : Budget :=
  {| income_categories := income_categories b;
     expense_categories := expense_categories b;
     filename := filename b; incomes := incomes b; expenses := l |}.

Definition with_file (w : World) (name : string) (data : StoreData) : World :=
  {| now := now w; files := <[name := data]> (files w);
     writable := writable w |}.

(** [Budget.load_data(self)] *)
Definition load_data : py unit :=
  self ← get_self;
  w ← get_world;
  match files w !! filename self with
  | Some data =>
      l ← lift (mapM (from_dict (now w)) (default [] (data_income data)));
      put_self (with_incomes self l);;
      self ← get_self;
      l ← lift (mapM (from_dict (now w)) (default [] (data_expenses data)));
      put_self (with_expenses self l)
  | None => mret tt
  end.

(** The [data] dictionary of [save_data]: both sequences, each record
    through [to_dict]. *)
Definition store_data (self : Budget) : result StoreData :=
  income ← mapM to_dict (incomes self);
  expenses ← mapM to_dict (expenses self);
  Ok {| data_income := Some income; data_expenses := Some expenses |}.

(** [Budget.save_data(self)]: the whole document is built, then the file is
    opened for writing and the document replaces its content. *)
Definition save_data : py unit :=
  self ← get_self;
  data ← lift (store_data self);
  w ← get_world;
  if writable w then put_world (with_file w (filename self) data)
  else raise OSError.

(** [Budget.__init__(self)] *)
Definition Budget_init (w : World) : Budget * World * result unit :=
  load_data
    ({| income_categories := ["Salary"; "Investment"; "Business"; "Other"];
        expense_categories :=
          ["Food"; "Transportation"; "Housing"; "Entertainment"; "Other"];
        filename := "budget_data.json";
        incomes := []; expenses := [] |}, w).

(** [t.amount <= 0]: the [int] is converted and [Decimal.__le__] decides. *)
Definition amount_le_0 (t : Transaction) : result bool :=
  __le__ (amount t) (of_int 0).

(** What the [except (ValueError, TypeError)] clause of the add operations
    makes of an exception raised in their [try] block. *)
Definition reraised (e : exn) : exn :=
  if is_ValueError_or_TypeError e then ValueError "Invalid amount" else e.

(** [Budget.add_income(self, description, amount, category='Salary')] *)
Definition add_income (description : string) (amount : amount_arg)
    (category : option string) : py unit :=
  if String.eqb description "" || amount_is_falsy amount then
    raise (ValueError "Description and amount are required")
  else
    try_except_ValueError_TypeError
      (w ← get_world;
       a ← lift (Decimal_of_amount amount);
       income ← lift (Income (now w) description (AmountDecimal a) category);
       nonpositive ← lift (amount_le_0 income);
       if nonpositive : bool then raise (ValueError "Amount must be positive")
       else
         self ← get_self;
         put_self (with_incomes self (incomes self ++ [income]));;
         save_data)
      (raise (ValueError "Invalid amount")).

(** [Budget.add_expense(self, description, amount, category='Other')] *)
Definition add_expense (description : string) (amount : amount_arg)
    (category : option string) : py unit :=
  if String.eqb description "" || amount_is_falsy amount then
    raise (ValueError "Description and amount are required")
  else
    try_except_ValueError_TypeError
      (w ← get_world;
       a ← lift (Decimal_of_amount amount);
       expense ← lift (Expense (now w) description (AmountDecimal a) category);
       nonpositive ← lift (amount_le_0 expense);
       if nonpositive : bool then raise (ValueError "Amount must be positive")
       else
         self ← get_self;
         put_self (with_expenses self (expenses self ++ [expense]));;
         save_data)
      (raise (ValueError "Invalid amount")).

(** [Budget.get_total_income(self)] *)
Definition get_total_income (self : Budget) : result number :=
  sum (amount <$> incomes self).

(** [Budget.get_total_expenses(self)] *)
Definition get_total_expenses (self : Budget) : result number :=
  sum (amount <$> expenses self).

(** [Budget.get_balance(self)] *)
Definition get_balance (self : Budget) : result number :=
  income ← get_total_income self;
  expenses ← get_total_expenses self;
  number_sub income expenses.

(** [category_totals[expense.category] += expense.amount]: the item is
    read, which raises [KeyError] on a key the dictionary does not have,
    added to, and stored back. *)
Definition add_to_category (category_totals : gmap string Decimal)
    (expense : Transaction) : result (gmap string Decimal) :=
  match category_totals !! category expense with
  | None => Raise (KeyError (category expense))
  | Some total =>
      total' ← __add__ total (amount expense);
      Ok (<[category expense := total']> category_totals)
  end.

(** The [for expense in self.expenses] loop. *)
Fixpoint add_expenses_to_categories (category_totals : gmap string Decimal)
    (l : list Transaction) : result (gmap string Decimal) :=
  match l with
  | [] => Ok category_totals
  | expense :: l' =>
      category_totals' ← add_to_category category_totals expense;
      add_expenses_to_categories category_totals' l'
  end.

(** [Budget.get_expenses_by_category(self)]: the dictionary starts with
    [Decimal('0')] at each of [self.expense_categories]. *)
Definition get_expenses_by_category (self : Budget)
    : result (gmap string Decimal) :=
  let category_totals : gmap string Decimal :=
    list_to_map ((fun category => (category, Finite false 0 0))
                   <$> expense_categories self) in
  add_expenses_to_categories category_totals (expenses self).

(** The dictionary that [get_monthly_summary] returns, with its keys
    [income], [expenses] and [balance]. *)
Record MonthlySummary : Type := {
  summary_income : number;
  summary_expenses : number;
  summary_balance : number
}.

(** [x.amount for x in l if x.date.startswith(current_month)] *)
Fixpoint amounts_of_month (current_month : string) (l : list Transaction)
    : list Decimal :=
  match l with
  | [] => []
  | x :: l' =>
      if Str.startswith (date x) current_month
      then amount x :: amounts_of_month current_month l'
      else amounts_of_month current_month l'
  end.

(** [Budget.get_monthly_summary(self)], run at the date [today]. *)
Definition get_monthly_summary (today : datetime) (self : Budget)
    : result MonthlySummary :=
  let current_month := strftime_Ym today in
  monthly_income ← sum (amounts_of_month current_month (incomes self));
  monthly_expenses ← sum (amounts_of_month current_month (expenses self));
  balance ← number_sub monthly_income monthly_expenses;
  Ok {| summary_income := monthly_income;
        summary_expenses := monthly_expenses;
        summary_balance := balance |}.

(** ** The routes that call the add operations *)

(** What a route returns: the redirect to the index page, or a message
    with the status 400.  An exception that leaves the route is the
    server's error 500. *)
Inductive response : Type :=
| Redirect
| BadRequest (message : string).

(** [try: body except ValueError as e: return str(e), 400], where [str(e)]
    is the message of the exception. *)
Definition try_except_ValueError (body : py response) : py response :=
  fun st =>
    match body st with
    | (st', Raise (ValueError msg)) => (st', Ok (BadRequest msg))
    | r => r
    end.

(** The route [/add_income], on the form fields [description] and
    [amount]. *)
Definition route_add_income (form_description form_amount : string)
    : py response :=
  try_except_ValueError
    (let description := Str.strip form_description in
     let amount := form_amount in
     if String.eqb description "" || (100 <? String.length description)%nat
     then raise (ValueError "Invalid description length")
     else
       add_income description (AmountStr amount) None;;
       mret Redirect).

(** The route [/add_expense]. *)
Definition route_add_expense (form_description form_amount : string)
    : py response :=
  try_except_ValueError
    (let description := Str.strip form_description in
     let amount := form_amount in
     if String.eqb description "" || (100 <? String.length description)%nat
     then raise (ValueError "Invalid description length")
     else
       add_expense description (AmountStr amount) None;;
       mret Redirect).

(** ** The index route *)

(** [float(x)] for what [sum] and [-] return: an [int] (here always the 0
    of an empty [sum], far inside the range of [float]) is rounded to the
    nearest [float]; a [Decimal] goes through [Decimal.__float__]. *)
Definition float_of_number (n : number) : result float.float :=
  match n with
  | Int z => Ok (float.of_ratio (z <? 0) (Z.abs_N z) 1)
  | Dec d => float.of_Decimal d
  end.

(** The [summary] dictionary that [index] hands to the template. *)
Record IndexSummary : Type := {
  index_total_income : float.float;
  index_total_expenses : float.float;
  index_balance : float.float;
  index_income : list TransactionDict;
  index_expenses : list TransactionDict
}.

(** The route [/], up to the call of [render_template]: the entries of
    [summary] are computed in the order of the dictionary display.  Nothing
    is caught: an exception leaves the route. *)
Definition index : py IndexSummary :=
  self ← get_self;
  total_income ← lift (n ← get_total_income self; float_of_number n);
  total_expenses ← lift (n ← get_total_expenses self; float_of_number n);
  balance ← lift (n ← get_balance self; float_of_number n);
  income ← lift (mapM to_dict (incomes self));
  expenses ← lift (mapM to_dict (expenses self));
  mret {| index_total_income := total_income;
          index_total_expenses := total_expenses;
          index_balance := balance;
          index_income := income;
          index_expenses := expenses |}.

(** ** Notions used in the statements *)


(** [total + d1 + d2 + ...] in [Decimal] arithmetic, from the left: what
    repeated [+=] computes. *)
Fixpoint add_all (total : Decimal) (l : list Decimal) : result Decimal :=
  match l with
  | [] => Ok total
  | d :: l' => total' ← __add__ total d; add_all total' l'
  end.

(** The amounts of the records of category [k], in their order. *)
Definition amounts_of_category (k : string) (l : list Transaction)
    : list Decimal :=
  amount <$> List.filter (fun t => String.eqb (category t) k) l.

(** The value of a finite [Decimal] counted in units of [10^m], for [m]
    at most its exponent (0 for a special value). *)
Definition units_of (m : Z) (d : Decimal) : Z :=
  match d with
  | Finite s c e => units m s c e
  | _ => 0
  end.

(** Finite, with an exponent of at least [m]. *)
Definition finite_above (m : Z) (d : Decimal) : bool :=
  match d with
  | Finite _ _ e => m <=? e
  | _ => false
  end.

(** The exact sum of the amounts, and the sum of their absolute values, in
    units of [10^m]. *)
Definition exact_sum (m : Z) (l : list Decimal) : Z :=
  foldr Z.add 0 (units_of m <$> l).
Definition abs_sum (m : Z) (l : list Decimal) : Z :=
  foldr Z.add 0 ((fun d => Z.abs (units_of m d)) <$> l).

(** The value of what [sum] returns, in units of [10^m] for [m <= 0]. *)
Definition number_units (m : Z) (n : number) : Z :=
  match n with
  | Int z => z * 10 ^ (- m)
  | Dec d => units_of m d
  end.

(** What [sum] holds on the way when nothing special comes in: the [int] 0
    it starts from, or a finite [Decimal] with an exponent of at least [m]. *)
Definition exact_number (m : Z) (n : number) : Prop :=
  match n with
  | Int z => z = 0
  | Dec d => finite_above m d = true
  end.

Definition InvalidAmount : exn := ValueError "Invalid amount".

(** [Decimal.is_snan] *)
Definition is_snan (d : Decimal) : bool :=
  match d with
  | NaN _ true _ => true
  | _ => false
  end.

(** What the test [amount <= 0] of the add operations lets through: a
    finite number above zero, or [Infinity]. *)
Definition is_positive (d : Decimal) : bool :=
  match d with
  | Finite false c _ => negb (c =? 0)%N
  | Infinity false => true
  | _ => false
  end.

(** Finite, or [Infinity]: what a sum of amounts above zero can be. *)
Definition above_minus_infinity (d : Decimal) : bool :=
  match d with
  | Finite _ _ _ | Infinity false => true
  | _ => false
  end.

(** A record as the add operations make them: a description that is not
    empty and an amount above zero. *)
Definition accepted (t : Transaction) : bool :=
  negb (String.eqb (description t) "") && is_positive (amount t).

(** What the [try] and [except ValueError] of a route make of the outcome
    of the ledger call they wrap: the redirect when the call returned, the
    status 400 with the message on a [ValueError]; another exception leaves
    the route. *)
Definition route_answer (r : Budget * World * result unit)
    : Budget * World * result response :=
  match r with
  | (st', Ok _) => (st', Ok Redirect)
  | (st', Raise (ValueError msg)) => (st', Ok (BadRequest msg))
  | (st', Raise e) => (st', Raise e)
  end.

(** What a record [t] is once it went through [to_dict], the store and
    [from_dict] at the date [today]: the same description and category,
    the date of the load, and the amount that [Decimal] reads from the
    [repr] of the [float] of the amount. *)
Definition reloaded_as (today : datetime) (t t' : Transaction) : Prop :=
  description t' = description t
  /\ category t' = category t
  /\ date t' = strftime_Ymd today
  /\ exists f, float.of_Decimal (amount t) = Ok f
               /\ of_str (float.repr f) = Ok (amount t').

(** A ledger and a world to run the operations in. *)
Module Scenario.

Definition jan15 : datetime := {| year := 2024; month := 1; day := 15 |}.
Definition feb01 : datetime := {| year := 2024; month := 2; day := 1 |}.

Definition world (today : datetime) (files : gmap string StoreData) : World :=
  {| now := today; files := files; writable := true |}.

(** The ledger of a first run, with no store yet. *)
Definition fresh : Budget * World :=
  (Budget_init (world jan15 ∅)).1.

Definition paycheck : Transaction :=
  {| description := "Paycheck"; amount := Finite false 100000 (-2);
     category := "Salary"; date := "2024-01-15" |}.

Definition groceries : Transaction :=
  {| description := "Groceries"; amount := Finite false 15050 (-2);
     category := "Food"; date := "2024-01-15" |}.

(** The state after [add_income("Paycheck", "1000.00")] on 2024-01-15. *)
Definition paycheck_added : Budget * World :=
  (add_income "Paycheck" (AmountStr "1000.00") None fresh).1.

(** The state after [add_expense("Groceries", "150.50", "Food")] as well. *)
Definition groceries_added : Budget * World :=
  (add_expense "Groceries" (AmountStr "150.50") (Some "Food")
     paycheck_added).1.

(** A second run, on 2024-02-01, over the store that the first left. *)
Definition reloaded : Budget * World * result unit :=
  Budget_init (world feb01 (files paycheck_added.2)).

(** A record with more digits than a [float] holds. *)
Definition long_amount : Transaction :=
  {| description := "Interest";
     amount := Finite false 1234567890123456789 (-19);
     category := "Investment"; date := "2024-01-15" |}.

(** Two incomes whose exact sum has 29 digits. *)
Definition large_incomes : Budget * World :=
  (add_income "Bonus" (AmountStr "1") None
     (add_income "Sale" (AmountStr "10000000000000000000000000000") None
        fresh).1).1.

(** An expense in a category that is not one of [expense_categories]; the
    add operations accept any category. *)
Definition pets_added : Budget * World :=
  (add_expense "Vet" (AmountStr "80") (Some "Pets") groceries_added).1.

(** The dictionary that [get_expenses_by_category] returns after the two
    additions. *)
Definition totals_by_category : gmap string Decimal :=
  list_to_map
    [("Food", Finite false 15050 (-2)); ("Transportation", Finite false 0 0);
     ("Housing", Finite false 0 0); ("Entertainment", Finite false 0 0);
     ("Other", Finite false 0 0)].

(** The state after the forms ("Windfall", "Infinity") for an income and
    ("Debt", "inf") for an expense went through the routes. *)
Definition infinite_added : Budget * World :=
  (route_add_expense "Debt" "inf"
     (route_add_income "Windfall" "Infinity" fresh).1).1.

(** The world of a later run, on 2024-02-01, over the store that the
    additions left. *)
Definition later : World := world feb01 (files groceries_added.2).

End Scenario.

(** * Properties *)

(** ** Strings *)

#[local] Arguments String.append !s1 s2 /.

Module StrFacts.
Import Str.

Lemma append_nil_r (s : string) : s +:+ "" = s.
Proof. induction s as [|c s IH]; simpl; [done | by rewrite IH]. Qed.

Lemma append_assoc (s1 s2 s3 : string) :
  (s1 +:+ s2) +:+ s3 = s1 +:+ (s2 +:+ s3).
Proof. induction s1 as [|c s1 IH]; simpl; [done | by rewrite IH]. Qed.

Lemma length_append (s1 s2 : string) :
  String.length (s1 +:+ s2) = (String.length s1 + String.length s2)%nat.
Proof. induction s1 as [|c s1 IH]; simpl; [done | by rewrite IH]. Qed.

Lemma all_append P (s1 s2 : string) :
  all P (s1 +:+ s2) = all P s1 && all P s2.
Proof.
  induction s1 as [|c s1 IH]; simpl; [done |].
  rewrite IH. by rewrite andb_assoc.
Qed.

Lemma all_impl (P Q : ascii -> bool) (s : string) :
  (forall c, P c = true -> Q c = true) -> all P s = true -> all Q s = true.
Proof.
  intros HPQ. induction s as [|c s IH]; simpl; [done |].
  rewrite !andb_true_iff. intros [Hc Hs]. auto.
Qed.

Lemma all_repeat_char P c n : P c = true -> all P (repeat_char c n) = true.
Proof. intros Hc. induction n as [|n IH]; simpl; [done | by rewrite Hc]. Qed.

Lemma length_repeat_char c n : String.length (repeat_char c n) = n.
Proof. induction n as [|n IH]; simpl; [done | by rewrite IH]. Qed.

Lemma take_drop (n : nat) (s : string) : take n s +:+ drop n s = s.
Proof.
  revert s. induction n as [|n IH]; intros [|c s]; simpl; try done.
  by rewrite IH.
Qed.

Lemma all_take P n s : all P s = true -> all P (take n s) = true.
Proof.
  revert s. induction n as [|n IH]; intros [|c s]; simpl; try done.
  rewrite !andb_true_iff. intros [Hc Hs]. auto.
Qed.

Lemma all_drop P n s : all P s = true -> all P (drop n s) = true.
Proof.
  revert s. induction n as [|n IH]; intros [|c s]; simpl; try done.
  rewrite !andb_true_iff. intros [Hc Hs]. auto.
Qed.

Lemma length_drop n s : String.length (drop n s) = (String.length s - n)%nat.
Proof. revert s. induction n as [|n IH]; intros [|c s]; simpl; auto. Qed.

(** *** Digits *)

Lemma digit_val_char (d : N) : (d < 10)%N -> digit_val (digit_char d) = d.
Proof.
  intros Hd. unfold digit_val, digit_char.
  rewrite N_ascii_embedding; lia.
Qed.

Lemma is_digit_char (d : N) : (d < 10)%N -> is_digit (digit_char d) = true.
Proof.
  intros Hd. unfold is_digit, digit_char.
  rewrite N_ascii_embedding by lia.
  apply andb_true_iff. split; apply N.leb_le; lia.
Qed.

Lemma is_digit_plain c : is_digit c = true -> is_plain c = true.
Proof.
  unfold is_digit, is_plain, is_space. intros [H1 H2]%andb_true_iff.
  apply N.leb_le in H1. apply N.leb_le in H2.
  assert (Hc : c <> "_"%char).
  { intros ->. cbn in H2. lia. }
  apply Ascii.eqb_neq in Hc. rewrite Hc. simpl. rewrite andb_true_r.
  apply negb_true_iff.
  repeat (apply orb_false_iff; split);
    rewrite ?andb_false_iff, ?N.leb_gt, ?N.eqb_neq; lia.
Qed.

Lemma int_of_digits_acc_append (s1 s2 : string) (a : N) :
  int_of_digits_acc (s1 +:+ s2) a = int_of_digits_acc s2 (int_of_digits_acc s1 a).
Proof. revert a. induction s1 as [|c s1 IH]; intros a; simpl; [done | apply IH]. Qed.

Lemma int_of_digits_acc_zeros (n : nat) (s : string) :
  int_of_digits_acc (repeat_char "0" n +:+ s) 0 = int_of_digits_acc s 0.
Proof. induction n as [|n IH]; simpl; [done | apply IH]. Qed.

Lemma of_N_aux_acc (fuel : nat) (n : N) (acc : string) :
  of_N_aux fuel n acc = of_N_aux fuel n "" +:+ acc.
Proof.
  revert n acc. induction fuel as [|fuel IH]; intros n acc; simpl; [done |].
  destruct (n <? 10)%N; [done |].
  rewrite (IH _ (String _ acc)), (IH _ (String _ "")).
  by rewrite append_assoc.
Qed.

Lemma of_N_aux_step (fuel : nat) (n : N) :
  of_N_aux (S fuel) n "" =
    if (n <? 10)%N then String (digit_char (n mod 10)) ""
    else of_N_aux fuel (n / 10) "" +:+ String (digit_char (n mod 10)) "".
Proof. simpl. destruct (n <? 10)%N; [done |]. apply of_N_aux_acc. Qed.

(** With enough fuel the digits read back as the number, all are digits,
    and their count is the number of decimal digits. *)
Lemma of_N_aux_spec (fuel : nat) (n : N) :
  (n < 2 ^ N.of_nat (S fuel))%N ->
  let s := of_N_aux fuel n "" in
  (forall a, int_of_digits_acc s a = a * 10 ^ N.of_nat (String.length s) + n)%N
  /\ all is_digit s = true
  /\ (1 <= String.length s)%nat
  /\ (n < 10 ^ N.of_nat (String.length s))%N
  /\ (n <> 0%N -> 10 ^ N.of_nat (String.length s - 1) <= n)%N.
Proof.
  revert n. induction fuel as [|fuel IH]; intros n Hn.
  - assert (n < 2)%N by (simpl in Hn; lia).
    simpl. rewrite digit_val_char, is_digit_char by (apply N.mod_lt; lia).
    rewrite N.mod_small by lia.
    repeat split; intros; lia.
  - cbv zeta. rewrite of_N_aux_step.
    destruct (n <? 10)%N eqn:Hlt.
    + apply N.ltb_lt in Hlt. simpl.
      rewrite digit_val_char, is_digit_char by (apply N.mod_lt; lia).
      rewrite N.mod_small by lia.
      repeat split; intros; lia.
    + apply N.ltb_ge in Hlt.
      assert (Hdiv : (n / 10 < 2 ^ N.of_nat (S fuel))%N).
      { apply N.Div0.div_lt_upper_bound.
        replace (N.of_nat (S (S fuel))) with (N.succ (N.of_nat (S fuel))) in Hn by lia.
        rewrite N.pow_succ_r' in Hn. lia. }
      destruct (IH _ Hdiv) as (Hval & Hdig & Hlen & Hub & Hlb).
      set (s := of_N_aux fuel (n / 10) "") in *.
      pose proof (N.mod_lt n 10 ltac:(lia)) as Hmod.
      pose proof (N.div_mod n 10 ltac:(lia)) as Hdm.
      rewrite length_append. simpl String.length.
      replace (N.of_nat (String.length s + 1)) with (N.succ (N.of_nat (String.length s))) by lia.
      rewrite N.pow_succ_r'.
      repeat split.
      * intros a. rewrite int_of_digits_acc_append. simpl.
        rewrite Hval, digit_val_char by done. lia.
      * rewrite all_append, Hdig. simpl. by rewrite is_digit_char.
      * lia.
      * lia.
      * intros _.
        replace (String.length s + 1 - 1)%nat with (S (String.length s - 1)) by lia.
        replace (N.of_nat (S (String.length s - 1))) with (N.succ (N.of_nat (String.length s - 1))) by lia.
        rewrite N.pow_succ_r'.
        assert (n / 10 <> 0)%N.
        { intros H0. rewrite H0 in Hdm. lia. }
        specialize (Hlb ltac:(done)). lia.
Qed.

Lemma of_N_fuel (n : N) : (n < 2 ^ N.of_nat (S (N.to_nat (N.log2 n))))%N.
Proof.
  replace (N.of_nat (S (N.to_nat (N.log2 n)))) with (N.succ (N.log2 n)) by lia.
  destruct n as [|p]; [done |].
  apply N.log2_spec. lia.
Qed.

Lemma int_of_digits_of_N (n : N) : int_of_digits (of_N n) = n.
Proof.
  unfold int_of_digits, of_N.
  destruct (of_N_aux_spec _ _ (of_N_fuel n)) as (Hval & _). rewrite Hval. lia.
Qed.

Lemma all_digits_of_N (n : N) : all is_digit (of_N n) = true.
Proof. apply (of_N_aux_spec _ _ (of_N_fuel n)). Qed.

Lemma length_of_N_pos (n : N) : (1 <= String.length (of_N n))%nat.
Proof. apply (of_N_aux_spec _ _ (of_N_fuel n)). Qed.

Lemma of_N_upper (n : N) : (n < 10 ^ N.of_nat (String.length (of_N n)))%N.
Proof. apply (of_N_aux_spec _ _ (of_N_fuel n)). Qed.

Lemma of_N_lower (n : N) :
  n <> 0%N -> (10 ^ N.of_nat (String.length (of_N n) - 1) <= n)%N.
Proof. apply (of_N_aux_spec _ _ (of_N_fuel n)). Qed.

(** *** Scanning *)

Lemma startswith_nil (s : string) : startswith s "" = true.
Proof. by destruct s. Qed.

Lemma startswith_append (p s : string) : startswith (p +:+ s) p = true.
Proof.
  induction p as [|c p IH]; simpl; [apply startswith_nil |].
  by rewrite Ascii.eqb_refl, IH.
Qed.

Lemma span_digits_all (ds rest : string) :
  all is_digit ds = true ->
  span_digits rest = ("", rest) ->
  span_digits (ds +:+ rest) = (ds, rest).
Proof.
  intros Hds Hrest. induction ds as [|c ds IH]; simpl in *; [done |].
  apply andb_true_iff in Hds as [Hc Hds]. by rewrite Hc, IH.
Qed.

Lemma span_digits_all_end (ds : string) :
  all is_digit ds = true -> span_digits ds = (ds, "").
Proof.
  intros Hds. rewrite <- (append_nil_r ds) at 1. by apply span_digits_all.
Qed.

Lemma remove_underscores_plain (s : string) :
  all is_plain s = true -> remove_underscores s = s.
Proof.
  induction s as [|c s IH]; simpl; [done |].
  intros [Hc Hs]%andb_true_iff.
  unfold is_plain in Hc. apply andb_true_iff in Hc as [_ Hc].
  apply negb_true_iff in Hc. rewrite Hc. by rewrite IH.
Qed.

Lemma rstrip_plain (s : string) : all is_plain s = true -> rstrip s = s.
Proof.
  induction s as [|c s IH]; simpl; [done |].
  intros [Hc Hs]%andb_true_iff. rewrite (IH Hs).
  unfold is_plain in Hc. apply andb_true_iff in Hc as [Hc _].
  apply negb_true_iff in Hc. rewrite Hc. by destruct s.
Qed.

Lemma strip_plain (s : string) : all is_plain s = true -> strip s = s.
Proof.
  intros Hs. unfold strip.
  assert (Hl : lstrip s = s).
  { destruct s as [|c s]; simpl in *; [done |].
    apply andb_true_iff in Hs as [Hc _].
    unfold is_plain in Hc. apply andb_true_iff in Hc as [Hc _].
    apply negb_true_iff in Hc. by rewrite Hc. }
  rewrite Hl. by apply rstrip_plain.
Qed.


Lemma all_digits_plain (s : string) :
  all is_digit s = true -> all is_plain s = true.
Proof. apply all_impl, is_digit_plain. Qed.

Lemma lower_ascii_digit c : is_digit c = true -> lower_ascii c = c.
Proof.
  unfold is_digit, lower_ascii. intros [H1 H2]%andb_true_iff.
  apply N.leb_le in H1. apply N.leb_le in H2.
  replace (65 <=? N_of_ascii c)%N with false; [done |].
  symmetry. apply N.leb_gt. lia.
Qed.

Lemma lower_digits (s : string) : all is_digit s = true -> lower s = s.
Proof.
  induction s as [|c s IH]; simpl; [done |].
  intros [Hc Hs]%andb_true_iff. by rewrite lower_ascii_digit, IH.
Qed.

End StrFacts.

(** ** The [decimal] module *)

Module DecimalFacts.
Import Str StrFacts decimal.

Lemma parse_sign_digit (c : ascii) (r : string) :
  is_digit c = true -> parse_sign (String c r) = (false, String c r).
Proof.
  intros Hc.
  destruct c as [[] [] [] [] [] [] [] []]; try done.
Qed.

Lemma parse_sign_str (s : bool) (body : string) :
  parse_sign body = (false, body) ->
  parse_sign (sign_str s +:+ body) = (s, body).
Proof. intros Hbody. by destruct s. Qed.

Lemma of_str_plain (value : string) :
  all is_plain value = true ->
  of_str value =
    let '(sign, r) := parse_sign value in
    match parse_number r with
    | Some (c, e) => Ok (Finite sign c e)
    | None =>
        match parse_special sign r with
        | Some d => Ok d
        | None => Raise InvalidOperation
        end
    end.
Proof.
  intros Hv. unfold of_str.
  by rewrite (strip_plain _ Hv), (remove_underscores_plain _ Hv).
Qed.

Lemma parse_exponent_signed (z : Z) :
  parse_exponent ("E" +:+ of_Z_signed z) = Some z.
Proof.
  unfold of_Z_signed. simpl.
  pose proof (all_digits_of_N (Z.abs_N z)) as Hd.
  pose proof (length_of_N_pos (Z.abs_N z)) as Hl.
  pose proof (int_of_digits_of_N (Z.abs_N z)) as Hv.
  destruct (Z.ltb_spec z 0); simpl;
    rewrite (span_digits_all_end _ Hd);
    destruct (of_N (Z.abs_N z)) as [|d ds] eqn:E; simpl in Hl; try lia;
    rewrite Hv; f_equal; lia.
Qed.

(** A number printed with a point reads back as its digits and the count
    of those after the point. *)
Lemma parse_number_point (c0 : ascii) (ip fp ex : string) (x : Z) :
  is_digit c0 = true ->
  all is_digit ip = true ->
  all is_digit fp = true ->
  parse_exponent ex = Some x ->
  span_digits ex = ("", ex) ->
  parse_number (String c0 ip +:+ "." +:+ fp +:+ ex) =
    Some (int_of_digits (String c0 ip +:+ fp), x - Z.of_nat (String.length fp)).
Proof.
  intros Hc0 Hip Hfp Hex Hsp. unfold parse_number.
  rewrite (span_digits_all (String c0 ip) ("." +:+ fp +:+ ex)); cycle 1.
  { simpl. by rewrite Hc0, Hip. }
  { done. }
  change ("." +:+ fp +:+ ex) with (String "." (fp +:+ ex)). cbv iota beta.
  rewrite (span_digits_all fp ex Hfp Hsp).
  simpl lookahead_number. rewrite Hc0. simpl. by rewrite Hex.
Qed.

(** The same without a point. *)
Lemma parse_number_integer (c0 : ascii) (ip ex : string) (x : Z) :
  is_digit c0 = true ->
  all is_digit ip = true ->
  parse_exponent ex = Some x ->
  span_digits ex = ("", ex) ->
  match ex with String "." _ => False | _ => True end ->
  parse_number (String c0 ip +:+ ex) =
    Some (int_of_digits (String c0 ip), x).
Proof.
  intros Hc0 Hip Hex Hsp Hnp. unfold parse_number.
  rewrite (span_digits_all (String c0 ip) ex); cycle 1.
  { simpl. by rewrite Hc0, Hip. }
  { done. }
  assert (Hm : match ex with
               | String "." r => span_digits r
               | _ => ("", ex)
               end = ("", ex)).
  { destruct ex as [|a r]; [done |].
    destruct a as [[] [] [] [] [] [] [] []]; try done. }
  rewrite Hm. simpl lookahead_number. rewrite Hc0. simpl. rewrite Hex.
  rewrite append_nil_r. do 2 f_equal. lia.
Qed.

Lemma all_plain_of_N (n : N) : all is_plain (of_N n) = true.
Proof. apply all_digits_plain, all_digits_of_N. Qed.

Lemma all_plain_signed (z : Z) : all is_plain (of_Z_signed z) = true.
Proof.
  unfold of_Z_signed. simpl. rewrite all_plain_of_N.
  by destruct (z <? 0).
Qed.

Ltac plain_pieces :=
  repeat first
    [ reflexivity
    | apply all_plain_of_N
    | apply all_plain_signed
    | apply all_take
    | apply all_drop
    | apply all_repeat_char
    | rewrite all_append; apply andb_true_intro; split
    | match goal with |- context [if ?b then _ else _] => destruct b end ].

Lemma to_str_plain (d : Decimal) : all is_plain (to_str d) = true.
Proof.
  destruct d as [s c e|s|s signal p]; unfold to_str, sign_str.
  - cbv zeta. plain_pieces.
  - by destruct s.
  - plain_pieces.
Qed.

Lemma of_str_to_str_special_inf (s : bool) :
  of_str (to_str (Infinity s)) = Ok (Infinity s).
Proof. by destruct s. Qed.

Lemma of_str_to_str_nan (s signal : bool) (p : N) :
  of_str (to_str (NaN s signal p)) = Ok (NaN s signal p).
Proof.
  rewrite of_str_plain by apply to_str_plain.
  unfold to_str.
  set (digits := if (p =? 0)%N then "" else of_N p).
  assert (Hd : all is_digit digits = true).
  { unfold digits. destruct (p =? 0)%N; [done | apply all_digits_of_N]. }
  assert (Hv : int_of_digits digits = p).
  { unfold digits. destruct (p =? 0)%N eqn:Hp.
    - apply N.eqb_eq in Hp. by rewrite Hp.
    - apply int_of_digits_of_N. }
  rewrite parse_sign_str by (by destruct signal).
  destruct signal; unfold parse_special; simpl; rewrite (lower_digits _ Hd);
    simpl; rewrite (span_digits_all_end _ Hd), startswith_nil; by rewrite Hv.
Qed.

(** [Decimal(str(d))] is [d]: the string form loses nothing. *)
Lemma of_str_to_str (d : Decimal) : of_str (to_str d) = Ok d.
Proof.
  destruct d as [s c e|s|s signal p];
    [| apply of_str_to_str_special_inf | apply of_str_to_str_nan].
  rewrite of_str_plain by apply to_str_plain.
  unfold to_str. cbv zeta.
  pose proof (all_digits_of_N c) as Hdig.
  pose proof (length_of_N_pos c) as Hlen.
  pose proof (int_of_digits_of_N c) as Hval.
  remember (of_N c) as D eqn:HDdef. clear HDdef.
  set (len := Z.of_nat (String.length D)).
  assert (Hlen' : 1 <= len) by (unfold len; lia).
  assert (HD : exists c0 D', D = String c0 D').
  { destruct D; [simpl in Hlen; lia | eauto]. }
  destruct HD as (c0 & D' & HD).
  assert (Hc0 : is_digit c0 = true /\ all is_digit D' = true).
  { rewrite HD in Hdig. simpl in Hdig. by apply andb_true_iff in Hdig. }
  destruct Hc0 as [Hc0 HD'].
  destruct ((e <=? 0) && (-6 <? e + len)) eqn:Hplain.
  - (* no exponent *)
    apply andb_true_iff in Hplain as [He Hld].
    apply Z.leb_le in He. apply Z.ltb_lt in Hld.
    rewrite Z.eqb_refl.
    destruct (Z.leb_spec (e + len) 0) as [Hdp|Hdp].
    + (* 0.000ddd *)
      rewrite parse_sign_str by done.
      change ("0" +:+ ("." +:+ repeat_char "0" (Z.to_nat (- (e + len))) +:+ D) +:+ "")
        with (String "0" "" +:+ "." +:+ (repeat_char "0" (Z.to_nat (- (e + len))) +:+ D) +:+ "").
      rewrite (parse_number_point _ _ _ _ 0); try done; cycle 1.
      { rewrite all_append, Hdig, all_repeat_char; done. }
      f_equal. f_equal.
      * f_equal. change (String "0" "" +:+ ?x) with (repeat_char "0" 1 +:+ x).
        rewrite <- append_assoc.
        unfold int_of_digits.
        rewrite append_assoc, !int_of_digits_acc_zeros. apply Hval.
      * rewrite length_append, length_repeat_char. unfold len. lia.
    + destruct (Z.leb_spec len (e + len)) as [Hge|Hlt].
      * (* ddd *)
        assert (e = 0) by lia. subst e.
        replace (Z.to_nat (0 + len - len)) with O by lia.
        simpl repeat_char. rewrite !append_nil_r.
        rewrite HD. rewrite parse_sign_str by (by apply parse_sign_digit).
        rewrite <- (append_nil_r (String c0 D')).
        rewrite (parse_number_integer _ _ _ 0); try done.
        rewrite <- HD, Hval. done.
      * (* dd.ddd *)
        assert (Htake : exists k, Z.to_nat (e + len) = S k) by (exists (Z.to_nat (e + len) - 1)%nat; lia).
        destruct Htake as [k Hk].
        assert (Htk : take (Z.to_nat (e + len)) D = String c0 (take k D')).
        { rewrite Hk, HD. done. }
        rewrite Htk. rewrite parse_sign_str by (by apply parse_sign_digit).
        change (String c0 (take k D') +:+ ("." +:+ drop (Z.to_nat (e + len)) D) +:+ "")
          with (String c0 (take k D') +:+ "." +:+ drop (Z.to_nat (e + len)) D +:+ "").
        rewrite (parse_number_point _ _ _ _ 0); try done;
          try (by apply all_take); try (by apply all_drop).
        rewrite <- Htk, take_drop, Hval. f_equal. f_equal. f_equal.
        rewrite length_drop. unfold len. lia.
  - (* scientific notation *)
    assert (Hld : e + len <> 1).
    { apply andb_false_iff in Hplain as [He|He].
      - apply Z.leb_gt in He. lia.
      - apply Z.ltb_ge in He. lia. }
    apply Z.eqb_neq in Hld. rewrite Hld.
    change (1 <=? 0) with false. cbv iota.
    assert (Hex : forall z, span_digits ("E" +:+ of_Z_signed z) = ("", "E" +:+ of_Z_signed z)) by done.
    destruct (Z.leb_spec len 1) as [Hone|Hmany].
    + (* dE+n *)
      assert (len = 1) by lia.
      replace (Z.to_nat (1 - len)) with O by lia.
      simpl repeat_char. rewrite !append_nil_r.
      rewrite HD. rewrite parse_sign_str by (by apply parse_sign_digit).
      change (String c0 D' +:+ "" +:+ ?x) with (String c0 D' +:+ x).
      rewrite (parse_number_integer _ _ _ (e + len - 1));
        try done; try apply parse_exponent_signed.
      rewrite <- HD, Hval. do 3 f_equal. lia.
    + (* d.dddE+n *)
      change (Z.to_nat 1) with 1%nat.
      assert (Htk : take 1 D = String c0 "").
      { rewrite HD. by destruct D'. }
      rewrite Htk. rewrite parse_sign_str by (by apply parse_sign_digit).
      change (String c0 "" +:+ ("." +:+ drop 1 D) +:+ ?x)
        with (String c0 "" +:+ "." +:+ drop 1 D +:+ x).
      rewrite (parse_number_point _ _ _ _ (e + len - 1));
        try done; try (by apply all_drop); try apply parse_exponent_signed.
      rewrite <- Htk, take_drop, Hval. f_equal. f_equal. f_equal.
      rewrite length_drop. unfold len. lia.
Qed.

End DecimalFacts.

(** ** Transactions *)

Import decimal.

(** The constructor keeps a [Decimal] amount as it is, and never fails on
    one. *)
Lemma Transaction_init_Decimal today description (a : Decimal) category :
  Transaction_init today description (AmountDecimal a) category =
    Ok {| description := description; amount := a; category := category;
          date := strftime_Ymd today |}.
Proof.
  unfold Transaction_init. simpl. by rewrite DecimalFacts.of_str_to_str.
Qed.

Lemma of_str_raises (value : string) (e : exn) :
  of_str value = Raise e -> e = InvalidOperation.
Proof.
  unfold of_str. destruct (parse_sign _) as [sign r].
  destruct (parse_number r) as [[c x]|]; [done |].
  destruct (parse_special sign r); [done |]. congruence.
Qed.

Lemma Decimal_of_amount_raises (amount : amount_arg) (e : exn) :
  Decimal_of_amount amount = Raise e -> e = InvalidOperation.
Proof. destruct amount; simpl; [apply of_str_raises | done]. Qed.

Lemma le_raises (a b : Decimal) (e : exn) :
  __le__ a b = Raise e -> e = InvalidOperation.
Proof. unfold __le__. destruct (_ || _); congruence. Qed.

(** ** The add operations, step by step *)

Lemma add_income_unfold (b : Budget) (w : World) description amount category :
  add_income description amount category (b, w) =
    if String.eqb description "" || amount_is_falsy amount then
      ((b, w), Raise (ValueError "Description and amount are required"))
    else
      match Decimal_of_amount amount with
      | Raise _ => ((b, w), Raise InvalidOperation)
      | Ok a =>
          match __le__ a (of_int 0) with
          | Raise _ => ((b, w), Raise InvalidOperation)
          | Ok true => ((b, w), Raise (ValueError "Invalid amount"))
          | Ok false =>
              let income :=
                {| description := description; amount := a;
                   category := default "Salary" category;
                   date := strftime_Ymd (now w) |} in
              let b' := with_incomes b (incomes b ++ [income]) in
              match store_data b' with
              | Raise e => ((b', w), Raise (reraised e))
              | Ok data =>
                  if writable w
                  then ((b', with_file w (filename b) data), Ok tt)
                  else ((b', w), Raise OSError)
              end
          end
      end.
Proof.
  unfold add_income.
  destruct (String.eqb description "" || amount_is_falsy amount);
    [reflexivity |].
  unfold save_data.
  unfold try_except_ValueError_TypeError, mbind, py_bind, get_world, get_self,
    lift, put_self, raise, put_world, Income. simpl.
  destruct (Decimal_of_amount amount) as [a|e] eqn:Ha.
  2:{ by rewrite (Decimal_of_amount_raises _ _ Ha). }
  rewrite Transaction_init_Decimal. unfold amount_le_0. simpl.
  destruct (__le__ a (of_int 0)) as [[]|e] eqn:Hle; [done | |].
  2:{ by rewrite (le_raises _ _ _ Hle). }
  simpl. destruct (store_data _) as [data|e];
    [| unfold reraised; by destruct (is_ValueError_or_TypeError e)].
  by destruct (writable w).
Qed.

Lemma add_expense_unfold (b : Budget) (w : World) description amount category :
  add_expense description amount category (b, w) =
    if String.eqb description "" || amount_is_falsy amount then
      ((b, w), Raise (ValueError "Description and amount are required"))
    else
      match Decimal_of_amount amount with
      | Raise _ => ((b, w), Raise InvalidOperation)
      | Ok a =>
          match __le__ a (of_int 0) with
          | Raise _ => ((b, w), Raise InvalidOperation)
          | Ok true => ((b, w), Raise (ValueError "Invalid amount"))
          | Ok false =>
              let expense :=
                {| description := description; amount := a;
                   category := default "Other" category;
                   date := strftime_Ymd (now w) |} in
              let b' := with_expenses b (expenses b ++ [expense]) in
              match store_data b' with
              | Raise e => ((b', w), Raise (reraised e))
              | Ok data =>
                  if writable w
                  then ((b', with_file w (filename b) data), Ok tt)
                  else ((b', w), Raise OSError)
              end
          end
      end.
Proof.
  unfold add_expense.
  destruct (String.eqb description "" || amount_is_falsy amount);
    [reflexivity |].
  unfold save_data.
  unfold try_except_ValueError_TypeError, mbind, py_bind, get_world, get_self,
    lift, put_self, raise, put_world, Expense. simpl.
  destruct (Decimal_of_amount amount) as [a|e] eqn:Ha.
  2:{ by rewrite (Decimal_of_amount_raises _ _ Ha). }
  rewrite Transaction_init_Decimal. unfold amount_le_0. simpl.
  destruct (__le__ a (of_int 0)) as [[]|e] eqn:Hle; [done | |].
  2:{ by rewrite (le_raises _ _ _ Hle). }
  simpl. destruct (store_data _) as [data|e];
    [| unfold reraised; by destruct (is_ValueError_or_TypeError e)].
  by destruct (writable w).
Qed.

(** ** The add operations: validation *)




(** C1: on the amount string "abc" the parse raises
    [decimal.InvalidOperation], an [ArithmeticError] that the
    [except (ValueError, TypeError)] clause does not catch: the caller of
    [add_expense] (and of [add_income]) gets that exception, not
    [InvalidAmount]; it leaves the route as well, whose [except ValueError]
    would have answered 400. *)
Theorem add_non_numeric_amount_leaks_InvalidOperation
    (st : Budget * World) (category : option string) :
  add_expense "rent" (AmountStr "abc") category st = (st, Raise InvalidOperation)
  /\ add_income "rent" (AmountStr "abc") category st = (st, Raise InvalidOperation)
  /\ InvalidOperation <> InvalidAmount
  /\ is_ValueError_or_TypeError InvalidOperation = false
  /\ route_add_expense "rent" "abc" st = (st, Raise InvalidOperation).
Proof.
  destruct st as [b w].
  assert (He : add_expense "rent" (AmountStr "abc") None (b, w)
               = ((b, w), Raise InvalidOperation))
    by (by rewrite add_expense_unfold).
  split; [by rewrite add_expense_unfold |].
  split; [by rewrite add_income_unfold |].
  do 2 (split; [done |]).
  unfold route_add_expense, try_except_ValueError.
  change (Str.strip "rent") with "rent". cbv zeta.
  change (String.eqb "rent" "" || (100 <? String.length "rent")%nat)
    with false. cbv iota.
  unfold mbind, py_bind. by rewrite He.
Qed.

(** The part of C1 that holds: an amount that parses and compares at most
    zero is reported as [InvalidAmount], and nothing changes. *)
Lemma add_nonpositive_amount_InvalidAmount
    (st : Budget * World) (description s : string) (a : Decimal)
    (category : option string) :
  description <> "" -> s <> "" ->
  of_str s = Ok a -> __le__ a (of_int 0) = Ok true ->
  add_income description (AmountStr s) category st = (st, Raise InvalidAmount)
  /\ add_expense description (AmountStr s) category st = (st, Raise InvalidAmount).
Proof.
  intros Hd Hs Ha Hle. destruct st as [b w].
  rewrite add_income_unfold, add_expense_unfold. simpl.
  apply String.eqb_neq in Hd, Hs. rewrite Hd, Hs, Ha, Hle. done.
Qed.

(** ** The add operations: effect on the ledger and the store *)

Lemma store_data_inv (b : Budget) (data : StoreData) :
  store_data b = Ok data ->
  exists inc exps,
    mapM to_dict (incomes b) = Ok inc
    /\ mapM to_dict (expenses b) = Ok exps
    /\ data = {| data_income := Some inc; data_expenses := Some exps |}.
Proof.
  unfold store_data. intros H.
  destruct (mapM to_dict (incomes b)) as [inc|]; [|done].
  destruct (mapM to_dict (expenses b)) as [exps|]; [|done].
  simpl in H. injection H as <-. eauto.
Qed.

Lemma lookup_with_file (w : World) (name : string) (data : StoreData) :
  files (with_file w name data) !! name = Some data.
Proof. apply lookup_insert_eq. Qed.



(** C10: [add_income] leaves the expense sequence as it was and
    [add_expense] leaves the income sequence as it was, whatever the outcome
    of the call; when the call returns, the array that the store holds for
    the other kind is that unchanged sequence, record by record through
    [to_dict]. *)
Theorem add_leaves_other_sequence
    (b : Budget) (w : World) (description : string) (amount : amount_arg)
    (category : option string) :
  let r_inc := add_income description amount category (b, w) in
  let r_exp := add_expense description amount category (b, w) in
  expenses r_inc.1.1 = expenses b
  /\ incomes r_exp.1.1 = incomes b
  /\ (r_inc.2 = Ok tt ->
      exists data l,
        files r_inc.1.2 !! filename b = Some data
        /\ data_expenses data = Some l
        /\ mapM to_dict (expenses b) = Ok l)
  /\ (r_exp.2 = Ok tt ->
      exists data l,
        files r_exp.1.2 !! filename b = Some data
        /\ data_income data = Some l
        /\ mapM to_dict (incomes b) = Ok l).
Proof.
  cbv zeta. rewrite add_income_unfold, add_expense_unfold.
  destruct (String.eqb description "" || amount_is_falsy amount); [done |].
  destruct (Decimal_of_amount amount) as [a|]; [|done].
  destruct (__le__ a (of_int 0)) as [[]|]; [done | | done].
  cbv zeta.
  destruct (store_data (with_incomes _ _)) as [d1|] eqn:H1;
    destruct (store_data (with_expenses _ _)) as [d2|] eqn:H2;
    destruct (writable w); simpl; repeat split; try done;
    intros _.
  all: try (apply store_data_inv in H1 as (inc & exps & Hi & He & ->);
            exists {| data_income := Some inc; data_expenses := Some exps |}, exps;
            split; [apply lookup_with_file | done]).
  all: try (apply store_data_inv in H2 as (inc & exps & Hi & He & ->);
            exists {| data_income := Some inc; data_expenses := Some exps |}, inc;
            split; [apply lookup_with_file | done]).
Qed.

(** The success hypotheses of [add_leaves_other_sequence] hold on the
    additions to a new ledger. *)
Lemma add_leaves_other_sequence_witness :
  (exists data l,
     files Scenario.paycheck_added.2 !! filename Scenario.fresh.1 = Some data
     /\ data_expenses data = Some l
     /\ mapM to_dict (expenses Scenario.fresh.1) = Ok l)
  /\ (exists data l,
        files Scenario.groceries_added.2 !! filename Scenario.paycheck_added.1
          = Some data
        /\ data_income data = Some l
        /\ mapM to_dict (incomes Scenario.paycheck_added.1) = Ok l).
Proof.
  split.
  - apply (add_leaves_other_sequence Scenario.fresh.1 Scenario.fresh.2
             "Paycheck" (AmountStr "1000.00") None).
    vm_compute. reflexivity.
  - apply (add_leaves_other_sequence Scenario.paycheck_added.1
             Scenario.paycheck_added.2
             "Groceries" (AmountStr "150.50") (Some "Food")).
    vm_compute. reflexivity.
Defined.


(** ** Constructing a record *)



(** ** The monthly summary *)




(** The prefix test does not read the rest of the date: a stored string
    that is no calendar date counts for the month it starts with. *)
Example monthly_summary_counts_by_prefix :
  get_monthly_summary Scenario.jan15
    (with_incomes Scenario.fresh.1
       [{| description := "x"; amount := Finite false 7 0;
           category := "Salary"; date := "2024-01-99 or so" |}])
  = Ok {| summary_income := Dec (Finite false 7 0);
          summary_expenses := Int 0;
          summary_balance := Dec (Finite false 7 0) |}.
Proof. vm_compute. reflexivity. Qed.

(** ** Saving and loading *)

(** A loaded record carries the date of the load, whatever date the store
    holds for it. *)
Lemma from_dict_date (today : datetime) (data : TransactionDict)
    (t : Transaction) :
  from_dict today data = Ok t ->
  date t = strftime_Ymd today
  /\ description t = dict_description data
  /\ category t = dict_category data.
Proof.
  unfold from_dict.
  destruct (of_str (float.repr (dict_amount data))) as [a|]; [|done].
  simpl. rewrite Transaction_init_Decimal. by intros [= <-].
Qed.

Lemma mapM_from_dict_dates (today : datetime) (l : list TransactionDict) :
  forall k, mapM (from_dict today) l = Ok k ->
  Forall (fun t => date t = strftime_Ymd today) k.
Proof.
  induction l as [|d l IH]; intros k; simpl.
  - intros [= <-]. constructor.
  - destruct (from_dict today d) as [t|] eqn:Ht; [|done]. simpl.
    destruct (mapM (from_dict today) l) as [k'|]; [|done]. simpl.
    intros [= <-]. constructor; [| by apply IH].
    by apply from_dict_date in Ht as [? _].
Qed.

(** Whatever the store holds, every record of a ledger just loaded from it
    is dated the day of the load. *)
Lemma load_data_dates (b b' : Budget) (w w' : World) (data : StoreData) :
  files w !! filename b = Some data ->
  load_data (b, w) = ((b', w'), Ok tt) ->
  Forall (fun t => date t = strftime_Ymd (now w)) (incomes b')
  /\ Forall (fun t => date t = strftime_Ymd (now w)) (expenses b').
Proof.
  intros Hfile. unfold load_data, mbind, py_bind, get_self, get_world, lift,
    put_self. simpl. rewrite Hfile.
  destruct (mapM _ (default [] (data_income data))) as [inc|] eqn:Hinc;
    [|done]. simpl.
  destruct (mapM _ (default [] (data_expenses data))) as [exps|] eqn:Hexp;
    [|done]. simpl.
  intros [= <- <-]. simpl.
  split; eapply mapM_from_dict_dates; eassumption.
Qed.

(** What does come back from the store: the records in their order, each
    with its description and its category. *)
Lemma reload_keeps_descriptions_and_categories (today : datetime)
    (l : list Transaction) :
  forall (k : list TransactionDict) (l' : list Transaction),
  mapM to_dict l = Ok k ->
  mapM (from_dict today) k = Ok l' ->
  description <$> l' = description <$> l
  /\ category <$> l' = category <$> l.
Proof.
  induction l as [|t l IH]; intros k l'; simpl.
  - intros [= <-]. simpl. by intros [= <-].
  - destruct (to_dict t) as [d|] eqn:Hd; [|done]. simpl.
    destruct (mapM to_dict l) as [k'|]; [|done]. simpl.
    intros [= <-]. simpl.
    destruct (from_dict today d) as [t'|] eqn:Ht'; [|done]. simpl.
    destruct (mapM (from_dict today) k') as [l''|] eqn:Hl''; [|done]. simpl.
    intros [= <-].
    destruct (IH k' l'' eq_refl Hl'') as [IH1 IH2].
    apply from_dict_date in Ht' as (_ & Hdesc & Hcat).
    unfold to_dict in Hd.
    destruct (float.of_Decimal (amount t)) as [f|]; [|done].
    simpl in Hd. injection Hd as <-. simpl in Hdesc, Hcat.
    rewrite !fmap_cons, Hdesc, Hcat, IH1, IH2. done.
Qed.

(** C2: the ledger that recorded a paycheck on 2024-01-15 saves it with that
    date; a ledger constructed from this store on 2024-02-01 holds the record
    with the date 2024-02-01: [from_dict] does not read the [date] that
    [to_dict] wrote.  (The amount comes back equal in value, with another
    exponent: it went through a [float].) *)
Theorem reload_does_not_reproduce_dates :
  incomes Scenario.paycheck_added.1 = [Scenario.paycheck]
  /\ (exists data,
        files Scenario.paycheck_added.2 !! "budget_data.json" = Some data
        /\ store_data Scenario.paycheck_added.1 = Ok data)
  /\ Scenario.reloaded.2 = Ok tt
  /\ incomes Scenario.reloaded.1.1 =
       [{| description := "Paycheck"; amount := Finite false 10000 (-1);
           category := "Salary"; date := "2024-02-01" |}]
  /\ incomes Scenario.reloaded.1.1 <> incomes Scenario.paycheck_added.1.
Proof.
  split; [vm_compute; reflexivity |].
  split; [eexists; split; vm_compute; reflexivity |].
  split; [vm_compute; reflexivity |].
  split; [vm_compute; reflexivity |].
  vm_compute. discriminate.
Qed.

(** An amount of more than 17 significant digits does not survive the
    [float] of [to_dict]: saved and loaded on the same day, the record comes
    back with the amount 0.12345678901234568. *)
Example reload_rounds_long_amounts :
  (d ← to_dict Scenario.long_amount; from_dict Scenario.jan15 d) =
    Ok {| description := "Interest";
          amount := Finite false 12345678901234568 (-17);
          category := "Investment"; date := "2024-01-15" |}.
Proof. vm_compute. reflexivity. Qed.

(** ** Expenses by category *)

Section by_category.

Implicit Types (m : gmap string Decimal) (l : list Transaction).

Lemma add_to_category_inv m t m' :
  add_to_category m t = Ok m' ->
  exists total total',
    m !! category t = Some total
    /\ __add__ total (amount t) = Ok total'
    /\ m' = <[category t := total']> m.
Proof.
  unfold add_to_category.
  destruct (m !! category t) as [total|]; [|done].
  destruct (__add__ total (amount t)) as [total'|] eqn:Hadd; [|done].
  simpl. intros [= <-]. eauto.
Qed.

Lemma amounts_of_category_cons k t l :
  amounts_of_category k (t :: l) =
    if String.eqb (category t) k
    then amount t :: amounts_of_category k l
    else amounts_of_category k l.
Proof.
  unfold amounts_of_category. simpl.
  by destruct (String.eqb (category t) k).
Qed.

(** What the loop has done when it ends normally. *)
Lemma add_expenses_to_categories_ok l : forall m m',
  add_expenses_to_categories m l = Ok m' ->
  dom m' = dom m
  /\ Forall (fun t => is_Some (m !! category t)) l
  /\ forall k v, m !! k = Some v ->
       exists v', m' !! k = Some v'
                  /\ add_all v (amounts_of_category k l) = Ok v'.
Proof.
  induction l as [|t l IH]; intros m m' Hloop; simpl in Hloop.
  - injection Hloop as <-. repeat split; [constructor | eauto].
  - destruct (add_to_category m t) as [m1|] eqn:Hstep; [|done].
    simpl in Hloop.
    apply add_to_category_inv in Hstep as (total & total' & Hm & Hadd & ->).
    apply IH in Hloop as (Hdom & Hall & Hsum).
    assert (Hkeys : forall k, is_Some (<[category t := total']> m !! k)
                              <-> is_Some (m !! k)).
    { intros k. destruct (decide (category t = k)) as [<-|Hne].
      - rewrite lookup_insert_eq, Hm. split; eauto.
      - by rewrite lookup_insert_ne. }
    repeat split.
    + rewrite Hdom. apply set_eq. intros k.
      rewrite !elem_of_dom. apply Hkeys.
    + constructor; [eauto |].
      eapply Forall_impl; [exact Hall |]. intros t'. apply Hkeys.
    + intros k v Hk. rewrite amounts_of_category_cons.
      destruct (String.eqb_spec (category t) k) as [<-|Hne].
      * assert (v = total) as -> by congruence.
        simpl. rewrite Hadd. simpl.
        apply Hsum. apply lookup_insert_eq.
      * apply Hsum. by rewrite lookup_insert_ne.
Qed.

(** The loop ends normally when every category is a key and every sum can
    be computed. *)
Lemma add_expenses_to_categories_total l : forall m,
  Forall (fun t => is_Some (m !! category t)) l ->
  (forall k v, m !! k = Some v ->
     exists v', add_all v (amounts_of_category k l) = Ok v') ->
  exists m', add_expenses_to_categories m l = Ok m'.
Proof.
  induction l as [|t l IH]; intros m Hall Hsum; simpl; [eauto |].
  apply Forall_cons in Hall as [[total Hm] Hall].
  destruct (Hsum _ _ Hm) as [v' Hv'].
  rewrite amounts_of_category_cons, String.eqb_refl in Hv'. simpl in Hv'.
  destruct (__add__ total (amount t)) as [total'|] eqn:Hadd; [|done].
  simpl in Hv'.
  unfold add_to_category. rewrite Hm, Hadd. simpl.
  apply IH.
  - eapply Forall_impl; [exact Hall |]. intros t' Ht'.
    destruct (decide (category t = category t')) as [<-|Hne].
    + rewrite lookup_insert_eq. eauto.
    + by rewrite lookup_insert_ne.
  - intros k v Hk.
    destruct (decide (category t = k)) as [<-|Hne].
    + rewrite lookup_insert_eq in Hk. injection Hk as <-. eauto.
    + rewrite lookup_insert_ne in Hk by done.
      destruct (Hsum _ _ Hk) as [v'' Hv''].
      rewrite amounts_of_category_cons in Hv''.
      apply String.eqb_neq in Hne. rewrite Hne in Hv''. eauto.
Qed.

Lemma add_expenses_to_categories_app l1 l2 m :
  add_expenses_to_categories m (l1 ++ l2) =
    m1 ← add_expenses_to_categories m l1; add_expenses_to_categories m1 l2.
Proof.
  revert m. induction l1 as [|t l1 IH]; intros m; simpl; [done |].
  destruct (add_to_category m t) as [m1|]; simpl; [apply IH | done].
Qed.

(** The dictionary the loop starts from. *)
Lemma initial_totals_lookup (cats : list string) (zero : Decimal) (k : string) :
  (list_to_map ((fun c => (c, zero)) <$> cats) : gmap string Decimal) !! k =
    if decide (k ∈ cats) then Some zero else None.
Proof.
  induction cats as [|c cats IH]; [done |].
  rewrite fmap_cons, list_to_map_cons. simpl fst. simpl snd.
  rewrite lookup_insert. destruct (decide (c = k)) as [->|Hne].
  - rewrite decide_True; [done | left].
  - rewrite IH. destruct (decide (k ∈ cats)) as [Hin|Hnin].
    + rewrite decide_True; [done | by right].
    + rewrite decide_False; [done |].
      intros [->|?]%elem_of_cons; done.
Qed.

Lemma initial_totals_dom (cats : list string) (zero : Decimal) :
  dom (list_to_map ((fun c => (c, zero)) <$> cats) : gmap string Decimal)
  = list_to_set cats.
Proof.
  apply set_eq. intros k.
  rewrite elem_of_dom, initial_totals_lookup, elem_of_list_to_set.
  destruct (decide (k ∈ cats)); split; done.
Qed.

End by_category.

(** Against C3 as stated: with an expense in the category "Pets", which the
    add operation accepted, [get_expenses_by_category] does not return a
    dictionary without it: it raises [KeyError]. *)
Lemma get_expenses_by_category_unknown_category_raises :
  Scenario.pets_added.1 =
    with_expenses Scenario.groceries_added.1
      [Scenario.groceries;
       {| description := "Vet"; amount := Finite false 80 0;
          category := "Pets"; date := "2024-01-15" |}]
  /\ get_expenses_by_category Scenario.pets_added.1 = Raise (KeyError "Pets").
Proof. split; vm_compute; reflexivity. Qed.

(** C3, amended: when [get_expenses_by_category] returns, its dictionary has
    exactly the categories of [expense_categories] as keys, every expense has
    one of them as its category, and the value at each key is the sum, from
    [Decimal('0')] on and in the order of the records, of the amounts of the
    expenses of that category ([Decimal('0')] if there is none).  It returns
    whenever every expense has one of these categories and these sums can be
    computed.  An expense of another category is not dropped: at the first
    such record the call raises [KeyError]. *)
Theorem get_expenses_by_category_spec (b : Budget) :
  let cats := expense_categories b in
  let zero := Finite false 0 0 in
  (forall m : gmap string Decimal,
     get_expenses_by_category b = Ok m ->
     dom m = list_to_set cats
     /\ Forall (fun t => category t ∈ cats) (expenses b)
     /\ forall k, k ∈ cats ->
          exists v, m !! k = Some v
                    /\ add_all zero (amounts_of_category k (expenses b)) = Ok v)
  /\ (Forall (fun t => category t ∈ cats) (expenses b) ->
      (forall k, k ∈ cats ->
         exists v, add_all zero (amounts_of_category k (expenses b)) = Ok v) ->
      exists m, get_expenses_by_category b = Ok m)
  /\ (forall l1 t l2,
        expenses b = (l1 ++ t :: l2)%list ->
        Forall (fun t => category t ∈ cats) l1 ->
        (forall k, k ∈ cats ->
           exists v, add_all zero (amounts_of_category k l1) = Ok v) ->
        category t ∉ cats ->
        get_expenses_by_category b = Raise (KeyError (category t))).
Proof.
  cbv zeta. unfold get_expenses_by_category.
  set (m0 := list_to_map _ : gmap string Decimal).
  assert (Hm0 : forall k, m0 !! k =
            if decide (k ∈ expense_categories b)
            then Some (Finite false 0 0) else None)
    by apply initial_totals_lookup.
  assert (Hkey : forall k, is_Some (m0 !! k) <-> k ∈ expense_categories b).
  { intros k. rewrite Hm0. destruct (decide _); split; done. }
  split; [| split].
  - intros m Hloop.
    apply add_expenses_to_categories_ok in Hloop as (Hdom & Hall & Hsum).
    repeat split.
    + rewrite Hdom. apply initial_totals_dom.
    + eapply Forall_impl; [exact Hall |]. intros t. apply Hkey.
    + intros k Hk. apply Hsum. rewrite Hm0. by rewrite decide_True.
  - intros Hall Hsum. apply add_expenses_to_categories_total.
    + eapply Forall_impl; [exact Hall |]. intros t. apply Hkey.
    + intros k v Hk. rewrite Hm0 in Hk.
      destruct (decide (k ∈ expense_categories b)); [|done].
      injection Hk as <-. by apply Hsum.
  - intros l1 t l2 -> Hall Hsum Ht.
    rewrite add_expenses_to_categories_app.
    destruct (add_expenses_to_categories_total l1 m0) as [m1 Hm1].
    + eapply Forall_impl; [exact Hall |]. intros t'. apply Hkey.
    + intros k v Hk. rewrite Hm0 in Hk.
      destruct (decide (k ∈ expense_categories b)); [|done].
      injection Hk as <-. by apply Hsum.
    + rewrite Hm1. simpl.
      apply add_expenses_to_categories_ok in Hm1 as (Hdom & _).
      unfold add_to_category.
      destruct (m1 !! category t) as [v|] eqn:Hv; [|done].
      exfalso. apply Ht, Hkey.
      apply elem_of_dom. rewrite <- Hdom. apply elem_of_dom. eauto.
Qed.

Lemma example_expense_categories :
  expense_categories Scenario.groceries_added.1 =
    ["Food"; "Transportation"; "Housing"; "Entertainment"; "Other"]
  /\ expense_categories Scenario.pets_added.1 =
       ["Food"; "Transportation"; "Housing"; "Entertainment"; "Other"].
Proof. split; vm_compute; reflexivity. Qed.

(** The hypotheses of [get_expenses_by_category_spec] hold on the ledger
    with the groceries: the call returns, with 150.50 at "Food" and 0
    elsewhere; and on the ledger with the vet bill the last part applies. *)
Lemma get_expenses_by_category_spec_witness :
  (dom Scenario.totals_by_category
   = list_to_set (expense_categories Scenario.groceries_added.1)
   /\ Forall (fun t => category t ∈ expense_categories Scenario.groceries_added.1)
        (expenses Scenario.groceries_added.1)
   /\ forall k, k ∈ expense_categories Scenario.groceries_added.1 ->
        exists v, Scenario.totals_by_category !! k = Some v
                  /\ add_all (Finite false 0 0)
                       (amounts_of_category k
                          (expenses Scenario.groceries_added.1)) = Ok v)
  /\ get_expenses_by_category Scenario.pets_added.1 = Raise (KeyError "Pets").
Proof.
  split.
  - apply (get_expenses_by_category_spec Scenario.groceries_added.1).
    vm_compute. reflexivity.
  - pose proof (get_expenses_by_category_spec Scenario.pets_added.1)
      as (_ & _ & H).
    apply (H [Scenario.groceries]
             {| description := "Vet"; amount := Finite false 80 0;
                category := "Pets"; date := "2024-01-15" |} []).
    + vm_compute. reflexivity.
    + rewrite (proj2 example_expense_categories). repeat constructor.
    + intros k Hk. rewrite (proj2 example_expense_categories) in Hk.
      do 5 (apply elem_of_cons in Hk as [->|Hk];
            [eexists; vm_compute; reflexivity |]).
      by apply elem_of_nil in Hk.
    + rewrite (proj2 example_expense_categories). simpl.
      rewrite !not_elem_of_cons. repeat split; try discriminate.
      apply not_elem_of_nil.
Defined.

(** ** Totals and balance *)

Module ExactFacts.
Import Str StrFacts.

Lemma pow10_lt_inv (a b : Z) : 0 <= b -> 10 ^ a < 10 ^ b -> a < b.
Proof. intros Hb H. apply (Z.pow_lt_mono_r_iff 10); lia. Qed.

Lemma ndigits_le (c : N) (k : Z) :
  c <> 0%N -> 0 <= k -> Z.of_N c < 10 ^ k -> ndigits c <= k.
Proof.
  intros Hc Hk Hlt. unfold ndigits.
  pose proof (of_N_lower c Hc) as Hlow.
  pose proof (length_of_N_pos c) as Hpos.
  set (len := String.length (of_N c)) in *.
  assert (H10 : 10 ^ (Z.of_nat len - 1) <= Z.of_N c).
  { replace (Z.of_nat len - 1) with (Z.of_N (N.of_nat (len - 1))) by lia.
    rewrite <- (N2Z.inj_pow 10). lia. }
  assert (Hpow : 10 ^ (Z.of_nat len - 1) < 10 ^ k) by lia.
  apply pow10_lt_inv in Hpow; lia.
Qed.

Lemma units_rescale (m exp : Z) (s : bool) (c : N) (e : Z) :
  m <= exp -> exp <= e ->
  units m s c e = units exp s c e * 10 ^ (exp - m).
Proof.
  intros H1 H2. unfold units.
  replace (e - m) with ((e - exp) + (exp - m)) by lia.
  rewrite Z.pow_add_r by lia. lia.
Qed.

Section exact.

Variable m : Z.
Hypothesis Hm_low : Etiny <= m.
Hypothesis Hm_high : m <= 0.

Lemma pow_prec_pos (k : Z) : 0 <= k -> 0 < 10 ^ k.
Proof. intros. apply Z.pow_pos_nonneg; lia. Qed.

(** A coefficient that fits the precision is left alone by [_fix]. *)
Lemma fix_exact (s : bool) (c : N) (e : Z) :
  m <= e -> c <> 0%N -> Z.of_N c * 10 ^ (e - m) < 10 ^ prec ->
  _fix (Finite s c e) = Ok (Finite s c e).
Proof.
  intros He Hc Hlt. unfold _fix.
  apply N.eqb_neq in Hc as Hc'. rewrite Hc'.
  assert (Hprec : prec = 28) by reflexivity.
  pose proof (pow_prec_pos (e - m) ltac:(lia)) as Hp.
  assert (Hem : e - m < prec).
  { apply pow10_lt_inv; [lia | nia]. }
  assert (Hc10 : Z.of_N c < 10 ^ (prec - (e - m))).
  { replace (10 ^ prec) with (10 ^ (prec - (e - m)) * 10 ^ (e - m)) in Hlt.
    - nia.
    - rewrite <- Z.pow_add_r by lia. f_equal. lia. }
  pose proof (ndigits_le c (prec - (e - m)) Hc ltac:(lia) Hc10) as Hnd.
  assert (HEtop : Etop = 999972) by reflexivity.
  assert (HEtiny : Etiny = -1000026) by reflexivity.
  replace (Etop <? ndigits c + e - prec) with false
    by (symmetry; apply Z.ltb_ge; lia).
  replace (e <? Z.max (ndigits c + e - prec) Etiny) with false
    by (symmetry; apply Z.ltb_ge; lia).
  done.
Qed.

Lemma fix_zero (s : bool) (e : Z) :
  m <= e ->
  exists e', _fix (Finite s 0 e) = Ok (Finite s 0 e') /\ m <= e'.
Proof.
  intros He. eexists. split; [reflexivity |].
  assert (HEtiny : Etiny = -1000026) by reflexivity.
  assert (HEmax : Emax = 999999) by reflexivity. lia.
Qed.

(** Two finite numbers whose exact sum fits the precision are added
    exactly. *)
Lemma add_exact (a b : Decimal) :
  finite_above m a = true -> finite_above m b = true ->
  Z.abs (units_of m a) + Z.abs (units_of m b) < 10 ^ prec ->
  exists d, __add__ a b = Ok d
            /\ finite_above m d = true
            /\ units_of m d = units_of m a + units_of m b.
Proof.
  destruct a as [s1 c1 e1| |]; try done.
  destruct b as [s2 c2 e2| |]; try done.
  simpl finite_above. simpl units_of.
  intros He1%Z.leb_le He2%Z.leb_le Hlt.
  unfold __add__. simpl _check_nans. cbv iota. cbv zeta.
  set (exp := Z.min e1 e2).
  assert (Hprec : prec = 28) by reflexivity.
  assert (Hexp : m <= exp) by (unfold exp; lia).
  pose proof (pow_prec_pos (e1 - m) ltac:(lia)) as Hp1.
  pose proof (pow_prec_pos (e2 - m) ltac:(lia)) as Hp2.
  assert (Hu1 : Z.abs (units m s1 c1 e1) = Z.of_N c1 * 10 ^ (e1 - m)).
  { unfold units. destruct s1; nia. }
  assert (Hu2 : Z.abs (units m s2 c2 e2) = Z.of_N c2 * 10 ^ (e2 - m)).
  { unfold units. destruct s2; nia. }
  destruct (N.eqb_spec c1 0) as [-> | Hc1];
    destruct (N.eqb_spec c2 0) as [-> | Hc2]; simpl andb; cbv iota.
  - (* 0 + 0 *)
    destruct (fix_zero (s1 && s2) exp Hexp) as (e' & -> & He').
    eexists. split; [reflexivity |]. split.
    + simpl. by apply Z.leb_le.
    + unfold units_of, units. lia.
  - (* 0 + b *)
    assert (He2m : e2 - m < prec).
    { apply pow10_lt_inv; [lia | nia]. }
    replace (Z.max exp (e2 - prec - 1)) with exp by (unfold exp; lia).
    unfold _rescale. apply N.eqb_neq in Hc2 as Hc2'. rewrite Hc2'.
    replace (exp <=? e2) with true by (symmetry; apply Z.leb_le; unfold exp; lia).
    assert (Hpad : Z.of_N (c2 * 10 ^ Z.to_N (e2 - exp)) * 10 ^ (exp - m)
                   = Z.of_N c2 * 10 ^ (e2 - m)).
    { rewrite N2Z.inj_mul, N2Z.inj_pow, Z2N.id by (unfold exp; lia).
      replace (e2 - m) with ((e2 - exp) + (exp - m)) by lia.
      rewrite Z.pow_add_r by (unfold exp; lia). lia. }
    rewrite fix_exact; [| done | |].
    + eexists. split; [reflexivity |]. split.
      * simpl. by apply Z.leb_le.
      * unfold units_of, units. rewrite <- Z.mul_assoc, Hpad. lia.
    + pose proof (pow_prec_pos (Z.of_N (Z.to_N (e2 - exp))) ltac:(lia)).
      rewrite <- (N2Z.inj_pow 10) in H. lia.
    + rewrite Hpad. lia.
  - (* a + 0 *)
    assert (He1m : e1 - m < prec).
    { apply pow10_lt_inv; [lia | nia]. }
    replace (Z.max exp (e1 - prec - 1)) with exp by (unfold exp; lia).
    unfold _rescale. apply N.eqb_neq in Hc1 as Hc1'. rewrite Hc1'.
    replace (exp <=? e1) with true by (symmetry; apply Z.leb_le; unfold exp; lia).
    assert (Hpad : Z.of_N (c1 * 10 ^ Z.to_N (e1 - exp)) * 10 ^ (exp - m)
                   = Z.of_N c1 * 10 ^ (e1 - m)).
    { rewrite N2Z.inj_mul, N2Z.inj_pow, Z2N.id by (unfold exp; lia).
      replace (e1 - m) with ((e1 - exp) + (exp - m)) by lia.
      rewrite Z.pow_add_r by (unfold exp; lia). lia. }
    rewrite fix_exact; [| done | |].
    + eexists. split; [reflexivity |]. split.
      * simpl. by apply Z.leb_le.
      * unfold units_of, units. rewrite <- Z.mul_assoc, Hpad. lia.
    + pose proof (pow_prec_pos (Z.of_N (Z.to_N (e1 - exp))) ltac:(lia)).
      rewrite <- (N2Z.inj_pow 10) in H. lia.
    + rewrite Hpad. lia.
  - (* a + b *)
    set (v := units exp s1 c1 e1 + units exp s2 c2 e2).
    pose proof (pow_prec_pos (exp - m) ltac:(lia)) as Hp.
    assert (Hv : v * 10 ^ (exp - m) = units m s1 c1 e1 + units m s2 c2 e2).
    { unfold v. rewrite (units_rescale m exp s1), (units_rescale m exp s2)
        by (unfold exp; lia). lia. }
    destruct (Z.eqb_spec v 0) as [Hv0 | Hv0].
    + destruct (fix_zero false exp Hexp) as (e' & -> & He').
      eexists. split; [reflexivity |]. split.
      * simpl. by apply Z.leb_le.
      * rewrite <- Hv, Hv0. unfold units_of, units. lia.
    + rewrite fix_exact; [| done | lia |].
      * eexists. split; [reflexivity |]. split.
        -- simpl. by apply Z.leb_le.
        -- rewrite <- Hv. unfold units_of, units.
           destruct (Z.ltb_spec v 0); lia.
      * replace (Z.of_N (Z.abs_N v)) with (Z.abs v) by lia.
        rewrite <- (Z.abs_eq (10 ^ (exp - m))) by lia.
        rewrite <- Z.abs_mul, Hv. lia.
Qed.

Lemma sub_exact (a b : Decimal) :
  finite_above m a = true -> finite_above m b = true ->
  Z.abs (units_of m a) + Z.abs (units_of m b) < 10 ^ prec ->
  exists d, __sub__ a b = Ok d
            /\ finite_above m d = true
            /\ units_of m d = units_of m a - units_of m b.
Proof.
  intros Ha Hb Hlt.
  assert (Hneg : finite_above m (copy_negate b) = true
                 /\ units_of m (copy_negate b) = - units_of m b).
  { destruct b as [s c e| |]; try done. split; [done |].
    unfold units_of, units. destruct s; simpl; lia. }
  destruct Hneg as [Hnb Hnu].
  destruct (add_exact a (copy_negate b) Ha Hnb) as (d & Hd & Hfd & Hud).
  { rewrite Hnu. lia. }
  exists d. split; [| split; [done | lia]].
  unfold __sub__.
  destruct a as [s1 c1 e1| |]; try done.
  by destruct b as [s2 c2 e2| |].
Qed.

Lemma number_add_exact (n : number) (d : Decimal) :
  exact_number m n -> finite_above m d = true ->
  Z.abs (number_units m n) + Z.abs (units_of m d) < 10 ^ prec ->
  exists d', number_add n (Dec d) = Ok (Dec d')
             /\ finite_above m d' = true
             /\ units_of m d' = number_units m n + units_of m d.
Proof.
  intros Hn Hd Hlt.
  assert (H0 : finite_above m (of_int 0) = true) by (by apply Z.leb_le).
  assert (Hu0 : units_of m (of_int 0) = 0) by done.
  destruct n as [z|d0]; unfold exact_number in Hn;
    simpl number_units in *; simpl number_add; subst.
  - destruct (add_exact d (of_int 0)) as (d' & Hadd & Hf & Hu);
      [done | done | rewrite Hu0; lia |].
    exists d'. rewrite Hadd. split; [done |]. split; [done |].
    rewrite Hu, Hu0. lia.
  - destruct (add_exact d0 d) as (d' & Hadd & Hf & Hu); [done.. |].
    exists d'. by rewrite Hadd.
Qed.

Lemma exact_sum_cons d l : exact_sum m (d :: l) = units_of m d + exact_sum m l.
Proof. done. Qed.

Lemma abs_sum_cons d l :
  abs_sum m (d :: l) = Z.abs (units_of m d) + abs_sum m l.
Proof. done. Qed.

Lemma abs_sum_nonneg l : 0 <= abs_sum m l.
Proof. induction l as [|d l IH]; [done |]. rewrite abs_sum_cons. lia. Qed.

Lemma exact_sum_abs l : Z.abs (exact_sum m l) <= abs_sum m l.
Proof.
  induction l as [|d l IH]; [done |].
  rewrite exact_sum_cons, abs_sum_cons. lia.
Qed.

(** [sum] is exact as long as the absolute values of what it adds stay
    within the precision. *)
Lemma sum_from_exact (l : list Decimal) : forall start : number,
  exact_number m start ->
  Forall (fun d => finite_above m d = true) l ->
  Z.abs (number_units m start) + abs_sum m l < 10 ^ prec ->
  exists n, sum_from start l = Ok n
            /\ exact_number m n
            /\ number_units m n = number_units m start + exact_sum m l.
Proof.
  induction l as [|d l IH]; intros start Hstart Hall Hlt.
  - exists start. simpl. repeat split; [done |]. unfold exact_sum. simpl. lia.
  - apply Forall_cons in Hall as [Hd Hall].
    rewrite abs_sum_cons in Hlt.
    pose proof (abs_sum_nonneg l) as Hnn.
    destruct (number_add_exact start d Hstart Hd ltac:(lia))
      as (d' & Hadd & Hf & Hu).
    destruct (IH (Dec d') Hf Hall) as (n & Hn & Hex & Hun).
    { simpl number_units. rewrite Hu. lia. }
    exists n. simpl sum_from. rewrite Hadd. simpl.
    repeat split; [done.. |].
    rewrite Hun, exact_sum_cons. simpl number_units. lia.
Qed.

Lemma sum_exact (l : list Decimal) :
  Forall (fun d => finite_above m d = true) l ->
  abs_sum m l < 10 ^ prec ->
  exists n, sum l = Ok n
            /\ exact_number m n
            /\ number_units m n = exact_sum m l.
Proof.
  intros Hall Hlt.
  destruct (sum_from_exact l (Int 0)) as (n & Hn & Hex & Hun);
    [done | done | simpl; lia |].
  exists n. repeat split; [done.. |]. rewrite Hun. simpl. lia.
Qed.

Lemma number_sub_exact (a b : number) :
  exact_number m a -> exact_number m b ->
  Z.abs (number_units m a) + Z.abs (number_units m b) < 10 ^ prec ->
  exists n, number_sub a b = Ok n
            /\ number_units m n = number_units m a - number_units m b.
Proof.
  intros Ha Hb Hlt.
  assert (H0 : finite_above m (of_int 0) = true) by (by apply Z.leb_le).
  assert (Hu0 : units_of m (of_int 0) = 0) by done.
  destruct a as [x|d1], b as [y|d2];
    unfold exact_number in Ha, Hb; simpl number_units in *;
    simpl number_sub; subst.
  - exists (Int 0). done.
  - destruct (sub_exact (of_int 0) d2) as (d & Hd & Hf & Hu);
      [done | done | rewrite Hu0; lia |].
    exists (Dec d). rewrite Hd. split; [done |].
    simpl number_units. rewrite Hu, Hu0. lia.
  - destruct (sub_exact d1 (of_int 0)) as (d & Hd & Hf & Hu);
      [done | done | rewrite Hu0; lia |].
    exists (Dec d). rewrite Hd. split; [done |].
    simpl number_units. rewrite Hu, Hu0. lia.
  - destruct (sub_exact d1 d2) as (d & Hd & Hf & Hu); [done.. |].
    exists (Dec d). rewrite Hd. done.
Qed.

End exact.

End ExactFacts.

(** Against C7 as stated: the incomes 10000000000000000000000000000 and 1
    have the exact sum 10000000000000000000000000001, of 29 digits;
    [get_total_income] returns 1.000000000000000000000000000E+28, which is
    10000000000000000000000000000. *)
Lemma get_total_income_rounds_to_28_digits :
  amount <$> incomes Scenario.large_incomes.1 =
    [Finite false 10000000000000000000000000000 0; Finite false 1 0]
  /\ get_total_income Scenario.large_incomes.1 =
       Ok (Dec (Finite false 1000000000000000000000000000 1))
  /\ exact_sum 0 (amount <$> incomes Scenario.large_incomes.1) =
       10000000000000000000000000001
  /\ number_units 0 (Dec (Finite false 1000000000000000000000000000 1)) =
       10000000000000000000000000000.
Proof. repeat split; vm_compute; reflexivity. Qed.

(** C7, amended: [get_balance] is [get_total_income() - get_total_expenses()],
    with the same result or the same exception.  Each total is the Python
    [sum] of the amounts of its sequence: the [int] 0 for an empty sequence,
    so 0 is the balance of an empty ledger, and otherwise a [Decimal] built by
    additions that round to the 28 significant digits of the context.  The
    totals and the balance are exact whenever the amounts are finite with
    at most [-m] decimal places and the sum of their absolute values is
    below [10^28] in units of [10^m]. *)
Theorem totals_and_balance (b : Budget) :
  get_balance b =
    (income ← get_total_income b;
     expenses ← get_total_expenses b;
     number_sub income expenses)
  /\ get_total_income b = sum (amount <$> incomes b)
  /\ get_total_expenses b = sum (amount <$> expenses b)
  /\ (incomes b = [] -> get_total_income b = Ok (Int 0))
  /\ (expenses b = [] -> get_total_expenses b = Ok (Int 0))
  /\ (incomes b = [] -> expenses b = [] -> get_balance b = Ok (Int 0))
  /\ (forall m : Z,
        Etiny <= m -> m <= 0 ->
        Forall (fun d => finite_above m d = true) (amount <$> incomes b) ->
        Forall (fun d => finite_above m d = true) (amount <$> expenses b) ->
        abs_sum m (amount <$> incomes b) + abs_sum m (amount <$> expenses b)
          < 10 ^ prec ->
        exists total_income total_expenses balance,
          get_total_income b = Ok total_income
          /\ number_units m total_income = exact_sum m (amount <$> incomes b)
          /\ get_total_expenses b = Ok total_expenses
          /\ number_units m total_expenses
             = exact_sum m (amount <$> expenses b)
          /\ get_balance b = Ok balance
          /\ number_units m balance =
               exact_sum m (amount <$> incomes b)
               - exact_sum m (amount <$> expenses b)).
Proof.
  unfold get_balance, get_total_income, get_total_expenses.
  repeat split.
  - by intros ->.
  - by intros ->.
  - by intros -> ->.
  - intros m Hlow Hhigh Hinc Hexp Hlt.
    pose proof (ExactFacts.abs_sum_nonneg m (amount <$> incomes b)).
    pose proof (ExactFacts.abs_sum_nonneg m (amount <$> expenses b)).
    pose proof (ExactFacts.exact_sum_abs m (amount <$> incomes b)).
    pose proof (ExactFacts.exact_sum_abs m (amount <$> expenses b)).
    destruct (ExactFacts.sum_exact m Hlow Hhigh _ Hinc ltac:(lia))
      as (i & Hi & Hxi & Hui).
    destruct (ExactFacts.sum_exact m Hlow Hhigh _ Hexp ltac:(lia))
      as (e & He & Hxe & Hue).
    destruct (ExactFacts.number_sub_exact m Hlow Hhigh i e Hxi Hxe ltac:(lia))
      as (bal & Hbal & Hub).
    exists i, e, bal. rewrite Hi, He. simpl.
    repeat split; try done. lia.
Qed.

(** The hypotheses of [totals_and_balance] hold: on the new ledger for the
    empty sequences, and on the ledger with the paycheck and the groceries,
    counted in cents, for the exact totals. *)
Lemma totals_and_balance_witness :
  get_balance Scenario.fresh.1 = Ok (Int 0)
  /\ exists total_income total_expenses balance,
       get_total_income Scenario.groceries_added.1 = Ok total_income
       /\ number_units (-2) total_income =
            exact_sum (-2) (amount <$> incomes Scenario.groceries_added.1)
       /\ get_total_expenses Scenario.groceries_added.1 = Ok total_expenses
       /\ number_units (-2) total_expenses =
            exact_sum (-2) (amount <$> expenses Scenario.groceries_added.1)
       /\ get_balance Scenario.groceries_added.1 = Ok balance
       /\ number_units (-2) balance =
            exact_sum (-2) (amount <$> incomes Scenario.groceries_added.1)
            - exact_sum (-2) (amount <$> expenses Scenario.groceries_added.1).
Proof.
  split.
  - apply (totals_and_balance Scenario.fresh.1); vm_compute; reflexivity.
  - apply (totals_and_balance Scenario.groceries_added.1 ).
    + vm_compute. discriminate.
    + vm_compute. discriminate.
    + vm_compute. repeat constructor.
    + vm_compute. repeat constructor.
    + vm_compute. reflexivity.
Defined.

(** ** A first run, end to end *)

(** A paycheck of 1000.00 and groceries of 150.50 in "Food": the totals,
    the balance, and 150.50 at "Food" with 0 at every other category. *)
Example first_run_totals :
  get_total_income Scenario.groceries_added.1
    = Ok (Dec (Finite false 100000 (-2)))
  /\ get_total_expenses Scenario.groceries_added.1
     = Ok (Dec (Finite false 15050 (-2)))
  /\ get_balance Scenario.groceries_added.1
     = Ok (Dec (Finite false 84950 (-2)))
  /\ get_expenses_by_category Scenario.groceries_added.1
     = Ok Scenario.totals_by_category.
Proof. repeat split; vm_compute; reflexivity. Qed.

(** 0.10 and 0.20 add up to 0.30, with no binary rounding on the way. *)
Example dimes_add_up :
  sum [Finite false 10 (-2); Finite false 20 (-2)]
    = Ok (Dec (Finite false 30 (-2))).
Proof. reflexivity. Qed.

(** * Beyond the claims: what else the code guarantees *)

(** ** Amounts that pass the test [amount <= 0] *)

Lemma le_0_positive (a : Decimal) :
  __le__ a (of_int 0) = Ok false <-> is_positive a = true.
Proof.
  destruct a as [s c e|s|s sg p]; simpl; [| by destruct s | done].
  unfold __le__, _cmp, of_int, units. simpl.
  assert (Hp : 0 < 10 ^ (e - Z.min e 0)) by (apply Z.pow_pos_nonneg; lia).
  assert (Hq : 0 < 10 ^ (0 - Z.min e 0)) by (apply Z.pow_pos_nonneg; lia).
  match goal with |- context [?x ?= ?y] => destruct (Z.compare_spec x y) end;
    destruct s; simpl; destruct (N.eqb_spec c 0); simpl;
    split; try done; try discriminate; intros _; exfalso; nia.
Qed.

(** ** What the store can hold *)


Lemma of_Decimal_raises (d : Decimal) (e : exn) :
  float.of_Decimal d = Raise e ->
  is_snan d = true
  /\ e = ValueError "cannot convert signaling NaN to float".
Proof. destruct d as [| |? []]; simpl; try done. by intros [= <-]. Qed.

Lemma of_Decimal_returns (d : Decimal) :
  is_snan d = false -> exists f, float.of_Decimal d = Ok f.
Proof. destruct d as [| |? []]; simpl; try done; eauto. Qed.

Lemma to_dict_returns (t : Transaction) :
  is_snan (amount t) = false -> exists d, to_dict t = Ok d.
Proof.
  intros H. unfold to_dict.
  destruct (of_Decimal_returns _ H) as [f ->]. simpl. eauto.
Qed.

Lemma to_dict_raises (t : Transaction) (e : exn) :
  to_dict t = Raise e ->
  is_snan (amount t) = true
  /\ e = ValueError "cannot convert signaling NaN to float".
Proof.
  unfold to_dict.
  destruct (float.of_Decimal (amount t)) as [f|e'] eqn:Hf; [done |].
  simpl. intros [= <-]. by apply of_Decimal_raises.
Qed.

Lemma mapM_to_dict_returns (l : list Transaction) :
  Forall (fun t => is_snan (amount t) = false) l ->
  exists k, mapM to_dict l = Ok k.
Proof.
  induction 1 as [|t l Ht _ [k IH]]; simpl; [eauto |].
  destruct (to_dict_returns _ Ht) as [d ->]. rewrite IH. simpl. eauto.
Qed.

Lemma mapM_to_dict_inv (l : list Transaction) :
  match mapM to_dict l with
  | Ok _ => Forall (fun t => is_snan (amount t) = false) l
  | Raise e =>
      e = ValueError "cannot convert signaling NaN to float"
      /\ Exists (fun t => is_snan (amount t) = true) l
  end.
Proof.
  induction l as [|t l IH]; simpl; [constructor |].
  destruct (to_dict t) as [d|e] eqn:Hd; simpl.
  - assert (Ht : is_snan (amount t) = false).
    { destruct (is_snan (amount t)) eqn:Hs; [|done].
      unfold to_dict in Hd.
      destruct (amount t) as [| |? []]; simpl in *; done. }
    destruct (mapM to_dict l) as [k|e]; simpl.
    + by constructor.
    + destruct IH as [-> IH]. split; [done | by right].
  - apply to_dict_raises in Hd as [Hs ->]. split; [done | by left].
Qed.

Lemma store_data_cases (b : Budget) :
  match store_data b with
  | Ok _ => Forall (fun t => is_snan (amount t) = false) (incomes b ++ expenses b)
  | Raise e =>
      e = ValueError "cannot convert signaling NaN to float"
      /\ Exists (fun t => is_snan (amount t) = true) (incomes b ++ expenses b)
  end.
Proof.
  unfold store_data.
  pose proof (mapM_to_dict_inv (incomes b)) as Hi.
  pose proof (mapM_to_dict_inv (expenses b)) as He.
  destruct (mapM to_dict (incomes b)) as [inc|e]; simpl.
  - destruct (mapM to_dict (expenses b)) as [exps|e]; simpl.
    + by apply Forall_app.
    + destruct He as [-> He]. split; [done |]. apply Exists_app. by right.
  - destruct Hi as [-> Hi]. split; [done |]. apply Exists_app. by left.
Qed.


(** ** The routes, step by step *)

Lemma route_add_income_unfold (st : Budget * World) (fd fa : string) :
  route_add_income fd fa st =
    if String.eqb (Str.strip fd) ""
       || (100 <? String.length (Str.strip fd))%nat
    then (st, Ok (BadRequest "Invalid description length"))
    else route_answer (add_income (Str.strip fd) (AmountStr fa) None st).
Proof.
  unfold route_add_income, try_except_ValueError. cbv zeta.
  destruct (String.eqb (Str.strip fd) "" || _); [done |].
  unfold mbind, py_bind, mret, py_ret, route_answer.
  destruct (add_income _ _ _ st) as [st' [[]|e]]; [done |].
  by destruct e.
Qed.

Lemma route_add_expense_unfold (st : Budget * World) (fd fa : string) :
  route_add_expense fd fa st =
    if String.eqb (Str.strip fd) ""
       || (100 <? String.length (Str.strip fd))%nat
    then (st, Ok (BadRequest "Invalid description length"))
    else route_answer (add_expense (Str.strip fd) (AmountStr fa) None st).
Proof.
  unfold route_add_expense, try_except_ValueError. cbv zeta.
  destruct (String.eqb (Str.strip fd) "" || _); [done |].
  unfold mbind, py_bind, mret, py_ret, route_answer.
  destruct (add_expense _ _ _ st) as [st' [[]|e]]; [done |].
  by destruct e.
Qed.

Lemma route_answer_state (r : Budget * World * result unit) :
  (route_answer r).1 = r.1.
Proof. destruct r as [st [[]|[]]]; done. Qed.


(** X2: the add operations and the two routes that call them keep the
    ledger well formed: when every record has a description that is not
    empty and an amount above zero, this still holds after the call,
    whatever its arguments and whether it returns or raises. *)
Theorem additions_keep_records_accepted
    (b : Budget) (w : World) (description form_amount : string)
    (value : amount_arg) (category : option string) :
  Forall (fun t => accepted t = true) (incomes b ++ expenses b) ->
  let kept (st : Budget * World) :=
    Forall (fun t => accepted t = true) (incomes st.1 ++ expenses st.1) in
  kept (add_income description value category (b, w)).1
  /\ kept (add_expense description value category (b, w)).1
  /\ kept (route_add_income description form_amount (b, w)).1
  /\ kept (route_add_expense description form_amount (b, w)).1.
Proof.
  intros Hall. cbv zeta.
  assert (Hadd : forall d v c,
    Forall (fun t => accepted t = true)
      (incomes (add_income d v c (b, w)).1.1
       ++ expenses (add_income d v c (b, w)).1.1)
    /\ Forall (fun t => accepted t = true)
         (incomes (add_expense d v c (b, w)).1.1
          ++ expenses (add_expense d v c (b, w)).1.1)).
  { intros d v c. rewrite add_income_unfold, add_expense_unfold.
    destruct (String.eqb d "" || amount_is_falsy v) eqn:Hd; [done |].
    destruct (Decimal_of_amount v) as [a|]; [|done].
    destruct (__le__ a (of_int 0)) as [[]|] eqn:Hle; [done | | done].
    apply le_0_positive in Hle. apply orb_false_iff in Hd as [Hd _].
    apply Forall_app in Hall as [Hi He]. cbv zeta.
    split.
    - destruct (store_data _); [destruct (writable w) |]; simpl;
        rewrite <- app_assoc; apply Forall_app; (split; [done |]);
        (constructor; [| done]); unfold accepted; simpl; by rewrite Hd, Hle.
    - destruct (store_data _); [destruct (writable w) |]; simpl;
        rewrite app_assoc; apply Forall_app; (split; [by apply Forall_app |]);
        (constructor; [| done]); unfold accepted; simpl; by rewrite Hd, Hle. }
  destruct (Hadd description value category) as [H1 H2].
  split; [exact H1 |]. split; [exact H2 |].
  rewrite route_add_income_unfold, route_add_expense_unfold.
  destruct (String.eqb (Str.strip description) "" || _); [done |].
  rewrite !route_answer_state.
  destruct (Hadd (Str.strip description) (AmountStr form_amount) None)
    as [H3 H4].
  split; [exact H3 | exact H4].
Qed.

(** The hypothesis of [additions_keep_records_accepted] holds on the ledger
    with the paycheck; the groceries are added to it. *)
Lemma additions_keep_records_accepted_witness :
  Forall (fun t => accepted t = true)
    (incomes (add_expense "Groceries" (AmountStr "150.50") (Some "Food")
                (Scenario.paycheck_added.1, Scenario.paycheck_added.2)).1.1
     ++ expenses (add_expense "Groceries" (AmountStr "150.50") (Some "Food")
                    (Scenario.paycheck_added.1, Scenario.paycheck_added.2)).1.1).
Proof.
  apply (additions_keep_records_accepted Scenario.paycheck_added.1
           Scenario.paycheck_added.2 "Groceries" "150.50"
           (AmountStr "150.50") (Some "Food")).
  vm_compute. repeat constructor.
Defined.

(** X3: of the world, an add operation, a route, [save_data] and
    [load_data] change at most the content of the one file named by
    [filename]: the clock, the write permission and every other file are as
    before; [load_data] changes nothing of the world at all.  Of the ledger
    they leave the two category lists and the file name alone, and
    [save_data] leaves the whole ledger alone. *)
Theorem operations_touch_only_the_store_file
    (b : Budget) (w : World) (description form_amount : string)
    (value : amount_arg) (category : option string) :
  let frame (st : Budget * World) :=
    income_categories st.1 = income_categories b
    /\ expense_categories st.1 = expense_categories b
    /\ filename st.1 = filename b
    /\ now st.2 = now w
    /\ writable st.2 = writable w
    /\ forall name, name <> filename b -> files st.2 !! name = files w !! name in
  frame (add_income description value category (b, w)).1
  /\ frame (add_expense description value category (b, w)).1
  /\ frame (route_add_income description form_amount (b, w)).1
  /\ frame (route_add_expense description form_amount (b, w)).1
  /\ frame (save_data (b, w)).1
  /\ (save_data (b, w)).1.1 = b
  /\ frame (load_data (b, w)).1
  /\ (load_data (b, w)).1.2 = w.
Proof.
  cbv zeta.
  assert (Hfile : forall data name,
            name <> filename b ->
            files (with_file w (filename b) data) !! name = files w !! name).
  { intros data name Hne. apply lookup_insert_ne. congruence. }
  assert (Hadd : forall d v c,
    let frame (st : Budget * World) :=
      income_categories st.1 = income_categories b
      /\ expense_categories st.1 = expense_categories b
      /\ filename st.1 = filename b
      /\ now st.2 = now w
      /\ writable st.2 = writable w
      /\ forall name, name <> filename b -> files st.2 !! name = files w !! name in
    frame (add_income d v c (b, w)).1 /\ frame (add_expense d v c (b, w)).1).
  { intros d v c. cbv zeta. rewrite add_income_unfold, add_expense_unfold.
    destruct (String.eqb d "" || amount_is_falsy v); [done |].
    destruct (Decimal_of_amount v) as [a|]; [|done].
    destruct (__le__ a (of_int 0)) as [[]|]; [done | | done].
    cbv zeta.
    split; (destruct (store_data _); [destruct (writable w) eqn:Hw |]);
      simpl; repeat split; try done; apply Hfile. }
  cbv zeta in Hadd.
  destruct (Hadd description value category) as [H1 H2].
  destruct (Hadd (Str.strip description) (AmountStr form_amount) None)
    as [H3 H4].
  split; [exact H1 |]. split; [exact H2 |].
  split.
  { rewrite route_add_income_unfold.
    destruct (String.eqb (Str.strip description) "" || _); [done |].
    rewrite !route_answer_state. exact H3. }
  split.
  { rewrite route_add_expense_unfold.
    destruct (String.eqb (Str.strip description) "" || _); [done |].
    rewrite !route_answer_state. exact H4. }
  assert (Hsave : forall P : Budget * World -> Prop,
            P (b, w) ->
            (forall data, writable w = true ->
                          P (b, with_file w (filename b) data)) ->
            P (save_data (b, w)).1).
  { intros P HP0 HP1. unfold save_data, mbind, py_bind, get_self, lift,
      get_world, put_world, raise. simpl.
    destruct (store_data b) as [data|]; [|done].
    destruct (writable w) eqn:Hw; simpl; [by apply HP1 | done]. }
  split.
  { apply Hsave; [done |]. intros data Hw. simpl. repeat split; try done.
    apply Hfile. }
  split.
  { apply (Hsave (fun st => st.1 = b)); done. }
  unfold load_data, mbind, py_bind, get_self, get_world, lift, put_self.
  simpl. destruct (files w !! filename b) as [data|]; [|done].
  destruct (mapM _ (default [] (data_income data))) as [inc|]; [|done].
  simpl.
  destruct (mapM _ (default [] (data_expenses data))) as [exps|]; done.
Qed.


(** X4: a route answers 400 "Invalid description length" exactly when the
    description, stripped of surrounding white space, is empty or longer
    than 100 characters; the ledger is not called then, so the ledger and
    the store are as before.  A description of exactly 100 characters
    passes. *)
Theorem routes_check_description_length
    (st : Budget * World) (form_description form_amount : string) :
  let too_short_or_long :=
    Str.strip form_description = ""
    \/ (100 < String.length (Str.strip form_description))%nat in
  let turned_away (r : Budget * World * result response) :=
    r.2 = Ok (BadRequest "Invalid description length") in
  (turned_away (route_add_income form_description form_amount st)
   <-> too_short_or_long)
  /\ (turned_away (route_add_expense form_description form_amount st)
      <-> too_short_or_long)
  /\ (too_short_or_long ->
      (route_add_income form_description form_amount st).1 = st
      /\ (route_add_expense form_description form_amount st).1 = st).
Proof.
  cbv zeta. destruct st as [b w].
  rewrite route_add_income_unfold, route_add_expense_unfold.
  destruct (String.eqb_spec (Str.strip form_description) "") as [He|He];
    [simpl; repeat split; auto |].
  destruct (Nat.ltb_spec 100 (String.length (Str.strip form_description)))
    as [Hlen|Hlen]; [simpl; repeat split; auto |].
  simpl orb. cbv iota.
  assert (Hno : ~ (Str.strip form_description = ""
                   \/ (100 < String.length (Str.strip form_description))%nat))
    by (intros [|]; [done | lia]).
  rewrite add_income_unfold, add_expense_unfold.
  apply String.eqb_neq in He. rewrite He. simpl orb.
  split; [| split]; [| | done].
  - split; [| done]. intros H. exfalso. revert H.
    simpl amount_is_falsy. destruct (String.eqb form_amount ""); [done |].
    destruct (Decimal_of_amount _) as [a|]; [| done].
    destruct (__le__ a (of_int 0)) as [[]|]; [done | | done].
    cbv zeta.
    match goal with |- context [store_data ?x] =>
      pose proof (store_data_cases x) as Hs; destruct (store_data x) as [data|e]
    end; [by destruct (writable w) | by destruct Hs as [-> _]].
  - split; [| done]. intros H. exfalso. revert H.
    simpl amount_is_falsy. destruct (String.eqb form_amount ""); [done |].
    destruct (Decimal_of_amount _) as [a|]; [| done].
    destruct (__le__ a (of_int 0)) as [[]|]; [done | | done].
    cbv zeta.
    match goal with |- context [store_data ?x] =>
      pose proof (store_data_cases x) as Hs; destruct (store_data x) as [data|e]
    end; [by destruct (writable w) | by destruct Hs as [-> _]].
Qed.







(** ** Totals after an addition *)

Lemma sum_from_app (l1 l2 : list Decimal) : forall start,
  sum_from start (l1 ++ l2) = (total ← sum_from start l1; sum_from total l2).
Proof.
  induction l1 as [|d l1 IH]; intros start; simpl; [done |].
  destruct (number_add start (Dec d)) as [s|]; simpl; [apply IH | done].
Qed.

Lemma sum_snoc (l : list Decimal) (a : Decimal) :
  sum (l ++ [a]) = (total ← sum l; number_add total (Dec a)).
Proof.
  unfold sum. rewrite sum_from_app.
  destruct (sum_from (Int 0) l) as [t|]; simpl; [|done].
  by destruct (number_add t (Dec a)).
Qed.

Lemma amounts_of_month_app (m : string) (l1 l2 : list Transaction) :
  amounts_of_month m (l1 ++ l2) =
    (amounts_of_month m l1 ++ amounts_of_month m l2)%list.
Proof.
  induction l1 as [|t l1 IH]; simpl; [done |].
  destruct (Str.startswith (date t) m); simpl; by rewrite IH.
Qed.

(** What a call that returned has done. *)
Lemma add_income_returned (b b' : Budget) (w w' : World) description value
    category :
  add_income description value category (b, w) = ((b', w'), Ok tt) ->
  exists a data,
    Decimal_of_amount value = Ok a
    /\ is_positive a = true
    /\ b' = with_incomes b
              (incomes b ++ [{| description := description; amount := a;
                                category := default "Salary" category;
                                date := strftime_Ymd (now w) |}])
    /\ store_data b' = Ok data
    /\ w' = with_file w (filename b) data.
Proof.
  rewrite add_income_unfold.
  destruct (String.eqb description "" || amount_is_falsy value); [done |].
  destruct (Decimal_of_amount value) as [a|]; [|done].
  destruct (__le__ a (of_int 0)) as [[]|] eqn:Hle; [done | | done].
  apply le_0_positive in Hle. cbv zeta.
  destruct (store_data _) as [data|] eqn:Hdata; [|done].
  destruct (writable w); [|done].
  intros [= <- <-]. exists a, data. done.
Qed.

Lemma add_expense_returned (b b' : Budget) (w w' : World) description value
    category :
  add_expense description value category (b, w) = ((b', w'), Ok tt) ->
  exists a data,
    Decimal_of_amount value = Ok a
    /\ is_positive a = true
    /\ b' = with_expenses b
              (expenses b ++ [{| description := description; amount := a;
                                 category := default "Other" category;
                                 date := strftime_Ymd (now w) |}])
    /\ store_data b' = Ok data
    /\ w' = with_file w (filename b) data.
Proof.
  rewrite add_expense_unfold.
  destruct (String.eqb description "" || amount_is_falsy value); [done |].
  destruct (Decimal_of_amount value) as [a|]; [|done].
  destruct (__le__ a (of_int 0)) as [[]|] eqn:Hle; [done | | done].
  apply le_0_positive in Hle. cbv zeta.
  destruct (store_data _) as [data|] eqn:Hdata; [|done].
  destruct (writable w); [|done].
  intros [= <- <-]. exists a, data. done.
Qed.

(** X8: an addition shows in its total at once: after [add_income]
    returned, [get_total_income] is what it was before with the new amount
    added to it by one more [Decimal] addition (and raises what that
    addition raises), and [get_total_expenses] is as before; likewise for
    [add_expense] with the two totals exchanged. *)
Theorem addition_adds_to_its_total
    (b b' : Budget) (w w' : World) (description : string)
    (value : amount_arg) (category : option string) :
  (add_income description value category (b, w) = ((b', w'), Ok tt) ->
   exists a,
     Decimal_of_amount value = Ok a
     /\ get_total_income b' =
          (total ← get_total_income b; number_add total (Dec a))
     /\ get_total_expenses b' = get_total_expenses b)
  /\
  (add_expense description value category (b, w) = ((b', w'), Ok tt) ->
   exists a,
     Decimal_of_amount value = Ok a
     /\ get_total_expenses b' =
          (total ← get_total_expenses b; number_add total (Dec a))
     /\ get_total_income b' = get_total_income b).
Proof.
  split.
  - intros (a & data & Ha & _ & -> & _)%add_income_returned.
    exists a. split; [done |].
    unfold get_total_income, get_total_expenses. simpl.
    rewrite fmap_app. simpl. by rewrite sum_snoc.
  - intros (a & data & Ha & _ & -> & _)%add_expense_returned.
    exists a. split; [done |].
    unfold get_total_income, get_total_expenses. simpl.
    rewrite fmap_app. simpl. by rewrite sum_snoc.
Qed.

(** The first part of [addition_adds_to_its_total] applies to the paycheck
    added on a first run. *)
Lemma addition_adds_to_its_total_witness :
  exists a,
    Decimal_of_amount (AmountStr "1000.00") = Ok a
    /\ get_total_income Scenario.paycheck_added.1 =
         (total ← get_total_income Scenario.fresh.1;
          number_add total (Dec a))
    /\ get_total_expenses Scenario.paycheck_added.1
       = get_total_expenses Scenario.fresh.1.
Proof.
  apply (addition_adds_to_its_total Scenario.fresh.1 Scenario.paycheck_added.1
           Scenario.fresh.2 Scenario.paycheck_added.2
           "Paycheck" (AmountStr "1000.00") None).
  vm_compute. reflexivity.
Defined.

(** X9: an addition counts in the current month at once: after
    [add_income] returned, the monthly summary of the same day has the
    income of the month as it was before plus the new amount, the expenses
    of the month as before, and their difference as balance; likewise for
    [add_expense].  The date that the constructor stamps always passes the
    month test of the same day. *)
Theorem addition_counts_in_the_current_month
    (b b' : Budget) (w w' : World) (description : string)
    (value : amount_arg) (category : option string) :
  let month := strftime_Ym (now w) in
  (add_income description value category (b, w) = ((b', w'), Ok tt) ->
   exists a,
     Decimal_of_amount value = Ok a
     /\ get_monthly_summary (now w') b' =
          (income ← sum (amounts_of_month month (incomes b));
           income' ← number_add income (Dec a);
           expenses ← sum (amounts_of_month month (expenses b));
           balance ← number_sub income' expenses;
           Ok {| summary_income := income'; summary_expenses := expenses;
                 summary_balance := balance |}))
  /\
  (add_expense description value category (b, w) = ((b', w'), Ok tt) ->
   exists a,
     Decimal_of_amount value = Ok a
     /\ get_monthly_summary (now w') b' =
          (income ← sum (amounts_of_month month (incomes b));
           expenses ← sum (amounts_of_month month (expenses b));
           expenses' ← number_add expenses (Dec a);
           balance ← number_sub income expenses';
           Ok {| summary_income := income; summary_expenses := expenses';
                 summary_balance := balance |})).
Proof.
  cbv zeta. split.
  - intros (a & data & Ha & _ & -> & _ & ->)%add_income_returned.
    exists a. split; [done |].
    unfold get_monthly_summary. simpl.
    rewrite amounts_of_month_app. simpl.
    unfold strftime_Ymd at 1. rewrite StrFacts.startswith_append.
    rewrite sum_snoc.
    destruct (sum (amounts_of_month _ (incomes b))) as [i|]; simpl; [|done].
    by destruct (number_add i (Dec a)).
  - intros (a & data & Ha & _ & -> & _ & ->)%add_expense_returned.
    exists a. split; [done |].
    unfold get_monthly_summary. simpl.
    rewrite amounts_of_month_app. simpl.
    unfold strftime_Ymd at 1. rewrite StrFacts.startswith_append.
    rewrite sum_snoc.
    destruct (sum (amounts_of_month _ (incomes b))) as [i|]; simpl; [|done].
    destruct (sum (amounts_of_month _ (expenses b))) as [e|]; simpl; [|done].
    by destruct (number_add e (Dec a)).
Qed.

(** The second part of [addition_counts_in_the_current_month] applies to
    the groceries added after the paycheck. *)
Lemma addition_counts_in_the_current_month_witness :
  exists a,
    Decimal_of_amount (AmountStr "150.50") = Ok a
    /\ get_monthly_summary (now Scenario.groceries_added.2)
         Scenario.groceries_added.1 =
         (income ← sum (amounts_of_month
                          (strftime_Ym (now Scenario.paycheck_added.2))
                          (incomes Scenario.paycheck_added.1));
          expenses ← sum (amounts_of_month
                            (strftime_Ym (now Scenario.paycheck_added.2))
                            (expenses Scenario.paycheck_added.1));
          expenses' ← number_add expenses (Dec a);
          balance ← number_sub income expenses';
          Ok {| summary_income := income; summary_expenses := expenses';
                summary_balance := balance |}).
Proof.
  pose proof (addition_counts_in_the_current_month
                Scenario.paycheck_added.1 Scenario.groceries_added.1
                Scenario.paycheck_added.2 Scenario.groceries_added.2
                "Groceries" (AmountStr "150.50") (Some "Food")) as [_ H].
  apply H. vm_compute. reflexivity.
Defined.

(** ** Reading back what [repr] prints *)

Module ReprFacts.
Import Str StrFacts DecimalFacts.

Lemma shortest_digits_of_N (m : N) (e : Z) :
  exists d decpt, float.shortest_digits m e = (of_N d, decpt).
Proof.
  unfold float.shortest_digits.
  destruct (float.scale2 m 1 (- e)) as [p q].
  destruct (float.shortest 17 m e (float.floor_log10 p q) 1) as [d s].
  destruct (float.strip_zeros 17 d s) as [d' s']. eauto.
Qed.

Lemma exponent_str_digits (x : Z) :
  exists sg body,
    float.exponent_str x = String sg body
    /\ (sg = "-"%char \/ sg = "+"%char)
    /\ body <> ""
    /\ all is_digit body = true.
Proof.
  unfold float.exponent_str.
  pose proof (all_digits_of_N (Z.abs_N x)) as Hd.
  pose proof (length_of_N_pos (Z.abs_N x)) as Hl.
  eexists _, _. split; [reflexivity |].
  split; [destruct (x <? 0); auto |].
  destruct (String.length (of_N (Z.abs_N x)) <? 2)%nat.
  - split; [done |]. simpl. done.
  - split; [| done]. intros E. rewrite E in Hl. simpl in Hl. lia.
Qed.

Lemma parse_exponent_repr (x : Z) :
  exists x', parse_exponent ("e" +:+ float.exponent_str x) = Some x'.
Proof.
  destruct (exponent_str_digits x) as (sg & body & -> & Hsg & Hne & Hd).
  destruct Hsg as [-> | ->]; simpl; rewrite (span_digits_all_end _ Hd);
    destruct body; try done; eauto.
Qed.

Lemma all_plain_exponent_str (x : Z) :
  all is_plain (float.exponent_str x) = true.
Proof.
  destruct (exponent_str_digits x) as (sg & body & -> & Hsg & Hne & Hd).
  simpl. rewrite (all_digits_plain _ Hd).
  by destruct Hsg as [-> | ->].
Qed.

(** A finite, non-zero float prints as a numeric string: what [Decimal]
    makes of it is a finite number of the same sign. *)
Ltac plain_parts :=
  repeat first
    [ reflexivity
    | assumption
    | apply all_plain_exponent_str
    | apply all_take; assumption
    | apply all_drop; assumption
    | apply all_repeat_char; reflexivity
    | rewrite all_append; apply andb_true_intro; split
    | match goal with |- context [if ?b then _ else _] => destruct b end ].

Lemma of_str_repr_nonzero (s : bool) (m : N) (e : Z) :
  m <> 0%N ->
  exists c x, of_str (float.repr (float.Fin s m e)) = Ok (Finite s c x).
Proof.
  intros Hm. unfold float.repr. apply N.eqb_neq in Hm. rewrite Hm.
  destruct (shortest_digits_of_N m e) as (d & decpt & ->).
  pose proof (all_digits_of_N d) as Hdig.
  pose proof (length_of_N_pos d) as Hlen.
  remember (of_N d) as D eqn:HDdef. clear HDdef.
  set (len := Z.of_nat (String.length D)).
  assert (Hlen' : 1 <= len) by (unfold len; lia).
  assert (HD : exists c0 D', D = String c0 D').
  { destruct D; [simpl in Hlen; lia | eauto]. }
  destruct HD as (c0 & D' & HD).
  assert (Hc0 : is_digit c0 = true /\ all is_digit D' = true).
  { rewrite HD in Hdig. simpl in Hdig. by apply andb_true_iff in Hdig. }
  destruct Hc0 as [Hc0 HD'].
  assert (Hplain : all is_plain D = true) by (by apply all_digits_plain).
  assert (Hsign : all is_plain (sign_str s) = true) by (by destruct s).
  destruct ((decpt <=? -4) || (16 <? decpt)) eqn:Hexp.
  - (* d.ddde+xx *)
    destruct (parse_exponent_repr (decpt - 1)) as [x Hx].
    pose proof (all_plain_exponent_str (decpt - 1)) as Hpx.
    assert (Htk : take 1 D = String c0 "").
    { rewrite HD. by destruct D'. }
    rewrite of_str_plain by plain_parts.
    rewrite Htk.
    rewrite parse_sign_str by (by apply parse_sign_digit).
    destruct (1 <? len).
    + change (String c0 "" +:+ ("." +:+ drop 1 D) +:+ ?y)
        with (String c0 "" +:+ "." +:+ drop 1 D +:+ y).
      rewrite (parse_number_point _ _ _ _ x); try done;
        try (by apply all_drop).
      eauto.
    + change (String c0 "" +:+ "" +:+ ?y) with (String c0 "" +:+ y).
      rewrite (parse_number_integer _ _ _ x); try done. eauto.
  - destruct (Z.leb_spec decpt 0) as [Hdp|Hdp].
    + (* 0.000ddd *)
      rewrite of_str_plain by plain_parts.
      rewrite parse_sign_str by done.
      change ("0." +:+ repeat_char "0" (Z.to_nat (- decpt)) +:+ D)
        with (String "0" "" +:+ "." +:+
                (repeat_char "0" (Z.to_nat (- decpt)) +:+ D)).
      rewrite <- (append_nil_r (repeat_char "0" (Z.to_nat (- decpt)) +:+ D)).
      rewrite (parse_number_point _ _ _ _ 0); try done; [eauto |].
      rewrite all_append, Hdig, all_repeat_char; done.
    + destruct (Z.leb_spec len decpt) as [Hge|Hlt].
      * (* ddd000.0 *)
        rewrite of_str_plain by plain_parts.
        rewrite HD. rewrite parse_sign_str by (by apply parse_sign_digit).
        change (String c0 D' +:+ repeat_char "0" (Z.to_nat (decpt - len)) +:+ ".0")
          with (String c0 (D' +:+ repeat_char "0" (Z.to_nat (decpt - len)) +:+ ".0")).
        rewrite <- append_assoc.
        change (String c0 ((D' +:+ repeat_char "0" (Z.to_nat (decpt - len))) +:+ ".0"))
          with (String c0 (D' +:+ repeat_char "0" (Z.to_nat (decpt - len)))
                +:+ "." +:+ "0" +:+ "").
        rewrite (parse_number_point _ _ _ _ 0); try done; [eauto |].
        rewrite all_append, HD', all_repeat_char; done.
      * (* dd.ddd *)
        assert (Htake : exists k, Z.to_nat decpt = S k)
          by (exists (Z.to_nat decpt - 1)%nat; lia).
        destruct Htake as [k Hk].
        assert (Htk : take (Z.to_nat decpt) D = String c0 (take k D')).
        { rewrite Hk, HD. done. }
        rewrite of_str_plain by plain_parts.
        rewrite Htk. rewrite parse_sign_str by (by apply parse_sign_digit).
        rewrite <- (append_nil_r (drop (Z.to_nat decpt) D)).
        rewrite (parse_number_point _ _ _ _ 0); try done;
          try (by apply all_take); try (by apply all_drop).
        eauto.
Qed.

(** [Decimal(repr(x))] never fails: every float prints as a string of the
    numeric-string syntax. *)
Lemma of_str_repr (f : float.float) :
  exists d,
    of_str (float.repr f) = Ok d
    /\ match f with
       | float.Nan => d = NaN false false 0
       | float.Inf s => d = Infinity s
       | float.Fin s _ _ => exists c x, d = Finite s c x
       end.
Proof.
  destruct f as [|s|s m e].
  - eexists. split; reflexivity.
  - exists (Infinity s). by destruct s.
  - destruct (N.eq_dec m 0%N) as [->|Hm].
    + exists (Finite s 0%N (-1)). split; [by destruct s | eauto].
    + destruct (of_str_repr_nonzero s m e Hm) as (c & x & H). eauto.
Qed.

End ReprFacts.

(** ** Loading never fails *)

Lemma from_dict_returns (today : datetime) (data : TransactionDict) :
  exists a,
    of_str (float.repr (dict_amount data)) = Ok a
    /\ from_dict today data =
         Ok {| description := dict_description data; amount := a;
               category := dict_category data; date := strftime_Ymd today |}.
Proof.
  destruct (ReprFacts.of_str_repr (dict_amount data)) as (a & Ha & _).
  exists a. split; [done |].
  unfold from_dict. rewrite Ha. simpl. apply Transaction_init_Decimal.
Qed.

Lemma mapM_from_dict_returns (today : datetime) (l : list TransactionDict) :
  exists k,
    mapM (from_dict today) l = Ok k
    /\ Forall2 (fun d t => from_dict today d = Ok t) l k.
Proof.
  induction l as [|d l (k & Hk & IH)]; simpl.
  - exists []. split; [done | constructor].
  - destruct (from_dict_returns today d) as (a & _ & Hd).
    rewrite Hd, Hk. simpl. eexists. split; [done |]. by constructor.
Qed.

Lemma load_data_returns (b : Budget) (w : World) :
  exists b',
    load_data (b, w) = ((b', w), Ok tt)
    /\ income_categories b' = income_categories b
    /\ expense_categories b' = expense_categories b
    /\ filename b' = filename b
    /\ match files w !! filename b with
       | None => incomes b' = incomes b /\ expenses b' = expenses b
       | Some data =>
           Forall2 (fun d t => from_dict (now w) d = Ok t)
             (default [] (data_income data)) (incomes b')
           /\ Forall2 (fun d t => from_dict (now w) d = Ok t)
                (default [] (data_expenses data)) (expenses b')
       end.
Proof.
  unfold load_data, mbind, py_bind, get_self, get_world, lift, put_self.
  simpl. destruct (files w !! filename b) as [data|]; [| by exists b].
  destruct (mapM_from_dict_returns (now w) (default [] (data_income data)))
    as (inc & -> & Hinc).
  simpl.
  destruct (mapM_from_dict_returns (now w) (default [] (data_expenses data)))
    as (exps & -> & Hexps).
  simpl. eexists. split; [reflexivity |]. done.
Qed.


Lemma amounts_of_month_all (m : string) (l : list Transaction) :
  Forall (fun t => Str.startswith (date t) m = true) l ->
  amounts_of_month m l = amount <$> l.
Proof.
  induction 1 as [|t l Ht _ IH]; simpl; [done |]. by rewrite Ht, IH.
Qed.

Lemma Forall2_from_dict (today : datetime) (l : list TransactionDict)
    (k : list Transaction) :
  Forall2 (fun d t => from_dict today d = Ok t) l k ->
  Forall (fun t => date t = strftime_Ymd today) k
  /\ description <$> k = dict_description <$> l
  /\ category <$> k = dict_category <$> l.
Proof.
  induction 1 as [|d t l k Hd _ (IH1 & IH2 & IH3)]; [done |].
  apply from_dict_date in Hd as (Hdate & Hdesc & Hcat).
  split; [by constructor |]. rewrite !fmap_cons. by rewrite Hdesc, Hcat, IH2, IH3.
Qed.

(** X11: right after a ledger was loaded from a store, its monthly summary
    is made of the totals of all its records, of whatever month they were
    recorded in: income, expenses and balance of the summary are
    [get_total_income], [get_total_expenses] and their difference.  (Every
    loaded record carries the date of the load.) *)
Theorem monthly_summary_after_load_is_all_time
    (b : Budget) (w : World) (data : StoreData) :
  files w !! filename b = Some data ->
  let b' := (load_data (b, w)).1.1 in
  get_monthly_summary (now w) b' =
    (income ← get_total_income b';
     expenses ← get_total_expenses b';
     balance ← number_sub income expenses;
     Ok {| summary_income := income; summary_expenses := expenses;
           summary_balance := balance |}).
Proof.
  intros Hfile. cbv zeta.
  destruct (load_data_returns b w) as (b' & Hb' & _ & _ & _ & H).
  rewrite Hb'. simpl. rewrite Hfile in H. destruct H as [Hi He].
  apply Forall2_from_dict in Hi as (Hi & _), He as (He & _).
  unfold get_monthly_summary, get_total_income, get_total_expenses.
  rewrite !amounts_of_month_all; [done | |].
  - eapply Forall_impl; [exact Hi |]. intros t ->.
    apply StrFacts.startswith_append.
  - eapply Forall_impl; [exact He |]. intros t ->.
    apply StrFacts.startswith_append.
Qed.

(** The hypothesis of [monthly_summary_after_load_is_all_time] holds for a
    run on 2024-02-01 over the store written on 2024-01-15. *)
Lemma monthly_summary_after_load_is_all_time_witness :
  get_monthly_summary (now Scenario.later)
    (load_data (Scenario.fresh.1, Scenario.later)).1.1 =
    (income ← get_total_income
                (load_data (Scenario.fresh.1, Scenario.later)).1.1;
     expenses ← get_total_expenses
                  (load_data (Scenario.fresh.1, Scenario.later)).1.1;
     balance ← number_sub income expenses;
     Ok {| summary_income := income; summary_expenses := expenses;
           summary_balance := balance |}).
Proof.
  eapply (monthly_summary_after_load_is_all_time Scenario.fresh.1
            Scenario.later).
  vm_compute. reflexivity.
Defined.

Lemma mapM_to_dict_Forall2 (l : list Transaction) :
  forall k, mapM to_dict l = Ok k -> Forall2 (fun t d => to_dict t = Ok d) l k.
Proof.
  induction l as [|t l IH]; intros k; simpl.
  - intros [= <-]. constructor.
  - destruct (to_dict t) as [d|] eqn:Hd; [|done]. simpl.
    destruct (mapM to_dict l) as [k'|]; [|done]. simpl.
    intros [= <-]. constructor; [done | by apply IH].
Qed.

Lemma Forall2_reloaded (today : datetime) (l : list Transaction) :
  forall (k : list TransactionDict) (l' : list Transaction),
  Forall2 (fun t d => to_dict t = Ok d) l k ->
  Forall2 (fun d t => from_dict today d = Ok t) k l' ->
  Forall2 (reloaded_as today) l l'.
Proof.
  intros k l' H. revert l'.
  induction H as [|t d l k Ht _ IH]; intros l' H'.
  - inversion H'. constructor.
  - inversion H' as [|d' t' k' l'' Hd Hrest]; subst.
    constructor; [| by apply IH].
    unfold to_dict in Ht.
    destruct (float.of_Decimal (amount t)) as [f|] eqn:Hf; [|done].
    simpl in Ht. injection Ht as <-.
    destruct (from_dict_returns today
                {| dict_description := description t; dict_amount := f;
                   dict_category := category t; dict_date := date t |})
      as (a & Ha & Hfrom).
    rewrite Hfrom in Hd. injection Hd as <-. simpl in *.
    repeat split; try done. exists f. done.
Qed.

(** X12: what a save followed by a load gives back.  When [save_data]
    returned, a ledger with the same file name, loaded in any world that
    holds the file as it was written, has as many incomes and expenses as
    the saved ledger, in the same order; the load never fails; each record
    comes back with its description and category, with the date of the load
    in place of its own, and with the amount that [Decimal] reads from the
    [repr] of the [float] of the saved amount. *)
Theorem save_then_load (b b0 : Budget) (w w2 : World) :
  (save_data (b, w)).2 = Ok tt ->
  filename b0 = filename b ->
  files w2 !! filename b = files (save_data (b, w)).1.2 !! filename b ->
  exists b',
    load_data (b0, w2) = ((b', w2), Ok tt)
    /\ Forall2 (reloaded_as (now w2)) (incomes b) (incomes b')
    /\ Forall2 (reloaded_as (now w2)) (expenses b) (expenses b').
Proof.
  unfold save_data, mbind, py_bind, get_self, lift, get_world, put_world,
    raise. simpl.
  destruct (store_data b) as [data|] eqn:Hdata; [|done].
  destruct (writable w); [|done]. simpl. intros _ Hname Hfile.
  apply store_data_inv in Hdata as (inc & exps & Hinc & Hexps & ->).
  destruct (load_data_returns b0 w2) as (b' & Hb' & _ & _ & _ & H).
  rewrite Hname, Hfile in H. simpl in H. rewrite lookup_insert_eq in H.
  simpl in H. destruct H as [Hi He].
  exists b'. split; [exact Hb' |].
  apply mapM_to_dict_Forall2 in Hinc, Hexps.
  split; eapply Forall2_reloaded; eassumption.
Qed.

(** The hypotheses of [save_then_load] hold for the ledger with the paycheck
    and the groceries, saved on 2024-01-15 and loaded on 2024-02-01. *)
Lemma save_then_load_witness :
  exists b',
    load_data (Scenario.fresh.1, Scenario.later)
      = ((b', Scenario.later), Ok tt)
    /\ Forall2 (reloaded_as (now Scenario.later))
         (incomes Scenario.groceries_added.1) (incomes b')
    /\ Forall2 (reloaded_as (now Scenario.later))
         (expenses Scenario.groceries_added.1) (expenses b').
Proof.
  apply (save_then_load Scenario.groceries_added.1 Scenario.fresh.1
           Scenario.groceries_added.2 Scenario.later).
  - vm_compute. reflexivity.
  - vm_compute. reflexivity.
  - vm_compute. reflexivity.
Defined.

(** ** Arithmetic never hands out a signaling NaN *)

Lemma fix_finite (s : bool) (c : N) (e : Z) (d : Decimal) :
  _fix (Finite s c e) = Ok d -> is_nan d = false.
Proof.
  unfold _fix. destruct (c =? 0)%N; [by intros [= <-] |].
  destruct (Etop <? _); [done |].
  destruct (e <? _); [| by intros [= <-]].
  destruct (prec <? _); (destruct (Etop <? _); [done | by intros [= <-]]).
Qed.

Lemma add_raises (a b : Decimal) (e : exn) :
  __add__ a b = Raise e -> e = InvalidOperation \/ e = Overflow.
Proof.
  assert (Hfix : forall d, _fix d = Raise e -> e = Overflow).
  { intros d. unfold _fix. destruct d as [s c x| |]; [| done..].
    destruct (c =? 0)%N; [done |].
    destruct (Etop <? _); [by intros [= <-] |].
    destruct (x <? _); [| done].
    destruct (prec <? _); (destruct (Etop <? _); [by intros [= <-] | done]). }
  unfold __add__, _check_nans.
  destruct a as [s1 c1 e1|s1|s1 [] p1], b as [s2 c2 e2|s2|s2 [] p2];
    cbv beta iota;
    try match goal with
        | |- Ok _ = Raise _ -> _ => intros H; discriminate H
        | |- Raise _ = Raise _ -> _ => intros [= <-]; left; reflexivity
        end.
  - destruct ((c1 =? 0)%N && (c2 =? 0)%N); [intros ?%Hfix; by right |].
    destruct (c1 =? 0)%N; [intros ?%Hfix; by right |].
    destruct (c2 =? 0)%N; [intros ?%Hfix; by right |].
    destruct (_ =? 0); intros ?%Hfix; by right.
  - destruct (Bool.eqb s1 s2); [done | intros [= <-]; by left].
Qed.

Lemma add_returns_inv (a b d : Decimal) :
  __add__ a b = Ok d ->
  is_snan a = false /\ is_snan b = false /\ is_snan d = false.
Proof.
  assert (Hfix : forall s c e, _fix (Finite s c e) = Ok d -> is_snan d = false).
  { intros s c e H. apply fix_finite in H. by destruct d. }
  assert (Hres : forall s c e x, _fix (_rescale s c e x) = Ok d ->
                                 is_snan d = false).
  { intros s c e x. unfold _rescale.
    destruct (c =? 0)%N; [apply Hfix |].
    destruct (x <=? e); apply Hfix. }
  unfold __add__, _check_nans.
  destruct a as [s1 c1 e1|s1|s1 [] p1], b as [s2 c2 e2|s2|s2 [] p2];
    cbv beta iota;
    try match goal with
        | |- Raise _ = Ok _ -> _ => intros H; discriminate H
        | |- Ok _ = Ok _ -> _ => intros [= <-]; repeat split; reflexivity
        end.
  - destruct ((c1 =? 0)%N && (c2 =? 0)%N); [intros ?%Hfix; done |].
    destruct (c1 =? 0)%N; [intros ?%Hres; done |].
    destruct (c2 =? 0)%N; [intros ?%Hres; done |].
    destruct (_ =? 0); intros ?%Hfix; done.
  - destruct (Bool.eqb s1 s2); [by intros [= <-] | done].
Qed.

Lemma sub_returns_inv (a b d : Decimal) :
  __sub__ a b = Ok d ->
  is_snan a = false /\ is_snan b = false /\ is_snan d = false.
Proof.
  unfold __sub__.
  destruct (_check_nans a b) as [ans|] eqn:Hnan; unfold _check_nans in Hnan.
  - destruct a as [s1 c1 e1|s1|s1 [] p1], b as [s2 c2 e2|s2|s2 [] p2];
      cbv beta iota in Hnan; try done; injection Hnan as <-; try done;
      by intros [= <-].
  - intros (Ha & Hb & Hd)%add_returns_inv. split; [done |].
    split; [| done]. by destruct b as [| |? []].
Qed.

(** ** The index page *)

Lemma float_of_number_returns (n : number) :
  match n with Int _ => True | Dec d => is_snan d = false end ->
  exists f, float_of_number n = Ok f.
Proof.
  destruct n as [z|d]; simpl; [eauto |]. apply of_Decimal_returns.
Qed.

Lemma number_add_returns_inv (n : number) (d : Decimal) (n' : number) :
  number_add n (Dec d) = Ok n' ->
  is_snan d = false
  /\ exists d', n' = Dec d' /\ is_snan d' = false.
Proof.
  destruct n as [z|d0]; simpl.
  - destruct (__add__ d (of_int z)) as [d'|] eqn:Hadd; [|done].
    simpl. intros [= <-].
    apply add_returns_inv in Hadd as (? & ? & ?). eauto.
  - destruct (__add__ d0 d) as [d'|] eqn:Hadd; [|done].
    simpl. intros [= <-].
    apply add_returns_inv in Hadd as (? & ? & ?). eauto.
Qed.

Lemma sum_from_returns_inv (l : list Decimal) : forall start n,
  sum_from start l = Ok n ->
  Forall (fun d => is_snan d = false) l
  /\ ((n = start /\ l = []) \/ exists d, n = Dec d /\ is_snan d = false).
Proof.
  induction l as [|d l IH]; intros start n; simpl.
  - intros [= <-]. split; [constructor | by left].
  - destruct (number_add start (Dec d)) as [s|] eqn:Hadd; [|done]. simpl.
    intros Hn. apply number_add_returns_inv in Hadd as (Hd & d' & -> & Hd').
    apply IH in Hn as [Hall Hn]. split; [by constructor |].
    right. destruct Hn as [[-> _] | Hn]; eauto.
Qed.

Lemma sum_returns_inv (l : list Decimal) (n : number) :
  sum l = Ok n ->
  Forall (fun d => is_snan d = false) l
  /\ match n with Int z => z = 0 /\ l = [] | Dec d => is_snan d = false end.
Proof.
  unfold sum. intros H.
  destruct (sum_from_returns_inv _ _ _ H) as [Hall Hn]. split; [done |].
  destruct Hn as [[-> ->] | (d & -> & Hd)]; done.
Qed.

Lemma number_sub_returns_inv (a b n : number) :
  number_sub a b = Ok n ->
  match n with Int _ => True | Dec d => is_snan d = false end.
Proof.
  destruct a as [x|d1], b as [y|d2]; simpl.
  - by intros [= <-].
  - destruct (__sub__ (of_int x) d2) eqn:Hs; [|done]. simpl. intros [= <-].
    by apply sub_returns_inv in Hs as (_ & _ & ?).
  - destruct (__sub__ d1 (of_int y)) eqn:Hs; [|done]. simpl. intros [= <-].
    by apply sub_returns_inv in Hs as (_ & _ & ?).
  - destruct (__sub__ d1 d2) eqn:Hs; [|done]. simpl. intros [= <-].
    by apply sub_returns_inv in Hs as (_ & _ & ?).
Qed.

Lemma Forall_of_fmap {A B : Type} (f : A -> B) (P : B -> Prop) (l : list A) :
  Forall P (f <$> l) -> Forall (fun x => P (f x)) l.
Proof. by rewrite Forall_fmap. Qed.

(** X13: the index route computes its summary exactly when [get_balance]
    returns, and otherwise fails with the exception of [get_balance]; it
    changes neither the ledger nor the world.  When it returns, the three
    numbers of the summary are the [float]s of the two totals and of the
    balance, and its two lists are the arrays of the document that
    [save_data] writes for this ledger: the page shows what the store
    holds. *)
Theorem index_returns_iff_balance (b : Budget) (w : World) :
  match get_balance b with
  | Raise e => index (b, w) = ((b, w), Raise e)
  | Ok balance =>
      exists s total_income total_expenses,
        index (b, w) = ((b, w), Ok s)
        /\ get_total_income b = Ok total_income
        /\ get_total_expenses b = Ok total_expenses
        /\ float_of_number total_income = Ok (index_total_income s)
        /\ float_of_number total_expenses = Ok (index_total_expenses s)
        /\ float_of_number balance = Ok (index_balance s)
        /\ store_data b =
             Ok {| data_income := Some (index_income s);
                   data_expenses := Some (index_expenses s) |}
  end.
Proof.
  unfold index, get_balance, store_data, mbind, py_bind, get_self, lift,
    mret, py_ret. simpl.
  destruct (get_total_income b) as [ti|e] eqn:Hti; simpl; [|done].
  unfold get_total_income in Hti.
  apply sum_returns_inv in Hti as [Hi Hti].
  destruct (float_of_number_returns ti) as [fi Hfi].
  { destruct ti; [done | apply Hti]. }
  rewrite Hfi.
  destruct (get_total_expenses b) as [te|e] eqn:Hte; simpl; [|done].
  unfold get_total_expenses in Hte.
  apply sum_returns_inv in Hte as [He Hte].
  destruct (float_of_number_returns te) as [fe Hfe].
  { destruct te; [done | apply Hte]. }
  rewrite Hfe.
  destruct (number_sub ti te) as [bal|e] eqn:Hbal; simpl; [|done].
  apply number_sub_returns_inv in Hbal.
  destruct (float_of_number_returns bal Hbal) as [fb Hfb]. rewrite Hfb.
  apply Forall_of_fmap in Hi, He.
  destruct (mapM_to_dict_returns _ Hi) as [inc Hinc].
  destruct (mapM_to_dict_returns _ He) as [exps Hexps].
  rewrite Hinc, Hexps. simpl.
  eexists _, ti, te. split; [reflexivity |]. done.
Qed.

(** ** Categories through the routes *)

Lemma add_expenses_to_categories_KeyError (l : list Transaction) :
  forall (m : gmap string Decimal) (k : string),
  add_expenses_to_categories m l = Raise (KeyError k) ->
  Exists (fun t => m !! category t = None) l.
Proof.
  induction l as [|t l IH]; intros m k; simpl; [done |].
  unfold add_to_category.
  destruct (m !! category t) as [total|] eqn:Hm; [| intros _; by left].
  destruct (__add__ total (amount t)) as [total'|e] eqn:Hadd; simpl.
  - intros H. apply IH in H. right.
    eapply Exists_impl; [exact H |]. intros t' Ht'. simpl in Ht'.
    destruct (decide (category t = category t')) as [E|Hne].
    + rewrite E, lookup_insert_eq in Ht'. done.
    + by rewrite lookup_insert_ne in Ht'.
  - intros [= ->]. by apply add_raises in Hadd as [|].
Qed.

(** X14: the routes cannot bring about the [KeyError] of
    [get_expenses_by_category].  When "Other" is one of
    [expense_categories] and every expense has one of these categories,
    this still holds after a call of either route, whatever the form, and
    [get_expenses_by_category] does not raise [KeyError] before or after:
    a route adds with the default category only. *)
Theorem routes_keep_categories_known
    (b : Budget) (w : World) (form_description form_amount : string) :
  "Other" ∈ expense_categories b ->
  Forall (fun t => category t ∈ expense_categories b) (expenses b) ->
  let known (st : Budget * World) :=
    Forall (fun t => category t ∈ expense_categories st.1) (expenses st.1)
    /\ forall k, get_expenses_by_category st.1 <> Raise (KeyError k) in
  known (b, w)
  /\ known (route_add_income form_description form_amount (b, w)).1
  /\ known (route_add_expense form_description form_amount (b, w)).1.
Proof.
  intros Hother Hall. cbv zeta.
  assert (Hno : forall b0 : Budget,
            Forall (fun t => category t ∈ expense_categories b0) (expenses b0) ->
            Forall (fun t => category t ∈ expense_categories b0) (expenses b0)
            /\ forall k, get_expenses_by_category b0 <> Raise (KeyError k)).
  { intros b0 H0. split; [done |]. intros k Hk.
    unfold get_expenses_by_category in Hk.
    apply add_expenses_to_categories_KeyError in Hk.
    apply Exists_exists in Hk as (t & Hin & Ht).
    rewrite Forall_forall in H0. specialize (H0 t Hin).
    rewrite initial_totals_lookup in Ht. by rewrite decide_True in Ht. }
  split; [by apply Hno |].
  rewrite route_add_income_unfold, route_add_expense_unfold.
  destruct (String.eqb (Str.strip form_description) "" || _);
    [split; by apply Hno |].
  rewrite !route_answer_state. rewrite add_income_unfold, add_expense_unfold.
  destruct (String.eqb (Str.strip form_description) ""
            || amount_is_falsy (AmountStr form_amount));
    [split; by apply Hno |].
  destruct (Decimal_of_amount (AmountStr form_amount)) as [a|];
    [| split; by apply Hno].
  destruct (__le__ a (of_int 0)) as [[]|];
    [split; by apply Hno | | split; by apply Hno].
  cbv zeta. split.
  - destruct (store_data _); [destruct (writable w) |]; by apply Hno.
  - destruct (store_data _); [destruct (writable w) |]; apply Hno; simpl;
      (apply Forall_app; split; [done |]); by constructor.
Qed.

Lemma first_run_expense_categories :
  expense_categories Scenario.fresh.1 =
    ["Food"; "Transportation"; "Housing"; "Entertainment"; "Other"]
  /\ expenses Scenario.fresh.1 = [].
Proof. split; vm_compute; reflexivity. Qed.

(** The hypotheses of [routes_keep_categories_known] hold on a first run;
    the form ("Bus", "2.40") then goes to [/add_expense]. *)
Lemma routes_keep_categories_known_witness :
  Forall (fun t => category t ∈
            expense_categories
              (route_add_expense "Bus" "2.40"
                 (Scenario.fresh.1, Scenario.fresh.2)).1.1)
    (expenses (route_add_expense "Bus" "2.40"
                 (Scenario.fresh.1, Scenario.fresh.2)).1.1).
Proof.
  destruct (routes_keep_categories_known Scenario.fresh.1 Scenario.fresh.2
              "Bus" "2.40") as (_ & _ & H & _).
  - rewrite (proj1 first_run_expense_categories). do 4 right. left.
  - rewrite (proj2 first_run_expense_categories). constructor.
  - exact H.
Defined.

(** ** Dates as strings *)

Module DateFacts.
Import Str StrFacts.

Lemma length_of_N_le (n : N) (k : nat) :
  (1 <= k)%nat -> (n < 10 ^ N.of_nat k)%N -> (String.length (of_N n) <= k)%nat.
Proof.
  intros Hk Hn. destruct (N.eq_dec n 0%N) as [->|Hne]; [done |].
  pose proof (of_N_lower n Hne) as Hlow.
  assert (Hlt : (10 ^ N.of_nat (String.length (of_N n) - 1)
                 < 10 ^ N.of_nat k)%N) by lia.
  apply N.pow_lt_mono_r_iff in Hlt; lia.
Qed.

Lemma length_zero_pad (width : nat) (n : N) :
  (1 <= width)%nat -> (n < 10 ^ N.of_nat width)%N ->
  String.length (zero_pad width n) = width.
Proof.
  intros Hw Hn. unfold zero_pad.
  pose proof (length_of_N_le n width Hw Hn).
  rewrite length_append, length_repeat_char. lia.
Qed.

Lemma int_of_digits_zero_pad (width : nat) (n : N) :
  int_of_digits (zero_pad width n) = n.
Proof.
  unfold zero_pad, int_of_digits. rewrite int_of_digits_acc_zeros.
  apply int_of_digits_of_N.
Qed.

Lemma append_inj (a a' b b' : string) :
  String.length a = String.length a' ->
  a +:+ b = a' +:+ b' -> a = a' /\ b = b'.
Proof.
  revert a'. induction a as [|c a IH]; intros [|c' a']; simpl;
    try discriminate.
  - by intros _ ->.
  - intros Hlen H. injection Hlen as Hlen. injection H as -> H.
    destruct (IH a' Hlen H) as [-> ->]. done.
Qed.

Lemma startswith_same_length (a b r : string) :
  String.length a = String.length b ->
  startswith (a +:+ r) b = String.eqb a b.
Proof.
  revert b. induction a as [|c a IH]; intros [|c' b]; simpl;
    try discriminate.
  - intros _. apply startswith_nil.
  - intros Hlen. injection Hlen as Hlen. rewrite (IH b Hlen).
    rewrite (Ascii.eqb_sym c' c). done.
Qed.

Lemma length_strftime_Ym (t : datetime) :
  (year t < 10000)%N -> (month t < 100)%N ->
  String.length (strftime_Ym t) = 7%nat.
Proof.
  intros Hy Hm. unfold strftime_Ym.
  rewrite !length_append, !length_zero_pad; try done; lia.
Qed.

Lemma strftime_Ym_inj (t1 t2 : datetime) :
  (year t1 < 10000)%N -> (month t1 < 100)%N ->
  (year t2 < 10000)%N -> (month t2 < 100)%N ->
  strftime_Ym t1 = strftime_Ym t2 -> year t1 = year t2 /\ month t1 = month t2.
Proof.
  intros Hy1 Hm1 Hy2 Hm2. unfold strftime_Ym. intros H.
  apply append_inj in H as [Hy H];
    [| rewrite !length_zero_pad; try done; lia].
  apply (append_inj "-" "-") in H as [_ Hm]; [| done].
  split.
  - by rewrite <- (int_of_digits_zero_pad 4 (year t1)), Hy,
      int_of_digits_zero_pad.
  - by rewrite <- (int_of_digits_zero_pad 2 (month t1)), Hm,
      int_of_digits_zero_pad.
Qed.

End DateFacts.

(** X15: for dates with a year below 10000, the month test of
    [get_monthly_summary] is exact on the date strings that the constructor
    makes: the date string of a record made on the day [created] starts
    with the year-month string of the day [today] exactly when the two days
    are in the same month of the same year. *)
Theorem month_test_is_exact (created today : datetime) :
  (year created < 10000)%N -> (month created < 100)%N ->
  (year today < 10000)%N -> (month today < 100)%N ->
  Str.startswith (strftime_Ymd created) (strftime_Ym today) = true
  <-> year created = year today /\ month created = month today.
Proof.
  intros Hy1 Hm1 Hy2 Hm2. unfold strftime_Ymd.
  rewrite DateFacts.startswith_same_length
    by (rewrite !DateFacts.length_strftime_Ym; done).
  rewrite String.eqb_eq. split.
  - by apply DateFacts.strftime_Ym_inj.
  - intros [Hy Hm]. unfold strftime_Ym. by rewrite Hy, Hm.
Qed.

(** The hypotheses of [month_test_is_exact] hold for 2024-01-15 and
    2024-02-01: a record of the first date is not of the month of the
    second. *)
Lemma month_test_is_exact_witness :
  Str.startswith (strftime_Ymd Scenario.jan15) (strftime_Ym Scenario.feb01)
    = false.
Proof.
  apply not_true_is_false.
  rewrite (month_test_is_exact Scenario.jan15 Scenario.feb01);
    [| reflexivity..].
  intros [_ H]. discriminate H.
Defined.

(** ** White space around an amount *)

Module StripFacts.
Import Str StrFacts.

Lemma lstrip_blank (s : string) : all is_space s = true -> lstrip s = "".
Proof.
  induction s as [|c s IH]; simpl; [done |].
  intros [Hc Hs]%andb_true_iff. rewrite Hc. auto.
Qed.

Lemma rstrip_blank (s : string) : all is_space s = true -> rstrip s = "".
Proof.
  induction s as [|c s IH]; simpl; [done |].
  intros [Hc Hs]%andb_true_iff. by rewrite (IH Hs), Hc.
Qed.

Lemma lstrip_app_blank (pre s : string) :
  all is_space pre = true -> lstrip (pre +:+ s) = lstrip s.
Proof.
  induction pre as [|c pre IH]; simpl; [done |].
  intros [Hc Hs]%andb_true_iff. rewrite Hc. auto.
Qed.

Lemma rstrip_app_blank (s post : string) :
  all is_space post = true -> rstrip (s +:+ post) = rstrip s.
Proof.
  intros Hpost. induction s as [|c s IH]; simpl.
  - by apply rstrip_blank.
  - by rewrite IH.
Qed.

Lemma lstrip_app (s post : string) :
  lstrip (s +:+ post) =
    if all is_space s then lstrip post else lstrip s +:+ post.
Proof.
  induction s as [|c s IH]; simpl; [done |].
  destruct (is_space c); simpl; done.
Qed.

Lemma strip_app_blank (pre s post : string) :
  all is_space pre = true -> all is_space post = true ->
  strip (pre +:+ s +:+ post) = strip s.
Proof.
  intros Hpre Hpost. unfold strip.
  rewrite (lstrip_app_blank _ _ Hpre), lstrip_app.
  destruct (all is_space s) eqn:Hs.
  - by rewrite (lstrip_blank _ Hpost), (lstrip_blank _ Hs).
  - by apply rstrip_app_blank.
Qed.

End StripFacts.

(** X16: white space around an amount does not matter.  The routes pass
    the amount field on as it is; [Decimal] strips it, so an amount string
    with white space before and after it is read as the same [Decimal], and
    the add operations do with it exactly what they do with the string
    without the white space, provided that string is not empty. *)
Theorem amount_may_have_white_space_around
    (st : Budget * World) (description pre value post : string)
    (category : option string) :
  Str.all Str.is_space pre = true ->
  Str.all Str.is_space post = true ->
  value <> "" ->
  of_str (pre +:+ value +:+ post) = of_str value
  /\ add_income description (AmountStr (pre +:+ value +:+ post)) category st
     = add_income description (AmountStr value) category st
  /\ add_expense description (AmountStr (pre +:+ value +:+ post)) category st
     = add_expense description (AmountStr value) category st.
Proof.
  intros Hpre Hpost Hv.
  assert (Hof : of_str (pre +:+ value +:+ post) = of_str value).
  { unfold of_str. by rewrite StripFacts.strip_app_blank. }
  assert (Hne : String.eqb (pre +:+ value +:+ post) "" = false).
  { apply String.eqb_neq. intros E.
    apply (f_equal String.length) in E.
    rewrite !StrFacts.length_append in E. simpl in E.
    destruct value; [done | simpl in E; lia]. }
  apply String.eqb_neq in Hv.
  split; [exact Hof |]. destruct st as [b w].
  rewrite !add_income_unfold, !add_expense_unfold. simpl.
  by rewrite Hne, Hv, Hof.
Qed.

(** The hypotheses of [amount_may_have_white_space_around] hold for
    " 1000.00 " with a space and a tab around it. *)
Lemma amount_may_have_white_space_around_witness :
  of_str (" " +:+ "1000.00" +:+ String "009" "") = of_str "1000.00"
  /\ add_income "Paycheck" (AmountStr (" " +:+ "1000.00" +:+ String "009" ""))
       None Scenario.fresh
     = add_income "Paycheck" (AmountStr "1000.00") None Scenario.fresh
  /\ add_expense "Paycheck" (AmountStr (" " +:+ "1000.00" +:+ String "009" ""))
       None Scenario.fresh
     = add_expense "Paycheck" (AmountStr "1000.00") None Scenario.fresh.
Proof.
  apply (amount_may_have_white_space_around Scenario.fresh "Paycheck"
           " " "1000.00" (String "009" "") None).
  - reflexivity.
  - reflexivity.
  - discriminate.
Defined.

(** X17: [Decimal(str(d))] is [d] for every [Decimal], of any sign,
    coefficient and exponent, infinite, or a NaN with its payload: the
    constructor's conversion loses nothing.  So the add operations do the
    same with a [Decimal] amount and with its string, except for a zero,
    which is falsy as a [Decimal] and truthy as a string. *)
Theorem Decimal_amount_or_its_string
    (st : Budget * World) (description : string) (d : Decimal)
    (category : option string) :
  of_str (to_str d) = Ok d
  /\ (__bool__ d = true ->
      add_income description (AmountStr (to_str d)) category st
        = add_income description (AmountDecimal d) category st
      /\ add_expense description (AmountStr (to_str d)) category st
         = add_expense description (AmountDecimal d) category st).
Proof.
  split; [apply DecimalFacts.of_str_to_str |].
  intros Hd. destruct st as [b w].
  rewrite !add_income_unfold, !add_expense_unfold. simpl.
  rewrite DecimalFacts.of_str_to_str, Hd. simpl.
  assert (Hne : String.eqb (to_str d) "" = false).
  { apply String.eqb_neq. intros E.
    pose proof (DecimalFacts.of_str_to_str d) as H. by rewrite E in H. }
  by rewrite Hne.
Qed.

(** The hypothesis in [Decimal_amount_or_its_string] holds for 12.5. *)
Lemma Decimal_amount_or_its_string_witness :
  add_income "Refund" (AmountStr (to_str (Finite false 125 (-1)))) None
    Scenario.fresh
  = add_income "Refund" (AmountDecimal (Finite false 125 (-1))) None
      Scenario.fresh.
Proof.
  destruct (Decimal_amount_or_its_string Scenario.fresh "Refund"
              (Finite false 125 (-1)) None) as [_ H].
  apply H. reflexivity.
Defined.

(** ** Infinite amounts *)

Lemma fix_finite_inv (s : bool) (c : N) (e : Z) (d : Decimal) :
  _fix (Finite s c e) = Ok d -> exists s' c' e', d = Finite s' c' e'.
Proof.
  unfold _fix. destruct (c =? 0)%N; [intros [= <-]; eauto |].
  destruct (Etop <? _); [done |].
  destruct (e <? _); [| intros [= <-]; eauto].
  destruct (prec <? _); (destruct (Etop <? _); [done | intros [= <-]; eauto]).
Qed.

Lemma add_positive (a b d : Decimal) :
  above_minus_infinity a = true -> is_positive b = true ->
  __add__ a b = Ok d ->
  above_minus_infinity d = true
  /\ (a = Infinity false \/ b = Infinity false -> d = Infinity false).
Proof.
  assert (Hfix : forall s c e, _fix (Finite s c e) = Ok d ->
            above_minus_infinity d = true
            /\ (Finite s c e = Infinity false \/ False -> d = Infinity false)).
  { intros s c e (s' & c' & e' & ->)%fix_finite_inv.
    split; [done | by intros [|]]. }
  assert (Hres : forall s c e x, _fix (_rescale s c e x) = Ok d ->
            above_minus_infinity d = true).
  { intros s c e x. unfold _rescale.
    destruct (c =? 0)%N; [apply Hfix |].
    destruct (x <=? e); apply Hfix. }
  unfold __add__, _check_nans.
  destruct a as [s1 c1 e1|[]|], b as [s2 c2 e2|[]|[]]; try discriminate;
    cbv beta iota; intros _ _;
    try match goal with
        | |- Ok _ = Ok _ -> _ => intros [= <-]; split; [done | by intros _]
        end.
  - assert (Hno : Finite s1 c1 e1 = Infinity false
                  \/ Finite s2 c2 e2 = Infinity false -> d = Infinity false)
      by (by intros [|]).
    destruct ((c1 =? 0)%N && (c2 =? 0)%N); [intros ?%Hfix; tauto |].
    destruct (c1 =? 0)%N; [intros ?%Hres; tauto |].
    destruct (c2 =? 0)%N; [intros ?%Hres; tauto |].
    destruct (_ =? 0); intros ?%Hfix; tauto.
  - simpl. intros [= <-]. split; [done | by intros _].
Qed.

Lemma sum_from_positive (l : list Decimal) : forall start n,
  match start with Int _ => True | Dec d => above_minus_infinity d = true end ->
  Forall (fun d => is_positive d = true) l ->
  sum_from start l = Ok n ->
  start = Dec (Infinity false) \/ Infinity false ∈ l ->
  n = Dec (Infinity false).
Proof.
  induction l as [|d l IH]; intros start n Hstart Hall; simpl.
  - intros [= <-] [-> | Hin]; [done | by apply elem_of_nil in Hin].
  - apply Forall_cons in Hall as [Hd Hall].
    destruct (number_add start (Dec d)) as [s|] eqn:Hadd; [|done]. simpl.
    intros Hn Hinf.
    assert (Hs : exists d', s = Dec d' /\ above_minus_infinity d' = true
                 /\ (start = Dec (Infinity false) \/ d = Infinity false ->
                     d' = Infinity false)).
    { destruct start as [z|d0]; simpl in Hadd.
      - destruct (__add__ d (of_int z)) as [d'|] eqn:Hd'; [|done].
        injection Hadd as <-. exists d'. split; [done |].
        destruct d as [sd cd ed|[]|]; try done.
        + unfold __add__, _check_nans, of_int in Hd'. cbv beta iota in Hd'.
          assert (Hfix : forall s c e, _fix (Finite s c e) = Ok d' ->
                    above_minus_infinity d' = true).
          { by intros s c e (s' & c' & e' & ->)%fix_finite_inv. }
          assert (Hres : forall s c e x, _fix (_rescale s c e x) = Ok d' ->
                    above_minus_infinity d' = true).
          { intros s c e x. unfold _rescale.
            destruct (c =? 0)%N; [apply Hfix |].
            destruct (x <=? e); apply Hfix. }
          split; [| by intros [|]].
          revert Hd'.
          destruct ((cd =? 0)%N && (Z.abs_N z =? 0)%N); [apply Hfix |].
          destruct (cd =? 0)%N; [apply Hres |].
          destruct (Z.abs_N z =? 0)%N; [apply Hres |].
          destruct (_ =? 0); apply Hfix.
        + unfold __add__, _check_nans, of_int in Hd'. cbv beta iota in Hd'.
          injection Hd' as <-. done.
      - destruct (__add__ d0 d) as [d'|] eqn:Hd'; [|done].
        injection Hadd as <-. exists d'. split; [done |].
        destruct (add_positive _ _ _ Hstart Hd Hd') as [H1 H2].
        split; [done |]. intros [[= ->] | ->]; apply H2; auto. }
    destruct Hs as (d' & -> & Hd' & Hinf').
    apply (IH (Dec d') n Hd' Hall Hn).
    destruct Hinf as [-> | Hin]; [left; f_equal; apply Hinf'; by left |].
    apply elem_of_cons in Hin as [<- | Hin]; [| by right].
    left. f_equal. apply Hinf'. by right.
Qed.

(** X18: [Infinity] passes the test [amount <= 0], and once a ledger of
    amounts above zero holds an infinite income and an infinite expense,
    [get_balance] raises: each total either raises or is [Infinity], and
    [Infinity - Infinity] is an invalid operation.  (Records are never
    removed, so the balance stays out of reach.) *)
Theorem infinite_amounts_break_the_balance (b : Budget) :
  Forall (fun t => is_positive (amount t) = true) (incomes b ++ expenses b) ->
  Infinity false ∈ amount <$> incomes b ->
  Infinity false ∈ amount <$> expenses b ->
  is_positive (Infinity false) = true
  /\ exists e, get_balance b = Raise e.
Proof.
  intros [Hi He]%Forall_app Hinc Hexp. split; [done |].
  unfold get_balance, get_total_income, get_total_expenses.
  destruct (sum (amount <$> incomes b)) as [ti|] eqn:Hti; simpl; [|eauto].
  destruct (sum (amount <$> expenses b)) as [te|] eqn:Hte; simpl; [|eauto].
  apply sum_from_positive in Hti as ->; [| done | by apply Forall_fmap | auto].
  apply sum_from_positive in Hte as ->; [| done | by apply Forall_fmap | auto].
  eexists. reflexivity.
Qed.

Lemma infinite_added_amounts :
  amount <$> incomes Scenario.infinite_added.1 = [Infinity false]
  /\ amount <$> expenses Scenario.infinite_added.1 = [Infinity false].
Proof. split; vm_compute; reflexivity. Qed.

(** The hypotheses of [infinite_amounts_break_the_balance] hold after the
    forms ("Windfall", "Infinity") and ("Debt", "inf") went through the
    routes. *)
Lemma infinite_amounts_break_the_balance_witness :
  is_positive (Infinity false) = true
  /\ exists e, get_balance Scenario.infinite_added.1 = Raise e.
Proof.
  apply (infinite_amounts_break_the_balance Scenario.infinite_added.1).
  - apply Forall_app.
    split; apply (Forall_of_fmap amount (fun d => is_positive d = true)).
    + rewrite (proj1 infinite_added_amounts). repeat constructor.
    + rewrite (proj2 infinite_added_amounts). repeat constructor.
  - rewrite (proj1 infinite_added_amounts). left.
  - rewrite (proj2 infinite_added_amounts). left.
Defined.

(** ** The totals by category add up to the total *)

Section breakdown.

Variable m : Z.
Hypothesis Hm_low : Etiny <= m.
Hypothesis Hm_high : m <= 0.

Lemma add_all_exact (l : list Decimal) : forall v : Decimal,
  finite_above m v = true ->
  Forall (fun d => finite_above m d = true) l ->
  Z.abs (units_of m v) + abs_sum m l < 10 ^ prec ->
  exists v', add_all v l = Ok v'
             /\ finite_above m v' = true
             /\ units_of m v' = units_of m v + exact_sum m l.
Proof.
  induction l as [|d l IH]; intros v Hv Hall Hlt.
  - exists v. simpl. repeat split; [done |]. unfold exact_sum. simpl. lia.
  - apply Forall_cons in Hall as [Hd Hall].
    rewrite ExactFacts.abs_sum_cons in Hlt.
    pose proof (ExactFacts.abs_sum_nonneg m l) as Hnn.
    destruct (ExactFacts.add_exact m Hm_low Hm_high v d Hv Hd ltac:(lia))
      as (v1 & Hadd & Hf & Hu).
    destruct (IH v1 Hf Hall) as (v' & Hv' & Hf' & Hu'); [rewrite Hu; lia |].
    exists v'. simpl. rewrite Hadd. simpl.
    repeat split; [done.. |].
    rewrite Hu', Hu, ExactFacts.exact_sum_cons. lia.
Qed.

Lemma abs_sum_category (k : string) (l : list Transaction) :
  abs_sum m (amounts_of_category k l) <= abs_sum m (amount <$> l).
Proof.
  induction l as [|t l IH]; [done |].
  rewrite amounts_of_category_cons, fmap_cons, ExactFacts.abs_sum_cons.
  destruct (String.eqb (category t) k).
  - rewrite ExactFacts.abs_sum_cons. lia.
  - lia.
Qed.

Lemma finite_category (k : string) (l : list Transaction) :
  Forall (fun d => finite_above m d = true) (amount <$> l) ->
  Forall (fun d => finite_above m d = true) (amounts_of_category k l).
Proof.
  induction l as [|t l IH]; [done |].
  rewrite fmap_cons, amounts_of_category_cons.
  intros [Ht Hl]%Forall_cons.
  destruct (String.eqb (category t) k); [constructor |]; auto.
Qed.

Lemma sum_of_one_category (cats : list string) (c : string) (u : Z) :
  NoDup cats -> c ∈ cats ->
  foldr Z.add 0 ((fun k => if String.eqb c k then u else 0) <$> cats) = u.
Proof.
  induction 1 as [|k cats Hk _ IH]; [by intros ?%elem_of_nil |].
  rewrite fmap_cons. simpl. intros [->|Hin]%elem_of_cons.
  - rewrite String.eqb_refl.
    assert (H0 : foldr Z.add 0
                   ((fun k0 => if String.eqb k k0 then u else 0) <$> cats) = 0).
    { clear IH. induction cats as [|k' cats IH]; [done |].
      rewrite fmap_cons. simpl.
      apply not_elem_of_cons in Hk as [Hne Hk].
      apply String.eqb_neq in Hne. rewrite Hne, IH; done. }
    lia.
  - assert (Hne : String.eqb c k = false).
    { apply String.eqb_neq. intros ->. done. }
    rewrite Hne, IH; done.
Qed.

Lemma sum_of_sums (A : Type) (f g : A -> Z) (l : list A) :
  foldr Z.add 0 ((fun k => f k + g k) <$> l) =
    foldr Z.add 0 (f <$> l) + foldr Z.add 0 (g <$> l).
Proof.
  induction l as [|a l IH]; [done |].
  rewrite !fmap_cons. simpl. rewrite IH. lia.
Qed.

Lemma exact_sum_by_category (cats : list string) (l : list Transaction) :
  NoDup cats ->
  Forall (fun t => category t ∈ cats) l ->
  foldr Z.add 0 ((fun k => exact_sum m (amounts_of_category k l)) <$> cats)
  = exact_sum m (amount <$> l).
Proof.
  intros Hnd. induction 1 as [|t l Ht _ IH].
  - induction cats as [|k cats IHc]; [done |].
    rewrite fmap_cons. simpl. apply NoDup_cons in Hnd as [_ Hnd].
    by rewrite (IHc Hnd).
  - rewrite fmap_cons, ExactFacts.exact_sum_cons, <- IH.
    rewrite <- (sum_of_one_category cats (category t) (units_of m (amount t))
                  Hnd Ht).
    rewrite <- sum_of_sums. f_equal. apply list_fmap_ext. intros _ k _.
    rewrite amounts_of_category_cons.
    destruct (String.eqb (category t) k);
      [by rewrite ExactFacts.exact_sum_cons | lia].
Qed.

End breakdown.

(** X19: the totals by category add up to the total.  When the categories
    of [expense_categories] are distinct, every expense has one of them, and
    the amounts are finite with at most [-m] decimal places and a sum of
    absolute values below [10^28] in units of [10^m], then
    [get_expenses_by_category] and [get_total_expenses] both return, and the
    values of the dictionary, added over the categories, are the value of
    the total. *)
Theorem category_totals_add_up (b : Budget) (m : Z) :
  Etiny <= m -> m <= 0 ->
  NoDup (expense_categories b) ->
  Forall (fun t => category t ∈ expense_categories b) (expenses b) ->
  Forall (fun d => finite_above m d = true) (amount <$> expenses b) ->
  abs_sum m (amount <$> expenses b) < 10 ^ prec ->
  exists (totals : gmap string Decimal) (total : number),
    get_expenses_by_category b = Ok totals
    /\ get_total_expenses b = Ok total
    /\ foldr Z.add 0
         ((fun k => match totals !! k with
                    | Some v => units_of m v
                    | None => 0
                    end) <$> expense_categories b)
       = number_units m total.
Proof.
  intros Hlow Hhigh Hnd Hcat Hfin Hlt.
  destruct (ExactFacts.sum_exact m Hlow Hhigh _ Hfin Hlt)
    as (total & Htotal & _ & Hu).
  set (zero := Finite false 0 0).
  assert (Hzero : finite_above m zero = true) by (by apply Z.leb_le).
  assert (Hsum : forall k, exists v,
            add_all zero (amounts_of_category k (expenses b)) = Ok v
            /\ units_of m v = exact_sum m (amounts_of_category k (expenses b))).
  { intros k.
    destruct (add_all_exact m Hlow Hhigh
                (amounts_of_category k (expenses b)) zero Hzero)
      as (v & Hv & _ & Huv).
    - by apply finite_category.
    - pose proof (abs_sum_category m k (expenses b)).
      change (units_of m zero) with (units m false 0 0).
      unfold units. simpl. lia.
    - exists v. split; [done |]. rewrite Huv.
      change (units_of m zero) with (units m false 0 0).
      unfold units. simpl. lia. }
  unfold get_expenses_by_category. fold zero.
  set (m0 := list_to_map _ : gmap string Decimal).
  assert (Hm0 : forall k, m0 !! k =
            if decide (k ∈ expense_categories b) then Some zero else None)
    by apply initial_totals_lookup.
  destruct (add_expenses_to_categories_total (expenses b) m0)
    as [totals Htotals].
  { eapply Forall_impl; [exact Hcat |]. intros t Ht. rewrite Hm0.
    rewrite decide_True by done. eauto. }
  { intros k v Hk. rewrite Hm0 in Hk.
    destruct (decide (k ∈ expense_categories b)); [|done].
    injection Hk as <-. destruct (Hsum k) as (v & Hv & _). eauto. }
  exists totals, total. split; [exact Htotals |]. split; [exact Htotal |].
  rewrite Hu, <- (exact_sum_by_category m _ _ Hnd Hcat).
  apply add_expenses_to_categories_ok in Htotals as (_ & _ & Hvals).
  f_equal. apply list_fmap_ext. intros i k Hk.
  apply list_elem_of_lookup_2 in Hk.
  destruct (Hvals k zero) as (v' & -> & Hv').
  { rewrite Hm0. by rewrite decide_True. }
  destruct (Hsum k) as (v & Hv & Huv). congruence.
Qed.

Lemma groceries_added_expenses :
  expense_categories Scenario.groceries_added.1 =
    ["Food"; "Transportation"; "Housing"; "Entertainment"; "Other"]
  /\ category <$> expenses Scenario.groceries_added.1 = ["Food"]
  /\ amount <$> expenses Scenario.groceries_added.1
     = [Finite false 15050 (-2)].
Proof. repeat split; vm_compute; reflexivity. Qed.

(** The hypotheses of [category_totals_add_up] hold on the ledger with the
    groceries, counted in cents. *)
Lemma category_totals_add_up_witness :
  exists (totals : gmap string Decimal) (total : number),
    get_expenses_by_category Scenario.groceries_added.1 = Ok totals
    /\ get_total_expenses Scenario.groceries_added.1 = Ok total
    /\ foldr Z.add 0
         ((fun k => match totals !! k with
                    | Some v => units_of (-2) v
                    | None => 0
                    end) <$> expense_categories Scenario.groceries_added.1)
       = number_units (-2) total.
Proof.
  destruct groceries_added_expenses as (Hcats & Hcat & Hamounts).
  apply (category_totals_add_up Scenario.groceries_added.1 (-2)).
  - vm_compute. discriminate.
  - vm_compute. discriminate.
  - rewrite Hcats. refine (bool_decide_unpack _ _). vm_compute. reflexivity.
  - apply (Forall_of_fmap category
             (fun c => c ∈ expense_categories Scenario.groceries_added.1)).
    rewrite Hcat, Hcats. repeat constructor.
  - rewrite Hamounts. repeat constructor.
  - rewrite Hamounts. vm_compute. reflexivity.
Defined.
